(** * load-tester: a shallow embedding of [sync-app.js]

    The development follows the source file top to bottom:
    [validateInputs], [getResponseSize], [loadTest] and the metrics that
    [runTest] derives from the returned [results] object; the earlier
    [loadTest] kept in [src/unnamed/part_000] and [formatTimestamp] come
    after them.

    Conventions.
    - A JavaScript number that the program obtains by parsing text or by
      dividing is an IEEE-754 binary64 value ([F64.number]); its operations
      are those of [SpecFloat] at precision 53.
    - Counters, indices and [Date.now()] readings are integers far below
      2^53, where the double operations [++], [+] and [-] are exact; they
      are kept in [Z].
    - A JavaScript string is the sequence of its UTF-8 bytes, so that
      [Buffer.byteLength(s, 'utf8')] is [String.length]. *)

From Stdlib Require Import ZArith List String Ascii Lia Bool.
From Stdlib Require Import Floats.SpecFloat.
From stdpp Require Import gmap strings list pretty sorting.

Set Warnings "-register-all".

Local Open Scope Z_scope.

(** ** Binary64 numbers *)

Module F64.

Definition prec : Z := 53.
Definition emax : Z := 1024.

Definition number : Type := spec_float.

Definition nan : number := S754_nan.
Definition zero : number := S754_zero false.

(** The double nearest to an integer (exact below 2^53). *)
Definition of_Z (z : Z) : number := binary_normalize prec emax z 0 false.

Definition add : number -> number -> number := SFadd prec emax.
Definition mul : number -> number -> number := SFmul prec emax.
Definition div : number -> number -> number := SFdiv prec emax.

Definition ltb : number -> number -> bool := SFltb.
Definition leb : number -> number -> bool := SFleb.
Definition eqb : number -> number -> bool := SFeqb.

(** [Number.isFinite]. *)
Definition isFinite (x : number) : bool :=
  match x with
  | S754_zero _ | S754_finite _ _ _ => true
  | S754_infinity _ | S754_nan => false
  end.

(** [Number.isInteger]: finite with no fractional bits. *)
Definition isInteger (x : number) : bool :=
  match x with
  | S754_zero _ => true
  | S754_finite _ m e =>
      if 0 <=? e then true
      else Zpos m =? Z.shiftl (Z.shiftr (Zpos m) (- e)) (- e)
  | S754_infinity _ | S754_nan => false
  end.

(** [Math.ceil].  A value with a non-negative exponent is already an
    integer; otherwise the mantissa is cut at the binary point.  The
    ceiling of a negative value above -1 is -0. *)
Definition Math_ceil (x : number) : number :=
  match x with
  | S754_finite s m e =>
      if 0 <=? e then x
      else
        let q := Z.shiftr (Zpos m) (- e) in
        if s then
          if q =? 0 then S754_zero true
          else binary_normalize prec emax (- q) 0 true
        else
          if Zpos m =? Z.shiftl q (- e) then of_Z q else of_Z (q + 1)
  | _ => x
  end.

(** The integer an integer-valued double stands for. *)
Definition to_Z (x : number) : Z :=
  match x with
  | S754_finite s m e =>
      let a := if 0 <=? e then Z.shiftl (Zpos m) e
               else Z.shiftr (Zpos m) (- e) in
      if s then - a else a
  | _ => 0
  end.

End F64.

Abbreviation number := F64.number.

(** ** Strings *)

Definition byte_of (c : ascii) : Z := Z.of_nat (nat_of_ascii c).

(** [Buffer.byteLength(s, 'utf8')]. *)
Definition Buffer_byteLength (s : string) : Z := Z.of_nat (String.length s).

(** [s.startsWith(p)], returning the remainder. *)
Fixpoint strip_prefix (p s : string) : option string :=
  match p, s with
  | EmptyString, _ => Some s
  | String a p', String b s' =>
      if Ascii.eqb a b then strip_prefix p' s' else None
  | String _ _, EmptyString => None
  end.

(** The UTF-8 encodings of the white space that [parseInt] trims
    (StrWhiteSpaceChar: TAB, VT, FF, SP, NBSP, ZWNBSP, category Zs, and the
    four line terminators). *)
Definition white_space : list (list Z) :=
  [ [9]; [10]; [11]; [12]; [13]; [32];
    [194; 160];
    [225; 154; 128];
    [226; 128; 128]; [226; 128; 129]; [226; 128; 130]; [226; 128; 131];
    [226; 128; 132]; [226; 128; 133]; [226; 128; 134]; [226; 128; 135];
    [226; 128; 136]; [226; 128; 137]; [226; 128; 138];
    [226; 128; 168]; [226; 128; 169]; [226; 128; 175];
    [226; 129; 159];
    [227; 128; 128];
    [239; 187; 191] ].

Fixpoint strip_bytes (bs : list Z) (s : string) : option string :=
  match bs, s with
  | [], _ => Some s
  | b :: bs', String c s' =>
      if b =? byte_of c then strip_bytes bs' s' else None
  | _ :: _, EmptyString => None
  end.

Fixpoint strip_one_of (ws : list (list Z)) (s : string) : option string :=
  match ws with
  | [] => None
  | w :: ws' =>
      match strip_bytes w s with
      | Some r => Some r
      | None => strip_one_of ws' s
      end
  end.

(** Leading white space removed; [fuel] bounds the number of blanks, and
    the length of the string is always enough. *)
Fixpoint trim_start_fuel (fuel : nat) (s : string) : string :=
  match fuel with
  | O => s
  | S fuel' =>
      match strip_one_of white_space s with
      | Some r => trim_start_fuel fuel' r
      | None => s
      end
  end.

Definition trim_start (s : string) : string :=
  trim_start_fuel (String.length s) s.

Definition digit_of (c : ascii) : option Z :=
  let b := byte_of c in
  if (48 <=? b) && (b <=? 57) then Some (b - 48) else None.

(** The longest prefix of decimal digits, as [Some] of its value, or
    [None] when the text does not start with a digit. *)
Fixpoint leading_digits (acc : option Z) (s : string) : option Z :=
  match s with
  | EmptyString => acc
  | String c s' =>
      match digit_of c with
      | Some d => leading_digits (Some (10 * default 0 acc + d)) s'
      | None => acc
      end
  end.

(** [parseInt(s, 10)]. *)
Definition parseInt (s : string) : number :=
  let s1 := trim_start s in
  let '(neg, s2) :=
    match s1 with
    | String "-" r => (true, r)
    | String "+" r => (false, r)
    | _ => (false, s1)
    end in
  match leading_digits None s2 with
  | None => F64.nan
  | Some n =>
      if neg then binary_normalize F64.prec F64.emax (- n) 0 true
      else F64.of_Z n
  end.

(** ** [Number::toString]

    The decimal text of a double: the shortest digits that read back as
    the same double, the nearest to it among those, set out in positional
    or in exponent notation according to the place of the decimal point. *)

(** [m * 2^e / 10^q] as a fraction of two positive integers. *)
Definition scaled (m : positive) (e q : Z) : Z * Z :=
  (Zpos m * 2 ^ Z.max e 0 * 10 ^ Z.max (- q) 0,
   2 ^ Z.max (- e) 0 * 10 ^ Z.max q 0).

Definition floor_scaled (m : positive) (e q : Z) : Z :=
  let '(a, b) := scaled m e q in a / b.

(** The least [n], counted up from [n], with [m * 2^e < 10^n]. *)
Fixpoint decade_from (fuel : nat) (m : positive) (e n : Z) : Z :=
  match fuel with
  | O => n
  | S fuel' =>
      if floor_scaled m e n =? 0 then n else decade_from fuel' m e (n + 1)
  end.

(** The [n] with [10^(n-1) <= m * 2^e < 10^n].  With [b] the number of
    bits of the value, [2^(b-1) <= m * 2^e < 2^b], so [n] is [b * log 2]
    rounded down, or one more: the search starts one below the estimate. *)
Definition decade (m : positive) (e : Z) : Z :=
  decade_from 4 m e ((Zdigits2 (Zpos m) + e) * 30103 / 100000 - 1).

(** The double nearest to [s * 10^q], for [s > 0]. *)
Definition Number_of_decimal (s q : Z) : number :=
  if 0 <=? q then F64.of_Z (s * 10 ^ q)
  else
    let '(mz, ez, lz) :=
      SFdiv_core_binary F64.prec F64.emax s 0 (10 ^ (- q)) 0 in
    binary_round_aux F64.prec F64.emax false mz ez lz.

(** The [s] of [k] digits, if there is one, for which [s * 10^(n-k)] reads
    back as the double: the two integers around [m * 2^e / 10^(n-k)] are
    the only ones to try, and of two that read back the nearer one is
    taken, the even one on a tie. *)
Definition digits_at (m : positive) (e n k : Z) : option Z :=
  let q := n - k in
  let '(a, b) := scaled m e q in
  let lo := a / b in
  let hi := lo + 1 in
  let x := S754_finite false m e in
  let ok_lo := F64.eqb (Number_of_decimal lo q) x in
  let ok_hi := F64.eqb (Number_of_decimal hi q) x in
  let hi_nearer :=
    match 2 * (a mod b) ?= b with
    | Gt => true
    | Eq => Z.odd lo
    | Lt => false
    end in
  if ok_lo && ok_hi then Some (if hi_nearer then hi else lo)
  else if ok_lo then Some lo
  else if ok_hi then Some hi
  else None.

(** The digits [s], their number [k] and the place [n] of the decimal
    point, with [k] as small as possible; 17 digits always suffice. *)
Fixpoint shortest_from (fuel : nat) (m : positive) (e n k : Z) : Z * Z * Z :=
  match fuel with
  | O => (floor_scaled m e (n - k), k, n)
  | S fuel' =>
      match digits_at m e n k with
      | Some s => if s =? 10 ^ k then (10 ^ (k - 1), k, n + 1) else (s, k, n)
      | None => shortest_from fuel' m e n (k + 1)
      end
  end.

Definition shortest (m : positive) (e : Z) : Z * Z * Z :=
  shortest_from 17 m e (decade m e) 1.

Fixpoint zeros (n : nat) : string :=
  match n with
  | O => EmptyString
  | S n' => String "0" (zeros n')
  end.

Definition Number_toString_positive (m : positive) (e : Z) : string :=
  let '(s, k, n) := shortest m e in
  let digits : string := pretty s in
  if (k <=? n) && (n <=? 21) then digits +:+ zeros (Z.to_nat (n - k))
  else if (0 <? n) && (n <=? 21) then
    substring 0 (Z.to_nat n) digits +:+ "."
      +:+ substring (Z.to_nat n) (Z.to_nat (k - n)) digits
  else if (-6 <? n) && (n <=? 0) then
    "0." +:+ zeros (Z.to_nat (- n)) +:+ digits
  else
    let exponent : string :=
      (if n - 1 <? 0 then "-" else "+") +:+ pretty (Z.abs (n - 1)) in
    if k =? 1 then digits +:+ "e" +:+ exponent
    else
      substring 0 1 digits +:+ "."
        +:+ substring 1 (Z.to_nat (k - 1)) digits +:+ "e" +:+ exponent.

Definition Number_toString (x : number) : string :=
  match x with
  | S754_nan => "NaN"
  | S754_infinity s => if s then "-Infinity" else "Infinity"
  | S754_zero _ => "0"
  | S754_finite s m e =>
      (if s then "-" else EmptyString) +:+ Number_toString_positive m e
  end.

(** ** JSON values and [JSON.stringify]

    The body that axios hands over ([response.data]) is a string or the
    value decoded from a JSON text; a number is a double. *)

Inductive value : Type :=
  | VNull
  | VBool (b : bool)
  | VNumber (x : number)
  | VString (s : string)
  | VArray (items : list value)
  | VObject (props : list (string * value)).

(** ToBoolean. *)
Definition truthy (v : value) : bool :=
  match v with
  | VNull => false
  | VBool b => b
  | VNumber x =>
      match x with
      | S754_zero _ | S754_nan => false
      | _ => true
      end
  | VString s => negb (String.eqb s EmptyString)
  | VArray _ | VObject _ => true
  end.

Definition hex_digit (n : Z) : ascii :=
  ascii_of_nat (Z.to_nat (if n <? 10 then 48 + n else 87 + n)).

Definition dquote : string := String (ascii_of_nat 34) EmptyString.
Definition backslash : string := String (ascii_of_nat 92) EmptyString.

(** QuoteJSONString, one byte at a time: the quote, the backslash and the
    control characters are escaped, every other byte is copied. *)
Definition quote_char (c : ascii) : string :=
  let b := byte_of c in
  if b =? 34 then backslash +:+ dquote
  else if b =? 92 then backslash +:+ backslash
  else if b =? 8 then backslash +:+ "b"
  else if b =? 9 then backslash +:+ "t"
  else if b =? 10 then backslash +:+ "n"
  else if b =? 12 then backslash +:+ "f"
  else if b =? 13 then backslash +:+ "r"
  else if b <? 32 then
    backslash +:+ "u00"
      +:+ String (hex_digit (b / 16)) (String (hex_digit (b mod 16)) EmptyString)
  else String c EmptyString.

Fixpoint quote_chars (s : string) : string :=
  match s with
  | EmptyString => EmptyString
  | String c s' => quote_char c +:+ quote_chars s'
  end.

Definition quote (s : string) : string := dquote +:+ quote_chars s +:+ dquote.

Fixpoint JSON_stringify (v : value) : string :=
  match v with
  | VNull => "null"
  | VBool true => "true"
  | VBool false => "false"
  | VNumber x => if F64.isFinite x then Number_toString x else "null"
  | VString s => quote s
  | VArray items =>
      let fix elements (l : list value) : string :=
        match l with
        | [] => EmptyString
        | [x] => JSON_stringify x
        | x :: r => JSON_stringify x +:+ "," +:+ elements r
        end in
      "[" +:+ elements items +:+ "]"
  | VObject props =>
      let fix members (l : list (string * value)) : string :=
        match l with
        | [] => EmptyString
        | [(k, x)] => quote k +:+ ":" +:+ JSON_stringify x
        | (k, x) :: r =>
            quote k +:+ ":" +:+ JSON_stringify x +:+ "," +:+ members r
        end in
      "{" +:+ members props +:+ "}"
  end.

(** ** The HTTP client's results

    [axios.get] either resolves with a response or rejects with an error
    that carries a message and, when the server answered, the response. *)

Module Axios.

Record Response : Type := mkResponse {
  status : Z;
  headers : option (gmap string string);
  data : option value
}.

Record Error : Type := mkError {
  message : string;
  response : option Response
}.

Inductive Result : Type :=
  | Resolved (r : Response)
  | Rejected (e : Error).

End Axios.

(** ** [getResponseSize] *)

(** [response.headers && response.headers['content-length']]. *)
Definition content_length (r : Axios.Response) : option string :=
  match Axios.headers r with
  | Some h => h !! "content-length"
  | None => None
  end.

Definition getResponseSize (response : option Axios.Response) : number :=
  match response with
  | None => F64.zero
  | Some r =>
      match content_length r with
      | Some (String c s) => parseInt (String c s)
      | _ =>
          match Axios.data r with
          | Some d =>
              if truthy d then F64.of_Z (Buffer_byteLength (JSON_stringify d))
              else F64.zero
          | None => F64.zero
          end
      end
  end.

(** ** [validateInputs] *)

Inductive Completion (A : Type) : Type :=
  | Returned (a : A)
  | Thrown (msg : string).

Arguments Returned {A} a.
Arguments Thrown {A} msg.

(** A line terminator: the one thing [.] does not match. *)
Definition starts_with_line_terminator (s : string) : bool :=
  match strip_one_of [[10]; [13]; [226; 128; 168]; [226; 128; 169]] s with
  | Some _ => true
  | None => false
  end.

(** [url.match(/^https?:\/\/.+/)] is not null. *)
Definition url_matches (url : string) : bool :=
  let rest :=
    match strip_prefix "http://" url with
    | Some r => Some r
    | None => strip_prefix "https://" url
    end in
  match rest with
  | Some (String c r) => negb (starts_with_line_terminator (String c r))
  | _ => false
  end.

Definition validateInputs (url : string) (totalRequests timeWindowSeconds : number)
  : Completion unit :=
  if negb (url_matches url) then
    Thrown "Invalid or missing URL. Please provide a valid URL starting with http:// or https://"
  else if negb (F64.isInteger totalRequests) || F64.leb totalRequests F64.zero then
    Thrown "Invalid totalRequests. Please provide a positive integer."
  else if negb (F64.isFinite timeWindowSeconds) || F64.leb timeWindowSeconds F64.zero then
    Thrown "Invalid timeWindowSeconds. Please provide a positive number."
  else Returned tt.

(** ** The objects of [loadTest] *)

Module ResponseData.

(** [status] holds the string ['N/A'] or the numeric HTTP status. *)
Inductive Status : Type :=
  | NA
  | Code (c : Z).

Record t : Type := mk {
  requestNumber : Z;
  timeMs : Z;
  status : Status;
  success : bool;
  sizeBytes : number;
  error : option string
}.

End ResponseData.

Module Results.

Record t : Type := mk {
  totalRequests : Z;
  timeWindowSeconds : number;
  successfulRequests : Z;
  failedRequests : Z;
  responses : list ResponseData.t;
  totalTimeTakenMs : Z;
  firstQueryStartTime : option Z;
  lastQueryStartTime : option Z;
  totalResponseSizeBytes : number
}.

Definition set_firstQueryStartTime (v : Z) (r : t) : t :=
  mk (totalRequests r) (timeWindowSeconds r) (successfulRequests r)
     (failedRequests r) (responses r) (totalTimeTakenMs r)
     (Some v) (lastQueryStartTime r) (totalResponseSizeBytes r).

Definition set_lastQueryStartTime (v : Z) (r : t) : t :=
  mk (totalRequests r) (timeWindowSeconds r) (successfulRequests r)
     (failedRequests r) (responses r) (totalTimeTakenMs r)
     (firstQueryStartTime r) (Some v) (totalResponseSizeBytes r).

Definition set_totalTimeTakenMs (v : Z) (r : t) : t :=
  mk (totalRequests r) (timeWindowSeconds r) (successfulRequests r)
     (failedRequests r) (responses r) v
     (firstQueryStartTime r) (lastQueryStartTime r)
     (totalResponseSizeBytes r).

(** [results.successfulRequests++; results.totalResponseSizeBytes +=
    d.sizeBytes; ...; results.responses.push(d)]. *)
Definition record_success (d : ResponseData.t) (r : t) : t :=
  mk (totalRequests r) (timeWindowSeconds r) (successfulRequests r + 1)
     (failedRequests r) (responses r ++ [d]) (totalTimeTakenMs r)
     (firstQueryStartTime r) (lastQueryStartTime r)
     (F64.add (totalResponseSizeBytes r) (ResponseData.sizeBytes d)).

(** [results.failedRequests++; results.totalResponseSizeBytes +=
    d.sizeBytes; ...; results.responses.push(d)]. *)
Definition record_failure (d : ResponseData.t) (r : t) : t :=
  mk (totalRequests r) (timeWindowSeconds r) (successfulRequests r)
     (failedRequests r + 1) (responses r ++ [d]) (totalTimeTakenMs r)
     (firstQueryStartTime r) (lastQueryStartTime r)
     (F64.add (totalResponseSizeBytes r) (ResponseData.sizeBytes d)).

End Results.

(** ** [loadTest]

    The body of [loadTest] runs to its [await]; from then on the event loop
    runs pieces of the units of work, one at a time and each to its next
    [await].  A unit of work has two pieces: the lines up to
    [await axios.get], run when the limiter admits it, and the lines after
    it, run when the call settles.  The environment chooses the order of
    these pieces, the clock readings and the results of the calls; the
    limiter ([async-throttle], a package outside the repository) is left
    free to admit the submitted units in any order. *)

Inductive Event : Type :=
  | Admit (index : Z) (now : Z)
  | Settle (index : Z) (outcome : Axios.Result) (now : Z).

(** An admitted unit of work waiting for its call: the variables its
    closure holds. *)
Record Task : Type := mkTask {
  index : Z;
  requestStartTime : Z;
  responseData : ResponseData.t
}.

(** [throttle(requestsPerSecond)] and the units submitted to it that have
    not started. *)
Record Throttle : Type := mkThrottle {
  rate : number;
  queued : list Z
}.

Record State : Type := mkState {
  results : Results.t;
  throttleRequests : Throttle;
  inflight : list Task
}.

Definition requestsPerSecond (totalRequests : Z) (timeWindowSeconds : number)
  : number :=
  F64.Math_ceil (F64.div (F64.of_Z totalRequests) timeWindowSeconds).

(** Lines 76-93: the unit of work up to its call. *)
Definition begin_request (totalRequests index now : Z) (results : Results.t)
  : Results.t * Task :=
  let results :=
    if index =? 0 then Results.set_firstQueryStartTime now results
    else results in
  let results :=
    if index =? totalRequests - 1
    then Results.set_lastQueryStartTime now results
    else results in
  (results,
   mkTask index now
     (ResponseData.mk (index + 1) 0 ResponseData.NA false F64.zero None)).

(** Lines 95-112: the record the unit of work fills in. *)
Definition settle (task : Task) (outcome : Axios.Result) (now : Z)
  : ResponseData.t :=
  let d := responseData task in
  match outcome with
  | Axios.Resolved response =>
      ResponseData.mk (ResponseData.requestNumber d)
        (now - requestStartTime task)
        (ResponseData.Code (Axios.status response))
        true
        (getResponseSize (Some response))
        (ResponseData.error d)
  | Axios.Rejected error =>
      ResponseData.mk (ResponseData.requestNumber d)
        (now - requestStartTime task)
        (match Axios.response error with
         | Some r => ResponseData.Code (Axios.status r)
         | None => ResponseData.NA
         end)
        (ResponseData.success d)
        (match Axios.response error with
         | Some r => getResponseSize (Some r)
         | None => F64.zero
         end)
        (Some (Axios.message error))
  end.

(** Lines 95-125: the unit of work from the moment its call settles. *)
Definition finish_request (task : Task) (outcome : Axios.Result) (now : Z)
    (results : Results.t) : Results.t :=
  let d := settle task outcome now in
  match outcome with
  | Axios.Resolved _ => Results.record_success d results
  | Axios.Rejected _ => Results.record_failure d results
  end.

(** The first occurrence of [i] taken out of the queue. *)
Fixpoint dequeue (i : Z) (q : list Z) : option (list Z) :=
  match q with
  | [] => None
  | j :: q' =>
      if i =? j then Some q'
      else option_map (cons j) (dequeue i q')
  end.

(** The task of unit [i] taken out of the tasks in flight. *)
Fixpoint take_task (i : Z) (l : list Task) : option (Task * list Task) :=
  match l with
  | [] => None
  | t :: l' =>
      if i =? index t then Some (t, l')
      else
        match take_task i l' with
        | Some (t', r) => Some (t', t :: r)
        | None => None
        end
  end.

(** One piece of work; [None] when the event cannot happen in this state
    (a unit that was not submitted or has started already, a call that is
    not in flight). *)
Definition step (totalRequests : Z) (st : State) (e : Event) : option State :=
  match e with
  | Admit i now =>
      match dequeue i (queued (throttleRequests st)) with
      | Some q =>
          let '(results, task) := begin_request totalRequests i now (results st) in
          Some (mkState results (mkThrottle (rate (throttleRequests st)) q)
                  (task :: inflight st))
      | None => None
      end
  | Settle i outcome now =>
      match take_task i (inflight st) with
      | Some (task, rest) =>
          Some (mkState (finish_request task outcome now (results st))
                  (throttleRequests st) rest)
      | None => None
      end
  end.

Fixpoint run (totalRequests : Z) (st : State) (trace : list Event)
  : option State :=
  match trace with
  | [] => Some st
  | e :: trace' =>
      match step totalRequests st e with
      | Some st' => run totalRequests st' trace'
      | None => None
      end
  end.

(** Lines 54-74: the state when [loadTest] reaches [Promise.all], every
    unit submitted in index order. *)
Definition initial (totalRequests : Z) (timeWindowSeconds : number) : State :=
  mkState
    (Results.mk totalRequests timeWindowSeconds 0 0 [] 0 None None F64.zero)
    (mkThrottle (requestsPerSecond totalRequests timeWindowSeconds)
       (seqZ 0 totalRequests))
    [].

(** [Promise.all] resolves once every unit has finished. *)
Definition all_settled (st : State) : bool :=
  match queued (throttleRequests st), inflight st with
  | [], [] => true
  | _, _ => false
  end.

(** What the environment supplies to one call of [loadTest]: the clock
    reading at line 71, the pieces of work in the order the event loop runs
    them, and the clock reading at line 133. *)
Record Environment : Type := mkEnvironment {
  startTime : Z;
  trace : list Event;
  endTime : Z
}.

(** [Array.from({ length })] refuses a length above 2^32 - 1. *)
Definition max_array_length : Z := 4294967295.

(** [loadTest]: [None] when the environment is not a complete execution of
    the call (an event that cannot happen, or units still outstanding at
    the end of the trace, where the returned promise never resolves).  The
    results of the calls are the environment's, so [url] only names the
    target. *)
Definition loadTest (url : string) (totalRequests : Z)
    (timeWindowSeconds : number) (env : Environment)
  : option (Completion Results.t) :=
  if max_array_length <? totalRequests then Some (Thrown "Invalid array length")
  else
    match run totalRequests (initial totalRequests timeWindowSeconds) (trace env) with
    | Some st =>
        if all_settled st then
          Some (Returned
                  (Results.set_totalTimeTakenMs (endTime env - startTime env)
                     (results st)))
        else None
    | None => None
    end.

(** ** The metrics of [runTest]

    [x.toFixed(2)] is a text.  It is kept by its parts: the sign and the
    number of hundredths for the decimal form [d.dd], and the number itself
    where [toFixed] falls back on [Number::toString] (magnitude from 10^21
    on). *)

Inductive NumericText : Type :=
  | TNaN
  | TInfinity (negative : bool)
  | TFixed (negative : bool) (hundredths : Z)
  | TLarge (x : number).

(** The integer nearest to [100 * m * 2^e], the larger one on a tie. *)
Definition hundredths_of (m : positive) (e : Z) : Z :=
  if 0 <=? e then 100 * Z.shiftl (Zpos m) e
  else (200 * Zpos m + Z.shiftl 1 (- e)) / Z.shiftl 1 (1 - e).

(** [x.toFixed(2)]. *)
Definition toFixed2 (x : number) : NumericText :=
  match x with
  | S754_nan => TNaN
  | S754_infinity s => TInfinity s
  | S754_zero _ => TFixed false 0
  | S754_finite s m e =>
      if F64.leb (F64.of_Z (10 ^ 21)) (S754_finite false m e) then TLarge x
      else TFixed s (hundredths_of m e)
  end.

(** ToNumber of such a text, as the division operator applies it to a
    string operand: the double nearest to the decimal. *)
Definition Number_of_text (t : NumericText) : number :=
  match t with
  | TNaN => F64.nan
  | TInfinity s => S754_infinity s
  | TFixed s h =>
      match h with
      | Zpos p => F64.div (S754_finite s p 0) (F64.of_Z 100)
      | _ => S754_zero s
      end
  | TLarge x => x
  end.

(** A value that is either such a text or the number literal of the other
    branch of a conditional. *)
Inductive Metric : Type :=
  | Text (t : NumericText)
  | Num (x : number).

Record Summary : Type := mkSummary {
  errorRate : NumericText;
  averageResponseTimeMs : Metric;
  totalResponseSizeMB : NumericText;
  totalTimeSeconds : number;
  mbps : Metric
}.

(** [responses.reduce((sum, res) => sum + res.timeMs, 0)]. *)
Definition sum_timeMs (responses : list ResponseData.t) : Z :=
  fold_left (fun sum res => sum + ResponseData.timeMs res) responses 0.

(** Lines 174-180. *)
Definition summarize (result : Results.t) : Summary :=
  let errorRate :=
    toFixed2
      (F64.mul
         (F64.div (F64.of_Z (Results.failedRequests result))
                  (F64.of_Z (Results.totalRequests result)))
         (F64.of_Z 100)) in
  let length := Z.of_nat (List.length (Results.responses result)) in
  let averageResponseTimeMs :=
    if 0 <? length
    then Text (toFixed2
                 (F64.div (F64.of_Z (sum_timeMs (Results.responses result)))
                          (F64.of_Z length)))
    else Num F64.zero in
  let totalResponseSizeMB :=
    toFixed2 (F64.div (Results.totalResponseSizeBytes result)
                      (F64.of_Z (1024 * 1024))) in
  let totalTimeSeconds :=
    F64.div (F64.of_Z (Results.totalTimeTakenMs result)) (F64.of_Z 1000) in
  let mbps :=
    if F64.ltb F64.zero totalTimeSeconds
    then Text (toFixed2
                 (F64.div (Number_of_text totalResponseSizeMB)
                          totalTimeSeconds))
    else Num F64.zero in
  mkSummary errorRate averageResponseTimeMs totalResponseSizeMB
    totalTimeSeconds mbps.

(** [runTest] from the parsed answers on: validation, the load test and
    the metrics.  A thrown error is caught and its message printed; no
    result is reported then. *)
Definition runTest (url : string) (totalRequests timeWindowSeconds : number)
    (env : Environment) : option (Completion (Results.t * Summary)) :=
  match validateInputs url totalRequests timeWindowSeconds with
  | Thrown msg => Some (Thrown msg)
  | Returned _ =>
      match loadTest url (F64.to_Z totalRequests) timeWindowSeconds env with
      | Some (Returned result) => Some (Returned (result, summarize result))
      | Some (Thrown msg) => Some (Thrown msg)
      | None => None
      end
  end.

(** ** The earlier program

    [src/unnamed/part_000] keeps two earlier versions of the program.  The
    second one (its [loadTest] is at lines 182-248) has the units of work
    of [sync-app.js] without the sizes and without the first and last start
    times; it is embedded here over the same events. *)

Module Earlier.

(** [status] as before: the string ['N/A'] or the numeric HTTP status. *)
Definition Status : Type := ResponseData.Status.
Definition NA : Status := ResponseData.NA.
Definition Code (c : Z) : Status := ResponseData.Code c.

Module ResponseData.

Record t : Type := mk {
  requestNumber : Z;
  timeMs : Z;
  status : Status;
  success : bool;
  error : option string
}.

End ResponseData.

Module Results.

Record t : Type := mk {
  totalRequests : Z;
  timeWindowSeconds : number;
  successfulRequests : Z;
  failedRequests : Z;
  responses : list ResponseData.t;
  totalTimeTakenMs : Z
}.

Definition set_totalTimeTakenMs (v : Z) (r : t) : t :=
  mk (totalRequests r) (timeWindowSeconds r) (successfulRequests r)
     (failedRequests r) (responses r) v.

(** [results.successfulRequests++; ...; results.responses.push(d)]. *)
Definition record_success (d : ResponseData.t) (r : t) : t :=
  mk (totalRequests r) (timeWindowSeconds r) (successfulRequests r + 1)
     (failedRequests r) (responses r ++ [d]) (totalTimeTakenMs r).

(** [results.failedRequests++; ...; results.responses.push(d)]. *)
Definition record_failure (d : ResponseData.t) (r : t) : t :=
  mk (totalRequests r) (timeWindowSeconds r) (successfulRequests r)
     (failedRequests r + 1) (responses r ++ [d]) (totalTimeTakenMs r).

End Results.

Record Task : Type := mkTask {
  index : Z;
  requestStartTime : Z;
  responseData : ResponseData.t
}.

Record State : Type := mkState {
  results : Results.t;
  throttleRequests : Throttle;
  inflight : list Task
}.

(** Lines 204-212: the unit of work up to its call. *)
Definition begin_request (index now : Z) : Task :=
  mkTask index now (ResponseData.mk (index + 1) 0 NA false None).

(** Lines 214-227: the record the unit of work fills in. *)
Definition settle (task : Task) (outcome : Axios.Result) (now : Z)
  : ResponseData.t :=
  let d := responseData task in
  match outcome with
  | Axios.Resolved response =>
      ResponseData.mk (ResponseData.requestNumber d)
        (now - requestStartTime task)
        (Code (Axios.status response))
        true
        (ResponseData.error d)
  | Axios.Rejected error =>
      ResponseData.mk (ResponseData.requestNumber d)
        (now - requestStartTime task)
        (match Axios.response error with
         | Some r => Code (Axios.status r)
         | None => NA
         end)
        (ResponseData.success d)
        (Some (Axios.message error))
  end.

(** Lines 214-239: the unit of work from the moment its call settles. *)
Definition finish_request (task : Task) (outcome : Axios.Result) (now : Z)
    (results : Results.t) : Results.t :=
  let d := settle task outcome now in
  match outcome with
  | Axios.Resolved _ => Results.record_success d results
  | Axios.Rejected _ => Results.record_failure d results
  end.

Fixpoint take_task (i : Z) (l : list Task) : option (Task * list Task) :=
  match l with
  | [] => None
  | t :: l' =>
      if i =? index t then Some (t, l')
      else
        match take_task i l' with
        | Some (t', r) => Some (t', t :: r)
        | None => None
        end
  end.

Definition step (st : State) (e : Event) : option State :=
  match e with
  | Admit i now =>
      match dequeue i (queued (throttleRequests st)) with
      | Some q =>
          Some (mkState (results st) (mkThrottle (rate (throttleRequests st)) q)
                  (begin_request i now :: inflight st))
      | None => None
      end
  | Settle i outcome now =>
      match take_task i (inflight st) with
      | Some (task, rest) =>
          Some (mkState (finish_request task outcome now (results st))
                  (throttleRequests st) rest)
      | None => None
      end
  end.

Fixpoint run (st : State) (trace : list Event) : option State :=
  match trace with
  | [] => Some st
  | e :: trace' =>
      match step st e with
      | Some st' => run st' trace'
      | None => None
      end
  end.

(** Lines 184-199. *)
Definition initial (totalRequests : Z) (timeWindowSeconds : number) : State :=
  mkState
    (Results.mk totalRequests timeWindowSeconds 0 0 [] 0)
    (mkThrottle (requestsPerSecond totalRequests timeWindowSeconds)
       (seqZ 0 totalRequests))
    [].

Definition all_settled (st : State) : bool :=
  match queued (throttleRequests st), inflight st with
  | [], [] => true
  | _, _ => false
  end.

(** Lines 182-248. *)
Definition loadTest (url : string) (totalRequests : Z)
    (timeWindowSeconds : number) (env : Environment)
  : option (Completion Results.t) :=
  if max_array_length <? totalRequests then Some (Thrown "Invalid array length")
  else
    match run (initial totalRequests timeWindowSeconds) (trace env) with
    | Some st =>
        if all_settled st then
          Some (Returned
                  (Results.set_totalTimeTakenMs (endTime env - startTime env)
                     (results st)))
        else None
    | None => None
    end.

End Earlier.

(** ** [formatTimestamp]

    [new Date(timestamp).toISOString().replace('T', ' ').substring(0, 19)].
    A time value is a number of milliseconds since the epoch, in UTC; the
    fields of a date are the ones ECMAScript defines (Day, YearFromTime,
    MonthFromTime, DateFromTime, HourFromTime, MinFromTime, SecFromTime,
    msFromTime). *)

Definition msPerDay : Z := 86400000.

Definition Day (t : Z) : Z := t / msPerDay.

Definition DaysInYear (y : Z) : Z :=
  if negb (y mod 4 =? 0) then 365
  else if negb (y mod 100 =? 0) then 366
  else if negb (y mod 400 =? 0) then 365
  else 366.

(** The day number of the first day of year [y]. *)
Definition DayFromYear (y : Z) : Z :=
  365 * (y - 1970) + (y - 1969) / 4 - (y - 1901) / 100 + (y - 1601) / 400.

(** The years counted up from [y] while the next one has begun by [day]. *)
Fixpoint year_search (fuel : nat) (y day : Z) : Z :=
  match fuel with
  | O => y
  | S fuel' =>
      if DayFromYear (y + 1) <=? day then year_search fuel' (y + 1) day
      else y
  end.

(** The largest [y] whose first day is not after [t]: found within the
    cycle of 400 years (146097 days) that holds the day. *)
Definition YearFromTime (t : Z) : Z :=
  year_search 400 (1970 + 400 * (Day t / 146097)) (Day t).

Definition InLeapYear (t : Z) : Z :=
  if DaysInYear (YearFromTime t) =? 366 then 1 else 0.

Definition DayWithinYear (t : Z) : Z := Day t - DayFromYear (YearFromTime t).

Definition MonthFromTime (t : Z) : Z :=
  let d := DayWithinYear t in
  let l := InLeapYear t in
  if d <? 31 then 0
  else if d <? 59 + l then 1
  else if d <? 90 + l then 2
  else if d <? 120 + l then 3
  else if d <? 151 + l then 4
  else if d <? 181 + l then 5
  else if d <? 212 + l then 6
  else if d <? 243 + l then 7
  else if d <? 273 + l then 8
  else if d <? 304 + l then 9
  else if d <? 334 + l then 10
  else 11.

Definition DateFromTime (t : Z) : Z :=
  let d := DayWithinYear t in
  let l := InLeapYear t in
  match MonthFromTime t with
  | 0 => d + 1
  | 1 => d - 30
  | 2 => d - 58 - l
  | 3 => d - 89 - l
  | 4 => d - 119 - l
  | 5 => d - 150 - l
  | 6 => d - 180 - l
  | 7 => d - 211 - l
  | 8 => d - 242 - l
  | 9 => d - 272 - l
  | 10 => d - 303 - l
  | _ => d - 333 - l
  end.

Definition HourFromTime (t : Z) : Z := (t / 3600000) mod 24.
Definition MinFromTime (t : Z) : Z := (t / 60000) mod 60.
Definition SecFromTime (t : Z) : Z := (t / 1000) mod 60.
Definition msFromTime (t : Z) : Z := t mod 1000.

Definition digit (d : Z) : ascii := pretty_N_char (Z.to_N d).

(** The last [width] decimal digits of [n], zeros included, put before
    [rest]. *)
Fixpoint padded (width : nat) (n : Z) (rest : string) : string :=
  match width with
  | O => rest
  | S width' => padded width' (n / 10) (String (digit (n mod 10)) rest)
  end.

Definition pad (width : nat) (n : Z) : string := padded width n EmptyString.

(** Four digits for the years 0 to 9999, a sign and six digits for the
    others. *)
Definition year_text (y : Z) : string :=
  if (0 <=? y) && (y <=? 9999) then pad 4 y
  else (if y <? 0 then "-" else "+") +:+ pad 6 (Z.abs y).

(** [Date.prototype.toISOString] of a valid time value. *)
Definition toISOString (t : Z) : string :=
  year_text (YearFromTime t) +:+ "-" +:+ pad 2 (MonthFromTime t + 1)
    +:+ "-" +:+ pad 2 (DateFromTime t)
    +:+ "T" +:+ pad 2 (HourFromTime t)
    +:+ ":" +:+ pad 2 (MinFromTime t)
    +:+ ":" +:+ pad 2 (SecFromTime t)
    +:+ "." +:+ pad 3 (msFromTime t) +:+ "Z".

(** [s.replace(a, b)] for one-character texts: the first [a] becomes
    [b]. *)
Fixpoint replace_first (a b : ascii) (s : string) : string :=
  match s with
  | EmptyString => EmptyString
  | String c r =>
      if Ascii.eqb c a then String b r else String c (replace_first a b r)
  end.

(** The largest time value of a [Date]: 100,000,000 days. *)
Definition max_time : Z := 8640000000000000.

(** Lines 34-37.  [timestamp] is a number of milliseconds or [null], which
    [new Date] reads as 0; a [Date] out of range has no ISO text. *)
Definition formatTimestamp (timestamp : option Z) : Completion string :=
  let t := default 0 timestamp in
  if Z.abs t <=? max_time then
    Returned (substring 0 19 (replace_first "T" " " (toISOString t)))
  else Thrown "Invalid time value".

(** * Definitions used by the statements

    What the claims are measured against: sums and counts over the list of
    outcomes, the invariant of a run, the specification's wording of the
    size and of the summary, and the executions on which the statements
    are exercised. *)

(** ** Outcomes *)

(** [sum(o.sizeBytes for o in outcomes)], added up in list order from 0. *)
Definition sum_sizeBytes (outcomes : list ResponseData.t) : number :=
  fold_left (fun sum o => F64.add sum (ResponseData.sizeBytes o)) outcomes
    F64.zero.

(** The number of outcomes that satisfy [p]. *)
Fixpoint count_outcomes (p : ResponseData.t -> bool)
    (outcomes : list ResponseData.t) : Z :=
  match outcomes with
  | [] => 0
  | o :: rest =>
      (if p o then 1 else 0) + count_outcomes p rest
  end.

(** The outcome of a failed request. *)
Definition failed (o : ResponseData.t) : bool := negb (ResponseData.success o).

(** The record has an error text, and the text is not empty. *)
Definition has_error_text (d : ResponseData.t) : bool :=
  match ResponseData.error d with
  | Some m => negb (String.eqb m EmptyString)
  | None => false
  end.

(** The task that [begin_request] creates for unit [i] at time [s]. *)
Definition fresh_task (i s : Z) : Task :=
  mkTask i s (ResponseData.mk (i + 1) 0 ResponseData.NA false F64.zero None).

(** The status recorded for a failure. *)
Definition attached_status (e : Axios.Error) : ResponseData.Status :=
  match Axios.response e with
  | Some r => ResponseData.Code (Axios.status r)
  | None => ResponseData.NA
  end.

(** The size recorded for a failure. *)
Definition attached_size (e : Axios.Error) : number :=
  match Axios.response e with
  | Some r => getResponseSize (Some r)
  | None => F64.zero
  end.

(** ** The invariant of a run *)

(** What holds of the state after any part [tr] of an execution. *)
Record invariant (n : Z) (t : number) (tr : list Event) (st : State)
  : Prop := mkInvariant {
  inv_totalRequests : Results.totalRequests (results st) = n;
  inv_timeWindowSeconds : Results.timeWindowSeconds (results st) = t;
  inv_rate : rate (throttleRequests st) = requestsPerSecond n t;
  inv_successful :
    Results.successfulRequests (results st)
    = count_outcomes ResponseData.success (Results.responses (results st));
  inv_failed :
    Results.failedRequests (results st)
    = count_outcomes failed (Results.responses (results st));
  inv_size :
    Results.totalResponseSizeBytes (results st)
    = sum_sizeBytes (Results.responses (results st));
  inv_numbers :
    Permutation
      (map ResponseData.requestNumber (Results.responses (results st))
       ++ map (fun task => index task + 1) (inflight st)
       ++ map (fun i => i + 1) (queued (throttleRequests st)))
      (map (fun i => i + 1) (seqZ 0 n));
  inv_tasks :
    forall task, In task (inflight st) ->
      exists s, In (Admit (index task) s) tr /\
                task = fresh_task (index task) s;
  inv_settled :
    forall i o now, In (Settle i o now) tr ->
      exists s, In (Admit i s) tr /\
                In (settle (fresh_task i s) o now)
                   (Results.responses (results st));
  inv_outcomes :
    forall d, In d (Results.responses (results st)) ->
      exists i s o now,
        In (Admit i s) tr /\ In (Settle i o now) tr /\
        d = settle (fresh_task i s) o now;
  inv_admitted :
    forall i s, In (Admit i s) tr ->
      ~ In i (queued (throttleRequests st));
  inv_first :
    forall s, In (Admit 0 s) tr ->
      Results.firstQueryStartTime (results st) = Some s;
  inv_last :
    forall s, In (Admit (n - 1) s) tr ->
      Results.lastQueryStartTime (results st) = Some s
}.

(** ** The specification's wording *)

(** The integer ceiling of [a / b] for [b > 0]. *)
Definition ceil_div (a b : Z) : Z := - ((- a) / b).

(** The preference order as the specification words it: the parsed header
    when there is a header, else the byte length of the serialized body
    when there is a body, else 0. *)
Definition size_by_presence (r : Axios.Response) : number :=
  match content_length r with
  | Some h => parseInt h
  | None =>
      match Axios.data r with
      | Some d => F64.of_Z (Buffer_byteLength (JSON_stringify d))
      | None => F64.zero
      end
  end.

(** The header counts when it is a non-empty text. *)
Definition usable_header (r : Axios.Response) : option string :=
  match content_length r with
  | Some (String c s) => Some (String c s)
  | _ => None
  end.

(** The summary numbers recomputed from the list of outcomes, as the
    specification words them. *)
Definition error_rate_of (outcomes : list ResponseData.t) : NumericText :=
  toFixed2
    (F64.mul
       (F64.div (F64.of_Z (count_outcomes failed outcomes))
                (F64.of_Z (Z.of_nat (length outcomes))))
       (F64.of_Z 100)).

Definition average_of (outcomes : list ResponseData.t) : NumericText :=
  toFixed2
    (F64.div (F64.of_Z (sum_timeMs outcomes))
             (F64.of_Z (Z.of_nat (length outcomes)))).

Definition total_MB_of (outcomes : list ResponseData.t) : NumericText :=
  toFixed2 (F64.div (sum_sizeBytes outcomes) (F64.of_Z (1024 * 1024))).

Definition throughput_of (outcomes : list ResponseData.t) (totalElapsedMs : Z)
  : NumericText :=
  toFixed2
    (F64.div (Number_of_text (total_MB_of outcomes))
             (F64.div (F64.of_Z totalElapsedMs) (F64.of_Z 1000))).

(** ** Executions *)

(** Executions exist for every request count: the schedule that runs the
    units one after the other, each call settling before the next unit is
    admitted, is complete whatever the calls return and the clock reads. *)
Definition sequential_trace (outcome : Z -> Axios.Result) (clock : Z -> Z)
    (indices : list Z) : list Event :=
  flat_map
    (fun i => [Admit i (clock (2 * i)); Settle i (outcome i) (clock (2 * i + 1))])
    indices.

(** An execution used to exercise the statements below: three units, the
    second one failing without a response, finishing out of order. *)
Definition sample_ok : Axios.Result :=
  Axios.Resolved
    (Axios.mkResponse 200 (Some (<["content-length" := "100"]> ∅))
       (Some (VString "x"))).

Definition sample_timeout : Axios.Result :=
  Axios.Rejected (Axios.mkError "timeout of 10000ms exceeded" None).

Definition sample_env : Environment :=
  mkEnvironment 1000
    [Admit 0 1000; Admit 1 1001; Settle 1 sample_timeout 11002;
     Admit 2 2000; Settle 2 sample_ok 2015; Settle 0 sample_ok 2030]
    11003.

Definition sample_result : Results.t :=
  Results.mk 3 (F64.of_Z 3) 2 1
    [ ResponseData.mk 2 10001 ResponseData.NA false F64.zero
        (Some "timeout of 10000ms exceeded");
      ResponseData.mk 3 15 (ResponseData.Code 200) true (F64.of_Z 100) None;
      ResponseData.mk 1 1030 (ResponseData.Code 200) true (F64.of_Z 100) None ]
    10003 (Some 1000) (Some 2000) (F64.of_Z 200).

(** The error of [sample_timeout]. *)
Definition sample_error : Axios.Error :=
  Axios.mkError "timeout of 10000ms exceeded" None.

(** The state of [sample_env] once the units 0 and 1 have started, before
    any call has settled. *)
Definition sample_midway : State :=
  mkState
    (Results.mk 3 (F64.of_Z 3) 0 0 [] 0 (Some 1000) None F64.zero)
    (mkThrottle (F64.of_Z 1) [2])
    [fresh_task 1 1001; fresh_task 0 1000].

(** What is left to do in a state: the units waiting in the limiter and
    the calls in flight. *)
Definition pending (st : State) : list Z * list Task :=
  (queued (throttleRequests st), inflight st).

(** A run of a single request. *)
Definition single_env : Environment :=
  mkEnvironment 999 [Admit 0 1000; Settle 0 sample_ok 1012] 1013.

Definition single_result : Results.t :=
  Results.mk 1 (F64.of_Z 1) 1 0
    [ResponseData.mk 1 12 (ResponseData.Code 200) true (F64.of_Z 100) None]
    14 (Some 1000) (Some 1000) (F64.of_Z 100).

(** A connection failure whose error object has an empty [message]. *)
Definition silent_env : Environment :=
  mkEnvironment 0
    [Admit 0 0; Settle 0 (Axios.Rejected (Axios.mkError EmptyString None)) 3] 3.

Definition silent_result : Results.t :=
  Results.mk 1 (F64.of_Z 1) 0 1
    [ResponseData.mk 1 3 ResponseData.NA false F64.zero (Some EmptyString)]
    3 (Some 0) (Some 0) F64.zero.

(** A response without a content-length header whose body is the JSON
    text [false]. *)
Definition false_body : Axios.Response :=
  Axios.mkResponse 200 (Some ∅) (Some (VBool false)).

(** A run that starts and ends within one millisecond: its only call is
    refused at once. *)
Definition instant_env : Environment :=
  mkEnvironment 5
    [Admit 0 5; Settle 0 (Axios.Rejected (Axios.mkError "Invalid URL" None)) 5]
    5.

Definition instant_result : Results.t :=
  Results.mk 1 (F64.of_Z 1) 0 1
    [ResponseData.mk 1 0 ResponseData.NA false F64.zero (Some "Invalid URL")]
    0 (Some 5) (Some 5) F64.zero.

(** ** The limiter

    [throttle] comes from the package [async-throttle], which the program
    requires (line 2) and the repository does not contain.  Modelled from
    the package's documentation: [throttle(max)] gives a function that
    starts the unit handed to it at once while fewer than [max] units are
    running and keeps it in a queue otherwise; each time a running unit
    finishes, the unit that has waited longest is started.  So a unit may
    start only when it is the first of those waiting and fewer than [max]
    units are in flight. *)
Definition throttle_admits (st : State) (i : Z) : bool :=
  match queued (throttleRequests st) with
  | j :: _ =>
      (i =? j)
      && F64.ltb (F64.of_Z (Z.of_nat (length (inflight st))))
           (rate (throttleRequests st))
  | [] => false
  end.

(** The trace can happen, and each of its admissions is one the limiter
    makes. *)
Fixpoint throttled (totalRequests : Z) (st : State) (trace : list Event)
  : bool :=
  match trace with
  | [] => true
  | e :: trace' =>
      match e with
      | Admit i _ => throttle_admits st i
      | Settle _ _ _ => true
      end
      && match step totalRequests st e with
         | Some st' => throttled totalRequests st' trace'
         | None => false
         end
  end.

(** The units in the order in which they start. *)
Fixpoint admitted_indices (tr : list Event) : list Z :=
  match tr with
  | [] => []
  | Admit i _ :: tr' => i :: admitted_indices tr'
  | Settle _ _ _ :: tr' => admitted_indices tr'
  end.

(** The number of units that start within the 1000 milliseconds from
    [from] on. *)
Fixpoint admissions_within (from : Z) (tr : list Event) : Z :=
  match tr with
  | [] => 0
  | Admit _ now :: tr' =>
      (if (from <=? now) && (now <? from + 1000) then 1 else 0)
      + admissions_within from tr'
  | Settle _ _ _ :: tr' => admissions_within from tr'
  end.

(** The two parts of the admission policy as the specification words it:
    the units start in the order of their submission, and no more than
    [R] of them start within any second. *)
Definition first_in_first_out (tr : list Event) : Prop :=
  admitted_indices tr = seqZ 0 (Z.of_nat (length (admitted_indices tr))).

Definition rate_respected (R : Z) (tr : list Event) : Prop :=
  forall from, admissions_within from tr <= R.

(** Three requests in a window of three seconds to a server that answers
    each call within a millisecond: the rate is 1, and each unit starts as
    soon as the one before it has finished. *)
Definition fast_env : Environment :=
  mkEnvironment 0
    [Admit 0 0; Settle 0 sample_ok 1;
     Admit 1 1; Settle 1 sample_ok 2;
     Admit 2 2; Settle 2 sample_ok 3]
    3.

Definition fast_result : Results.t :=
  Results.mk 3 (F64.of_Z 3) 3 0
    [ ResponseData.mk 1 1 (ResponseData.Code 200) true (F64.of_Z 100) None;
      ResponseData.mk 2 1 (ResponseData.Code 200) true (F64.of_Z 100) None;
      ResponseData.mk 3 1 (ResponseData.Code 200) true (F64.of_Z 100) None ]
    3 (Some 0) (Some 2) (F64.of_Z 300).

(** ** Binary64 rounding *)

(** [fexp] at binary64. *)
Definition fexp64 (e : Z) : Z := Z.max (e - 53) (-1074).

(** A positive number whose exponent is at least [e], or +Infinity. *)
Definition positive_above (e : Z) (x : spec_float) : Prop :=
  match x with
  | S754_finite false _ e' => e <= e'
  | S754_infinity false => True
  | _ => False
  end.

(** The double 1000. *)
Definition thousand : spec_float := S754_finite false 8796093022208000 (-43).

(** * Definitions used by the further statements *)

(** ** Traces *)

(** The units whose calls settle in a trace, in the order they settle. *)
Fixpoint settled_indices (tr : list Event) : list Z :=
  match tr with
  | [] => []
  | Admit _ _ :: tr' => settled_indices tr'
  | Settle i _ _ :: tr' => i :: settled_indices tr'
  end.

(** The clock reading an event carries. *)
Definition event_time (e : Event) : Z :=
  match e with
  | Admit _ now => now
  | Settle _ _ now => now
  end.

(** The readings of [Date.now()] during one call of [loadTest], in the
    order they are taken. *)
Definition clock_readings (env : Environment) : list Z :=
  startTime env :: map event_time (trace env) ++ [endTime env].

(** The outcome is one of the two shapes a unit of work leaves: a success
    with a numeric status and no error, or a failure with an error text. *)
Definition well_shaped (d : ResponseData.t) : Prop :=
  (ResponseData.success d = true /\
   ResponseData.error d = None /\
   exists c, ResponseData.status d = ResponseData.Code c) \/
  (ResponseData.success d = false /\
   exists m, ResponseData.error d = Some m).

(** A run in which one response carries a content-length header that is
    not a number. *)
Definition garbled_env : Environment :=
  mkEnvironment 0
    [Admit 0 0; Admit 1 0; Settle 0 sample_ok 4;
     Settle 1
       (Axios.Resolved
          (Axios.mkResponse 200 (Some (<["content-length" := "abc"]> ∅))
             (Some (VString "x")))) 6]
    7.

Definition garbled_result : Results.t :=
  Results.mk 2 (F64.of_Z 1) 2 0
    [ResponseData.mk 1 4 (ResponseData.Code 200) true (F64.of_Z 100) None;
     ResponseData.mk 2 6 (ResponseData.Code 200) true F64.nan None]
    7 (Some 0) (Some 0) F64.nan.

(** A run of two requests whose clock readings never go back. *)
Definition ordered_env : Environment :=
  mkEnvironment 0
    [Admit 0 1; Admit 1 2; Settle 1 sample_timeout 5; Settle 0 sample_ok 9]
    10.

Definition ordered_result : Results.t :=
  Results.mk 2 (F64.of_Z 1) 1 1
    [ResponseData.mk 2 3 ResponseData.NA false F64.zero
       (Some "timeout of 10000ms exceeded");
     ResponseData.mk 1 8 (ResponseData.Code 200) true (F64.of_Z 100) None]
    10 (Some 1) (Some 2) (F64.of_Z 100).

(** ** Numbers and texts *)

(** A positive finite double. *)
Definition positive_finite (x : number) : Prop :=
  exists m e, x = S754_finite false m e.

(** A positive finite double without fractional bits, and the integer
    [z] it stands for. *)
Definition positive_integer (x : number) (z : Z) : Prop :=
  exists m e,
    x = S754_finite false m e /\ 1 <= z /\
    if 0 <=? e then z = Zpos m * 2 ^ e else Zpos m = z * 2 ^ (- e).

(** The text starts with a line terminator: LF, CR, U+2028 or U+2029. *)
Definition line_terminator_first (s : string) : Prop :=
  exists r,
    s = String (ascii_of_nat 10) r \/ s = String (ascii_of_nat 13) r \/
    s = String (ascii_of_nat 226)
          (String (ascii_of_nat 128) (String (ascii_of_nat 168) r)) \/
    s = String (ascii_of_nat 226)
          (String (ascii_of_nat 128) (String (ascii_of_nat 169) r)).

(** ** The earlier program seen from the current one *)

(** An outcome without its size. *)
Definition without_size (d : ResponseData.t) : Earlier.ResponseData.t :=
  Earlier.ResponseData.mk (ResponseData.requestNumber d)
    (ResponseData.timeMs d) (ResponseData.status d) (ResponseData.success d)
    (ResponseData.error d).

(** A result without the sizes and the two start times. *)
Definition without_sizes (r : Results.t) : Earlier.Results.t :=
  Earlier.Results.mk (Results.totalRequests r) (Results.timeWindowSeconds r)
    (Results.successfulRequests r) (Results.failedRequests r)
    (map without_size (Results.responses r)) (Results.totalTimeTakenMs r).

Definition earlier_task (t : Task) : Earlier.Task :=
  Earlier.mkTask (index t) (requestStartTime t)
    (without_size (responseData t)).

Definition earlier_state (st : State) : Earlier.State :=
  Earlier.mkState (without_sizes (results st)) (throttleRequests st)
    (map earlier_task (inflight st)).

Definition completion_map {A B} (f : A -> B) (c : Completion A)
  : Completion B :=
  match c with
  | Returned a => Returned (f a)
  | Thrown msg => Thrown msg
  end.

(** The text does not start with a decimal digit. *)
Definition no_leading_digit (s : string) : Prop :=
  match s with
  | EmptyString => True
  | String c _ => digit_of c = None
  end.

(** A positive binary64 value in canonical form: its mantissa and
    exponent are the ones of a double. *)
Definition positive_double (x : number) : Prop :=
  exists m e,
    x = S754_finite false m e /\ bounded F64.prec F64.emax m e = true.

(** ** The text of a time *)

(** The 19 characters [YYYY-MM-DD HH:mm:ss] of a time, to the second. *)
Definition seconds_text (t : Z) : string :=
  pad 4 (YearFromTime t) +:+ "-" +:+ pad 2 (MonthFromTime t + 1)
    +:+ "-" +:+ pad 2 (DateFromTime t)
    +:+ " " +:+ pad 2 (HourFromTime t)
    +:+ ":" +:+ pad 2 (MinFromTime t)
    +:+ ":" +:+ pad 2 (SecFromTime t).

(** The 19 characters of a time outside the years 0 to 9999: sign, six
    digits of the year, and the time to the minute. *)
Definition minutes_text (t : Z) : string :=
  (if YearFromTime t <? 0 then "-" else "+")
    +:+ pad 6 (Z.abs (YearFromTime t))
    +:+ "-" +:+ pad 2 (MonthFromTime t + 1)
    +:+ "-" +:+ pad 2 (DateFromTime t)
    +:+ " " +:+ pad 2 (HourFromTime t)
    +:+ ":" +:+ pad 2 (MinFromTime t).

(** The first and the last millisecond of the years 0 to 9999. *)
Definition year_0_start : Z := -62167219200000.
Definition year_9999_end : Z := 253402300799999.

(** * Properties *)

(** ** The built-in operations on known values *)

Example parseInt_examples :
  parseInt "42" = F64.of_Z 42 /\
  parseInt "  123abc" = F64.of_Z 123 /\
  parseInt "+7" = F64.of_Z 7 /\
  parseInt "-15" = SFopp (F64.of_Z 15) /\
  parseInt "-0" = S754_zero true /\
  parseInt "1e3" = F64.of_Z 1 /\
  parseInt "abc" = F64.nan /\
  parseInt "-" = F64.nan.
Proof. vm_compute. repeat split. Qed.

Example Math_ceil_examples :
  F64.Math_ceil (F64.div (F64.of_Z 10) (F64.of_Z 3)) = F64.of_Z 4 /\
  F64.Math_ceil (F64.of_Z 7) = F64.of_Z 7 /\
  F64.Math_ceil (F64.div (F64.of_Z 1) (F64.of_Z 1000)) = F64.of_Z 1 /\
  F64.Math_ceil (F64.div (F64.of_Z (-7)) (F64.of_Z 2)) = SFopp (F64.of_Z 3) /\
  F64.Math_ceil (F64.div (F64.of_Z (-1)) (F64.of_Z 2)) = S754_zero true /\
  F64.Math_ceil (F64.div (F64.of_Z 5) F64.zero) = S754_infinity false /\
  F64.Math_ceil (F64.div F64.zero F64.zero) = F64.nan.
Proof. vm_compute. repeat split. Qed.

(** The texts of numbers: integers in full below 10^21 and in exponent
    notation from there on, fractions with the fewest digits that read
    back ([0.1 + 0.2], [1 / 3]), small and large magnitudes. *)
Example Number_toString_examples :
  Number_toString (F64.of_Z (-12)) = "-12" /\
  Number_toString (F64.of_Z (10 ^ 21)) = "1e+21" /\
  Number_toString (F64.of_Z 123456789012345678901) = "123456789012345680000" /\
  Number_toString (F64.of_Z (2 ^ 53)) = "9007199254740992" /\
  Number_toString (Number_of_decimal 999 (-2)) = "9.99" /\
  Number_toString
    (F64.add (Number_of_decimal 1 (-1)) (Number_of_decimal 2 (-1)))
    = "0.30000000000000004" /\
  Number_toString (F64.div (F64.of_Z 1) (F64.of_Z 3)) = "0.3333333333333333" /\
  Number_toString (Number_of_decimal 1 (-6)) = "0.000001" /\
  Number_toString (Number_of_decimal 1 (-7)) = "1e-7" /\
  Number_toString (S754_finite false 1 (-1074)) = "5e-324" /\
  Number_toString (S754_finite false 4503599627370496 (-1074))
    = "2.2250738585072014e-308" /\
  Number_toString (S754_finite false 9007199254740991 971)
    = "1.7976931348623157e+308" /\
  Number_toString (S754_zero true) = "0".
Proof. vm_compute. repeat split. Qed.

Example JSON_stringify_examples :
  JSON_stringify (VBool false) = "false" /\
  JSON_stringify (VNumber (F64.of_Z (-12))) = "-12" /\
  JSON_stringify (VNumber (Number_of_decimal 999 (-2))) = "9.99" /\
  JSON_stringify (VNumber F64.nan) = "null" /\
  Buffer_byteLength (JSON_stringify (VNumber (F64.of_Z (10 ^ 21)))) = 5 /\
  Buffer_byteLength (JSON_stringify (VString "hello")) = 7 /\
  Buffer_byteLength
    (JSON_stringify
       (VObject [("a", VNumber (F64.of_Z 1));
                 ("price", VArray [VNumber (Number_of_decimal 999 (-2));
                                   VNull])]))
  = 27.
Proof. vm_compute. repeat split. Qed.

(** [(1.005).toFixed(2)] is ["1.00"], the double below 1.005 being the
    nearest one; [(2 / 3).toFixed(2)] is ["0.67"]; a small negative number
    prints as ["-0.00"]. *)
Example toFixed2_examples :
  toFixed2 (F64.div (F64.of_Z 1005) (F64.of_Z 1000)) = TFixed false 100 /\
  toFixed2 (F64.div (F64.of_Z 2) (F64.of_Z 3)) = TFixed false 67 /\
  toFixed2 (F64.div (F64.of_Z 1) (F64.of_Z 8)) = TFixed false 13 /\
  toFixed2 (F64.div (F64.of_Z (-1)) (F64.of_Z 1000)) = TFixed true 0 /\
  toFixed2 (F64.div F64.zero F64.zero) = TNaN /\
  Number_of_text (TFixed false 12345)
    = F64.div (F64.of_Z 12345) (F64.of_Z 100).
Proof. vm_compute. repeat split. Qed.

Example validateInputs_examples :
  validateInputs "https://example.com" (F64.of_Z 5) (F64.of_Z 5)
    = Returned tt /\
  validateInputs "ftp://x" (F64.of_Z 5) (F64.of_Z 5)
    = Thrown "Invalid or missing URL. Please provide a valid URL starting with http:// or https://" /\
  validateInputs "https://example.com" (F64.of_Z 0) (F64.of_Z 5)
    = Thrown "Invalid totalRequests. Please provide a positive integer." /\
  validateInputs "https://example.com" F64.nan (F64.of_Z 5)
    = Thrown "Invalid totalRequests. Please provide a positive integer." /\
  validateInputs "https://example.com" (F64.of_Z 5) (SFopp (F64.of_Z 1))
    = Thrown "Invalid timeWindowSeconds. Please provide a positive number." /\
  validateInputs "https://example.com" (F64.of_Z 5) (S754_infinity false)
    = Thrown "Invalid timeWindowSeconds. Please provide a positive number.".
Proof. vm_compute. repeat split. Qed.

(** ** Binary64 arithmetic

    What the statements need from the double arithmetic: rounding keeps
    the sign and the magnitude, so that the quotient
    [totalTimeTakenMs / 1000] is positive exactly when [totalTimeTakenMs]
    is; integers up to 2^53 are doubles; a rounded mantissa has at most 53
    bits; and [Math.ceil] returns the least integer that is not below its
    argument. *)

Lemma digits2_pos_size p : digits2_pos p = Pos.size p.
Proof. induction p; simpl; congruence. Qed.

Lemma Zdigits2_log2 m : 0 < m -> Zdigits2 m = Z.log2 m + 1.
Proof.
  destruct m as [|p|p]; try lia. intros _. simpl.
  rewrite digits2_pos_size. destruct p; simpl; lia.
Qed.

Lemma shr_1_m mrs : 0 <= shr_m mrs -> shr_m (shr_1 mrs) = shr_m mrs / 2.
Proof.
  destruct mrs as [m r s]. cbn [shr_m]. intros H.
  destruct m as [|[p|p|]|p]; cbn [shr_1 shr_m]; try lia.
  - reflexivity.
  - apply Z.div_unique with (r := 1); lia.
  - apply Z.div_unique with (r := 0); lia.
  - reflexivity.
Qed.

Lemma iter_shr_1_m p mrs :
  0 <= shr_m mrs ->
  shr_m (SpecFloat.iter_pos shr_1 p mrs) = shr_m mrs / 2 ^ Zpos p.
Proof.
  revert mrs. induction p as [p IH|p IH|]; intros mrs H; simpl SpecFloat.iter_pos.
  - assert (H1 : 0 <= shr_m (shr_1 mrs)) by (rewrite shr_1_m by lia; apply Z.div_pos; lia).
    assert (H2 : 0 <= shr_m (SpecFloat.iter_pos shr_1 p (shr_1 mrs)))
      by (rewrite IH by lia; apply Z.div_pos; lia).
    rewrite IH, IH, shr_1_m by lia.
    rewrite !Z.div_div by lia. f_equal.
    replace (Zpos p~1) with (1 + (Zpos p + Zpos p)) by lia.
    rewrite !Z.pow_add_r, Z.pow_1_r by lia. ring.
  - assert (H2 : 0 <= shr_m (SpecFloat.iter_pos shr_1 p mrs))
      by (rewrite IH by lia; apply Z.div_pos; lia).
    rewrite IH, IH by lia.
    rewrite !Z.div_div by lia. f_equal.
    replace (Zpos p~0) with (Zpos p + Zpos p) by lia.
    rewrite !Z.pow_add_r by lia. ring.
  - rewrite shr_1_m by lia. reflexivity.
Qed.

Lemma fexp_64 e : fexp 53 1024 e = fexp64 e.
Proof. reflexivity. Qed.

Lemma loc_of_shr_record_of_loc m l :
  loc_of_shr_record (shr_record_of_loc m l) = l.
Proof. destruct l as [|[]]; reflexivity. Qed.

Lemma shr_m_of_loc m l : shr_m (shr_record_of_loc m l) = m.
Proof. destruct l as [|[]]; reflexivity. Qed.

Lemma round_nearest_even_bounds m l :
  m <= round_nearest_even m l <= m + 1.
Proof.
  destruct l as [|[]]; simpl; try lia. destruct (Z.even m); lia.
Qed.

(** One alignment step keeps a positive mantissa positive and loses no
    magnitude, provided the value is in the normal range. *)
Lemma shr_fexp_positive m e l :
  0 < m -> -1074 <= Zdigits2 m + e - 53 ->
  0 < shr_m (fst (shr_fexp 53 1024 m e l)) /\
  e <= snd (shr_fexp 53 1024 m e l) /\
  Zdigits2 m + e
    <= Zdigits2 (shr_m (fst (shr_fexp 53 1024 m e l)))
       + snd (shr_fexp 53 1024 m e l).
Proof.
  intros Hm Hn. unfold shr_fexp. rewrite fexp_64. unfold fexp64.
  rewrite Z.max_l by lia.
  pose proof (Zdigits2_log2 m Hm) as D.
  pose proof (Z.log2_spec m Hm) as [L1 L2].
  pose proof (Z.log2_nonneg m) as L0.
  unfold shr.
  destruct (Zdigits2 m + e - 53 - e) as [|n|n] eqn:En; cbn [fst snd].
  - rewrite shr_m_of_loc. lia.
  - rewrite iter_shr_1_m by (rewrite shr_m_of_loc; lia).
    rewrite shr_m_of_loc.
    assert (Hq : 2 ^ (Z.log2 m - Zpos n) <= m / 2 ^ Zpos n).
    { apply Z.div_le_lower_bound; [lia|].
      rewrite <- Z.pow_add_r by lia.
      replace (Zpos n + (Z.log2 m - Zpos n)) with (Z.log2 m) by lia. exact L1. }
    assert (Hp : 0 < 2 ^ (Z.log2 m - Zpos n)) by (apply Z.pow_pos_nonneg; lia).
    split; [lia|]. split; [lia|].
    rewrite (Zdigits2_log2 (m / 2 ^ Zpos n)) by lia.
    assert (Z.log2 m - Zpos n <= Z.log2 (m / 2 ^ Zpos n)).
    { apply Z.log2_le_pow2; lia. }
    lia.
  - rewrite shr_m_of_loc. lia.
Qed.

Lemma binary_round_aux_positive m e l :
  0 < m -> -1074 <= Zdigits2 m + e - 53 ->
  positive_above e (binary_round_aux 53 1024 false m e l).
Proof.
  intros Hm Hn. unfold binary_round_aux.
  pose proof (shr_fexp_positive m e l Hm Hn) as (P1 & P2 & P3).
  destruct (shr_fexp 53 1024 m e l) as [mrs' e'] eqn:E1. cbn [fst snd] in *.
  pose proof (round_nearest_even_bounds (shr_m mrs') (loc_of_shr_record mrs'))
    as B.
  set (m1 := round_nearest_even (shr_m mrs') (loc_of_shr_record mrs')) in *.
  assert (D : Zdigits2 (shr_m mrs') <= Zdigits2 m1).
  { rewrite !Zdigits2_log2 by lia.
    pose proof (Z.log2_le_mono (shr_m mrs') m1). lia. }
  assert (Hm1 : 0 < m1) by lia.
  assert (Hn1 : -1074 <= Zdigits2 m1 + e' - 53) by lia.
  pose proof (shr_fexp_positive m1 e' loc_Exact Hm1 Hn1) as (Q1 & Q2 & _).
  destruct (shr_fexp 53 1024 m1 e' loc_Exact) as [mrs'' e''] eqn:E2.
  cbn [fst snd] in *.
  destruct (shr_m mrs'') as [|p|p]; try lia.
  destruct (e'' <=? 1024 - 53); simpl; lia.
Qed.

Lemma binary_round_aux_sign s m e l :
  match binary_round_aux 53 1024 s m e l with
  | S754_zero s' | S754_finite s' _ _ | S754_infinity s' => s' = s
  | S754_nan => True
  end.
Proof.
  unfold binary_round_aux.
  destruct (shr_fexp 53 1024 m e l) as [mrs' e'].
  destruct (shr_fexp 53 1024 _ e' loc_Exact) as [mrs'' e''].
  destruct (shr_m mrs''); [reflexivity | | exact I].
  destruct (e'' <=? 1024 - 53); reflexivity.
Qed.

Lemma positive_above_weaken e e' x :
  e' <= e -> positive_above e x -> positive_above e' x.
Proof. destruct x as [| [] | | [] ? ?]; simpl; lia. Qed.

Lemma of_Z_positive p : positive_above (-52) (F64.of_Z (Zpos p)).
Proof.
  unfold F64.of_Z, binary_normalize, binary_round.
  rewrite fexp_64. unfold fexp64.
  pose proof (Pos2Z.is_pos (digits2_pos p)) as D.
  rewrite Z.max_l by lia.
  unfold shl_align.
  destruct (Zpos (digits2_pos p) + 0 - 53 - 0) as [|k|k] eqn:Ek.
  - apply (positive_above_weaken 0); [lia|].
    apply binary_round_aux_positive; [lia | simpl Zdigits2; lia].
  - apply (positive_above_weaken 0); [lia|].
    apply binary_round_aux_positive; [lia | simpl Zdigits2; lia].
  - apply (positive_above_weaken (Zpos (digits2_pos p) + 0 - 53)); [lia|].
    apply binary_round_aux_positive; [lia|].
    pose proof (Pos2Z.is_pos (digits2_pos (Pos.iter xO p k))).
    simpl Zdigits2. lia.
Qed.

Lemma of_Z_not_positive p :
  match F64.of_Z (Zneg p) with
  | S754_zero s | S754_finite s _ _ | S754_infinity s => s = true
  | S754_nan => True
  end.
Proof.
  unfold F64.of_Z, binary_normalize, binary_round.
  destruct (shl_align _ _ _) as [mz ez].
  apply binary_round_aux_sign.
Qed.

Lemma of_Z_1000 : F64.of_Z 1000 = thousand.
Proof. vm_compute. reflexivity. Qed.

Lemma div_thousand_positive x :
  positive_above (-52) x -> positive_above (-1000) (F64.div x thousand).
Proof.
  destruct x as [| [] | | [] m e]; simpl; try contradiction; [exact (fun _ => I)|].
  intros He. unfold F64.div, thousand, SFdiv, SFdiv_core_binary.
  rewrite fexp_64. cbn [xorb].
  change (Zdigits2 8796093022208000) with 53.
  pose proof (Zdigits2_log2 (Zpos m) eq_refl) as D.
  pose proof (Z.log2_spec (Zpos m) eq_refl) as [L1 _].
  pose proof (Z.log2_nonneg (Zpos m)) as L0.
  set (d1 := Zdigits2 (Zpos m)) in *.
  set (e' := Z.min (fexp64 (d1 + e - (53 + -43))) (e - -43)).
  assert (He' : e' = e + 43 - Z.max (106 - d1) 0) by (unfold e', fexp64; lia).
  set (m' := match e - -43 - e' with
             | 0 => Zpos m
             | Zpos _ => Z.shiftl (Zpos m) (e - -43 - e')
             | Zneg _ => 0
             end).
  assert (Hm' : 2 ^ 105 <= m').
  { unfold m'. destruct (e - -43 - e') as [|s|s] eqn:Es; [| |lia].
    - transitivity (2 ^ Z.log2 (Zpos m)); [|exact L1].
      apply Z.pow_le_mono_r; lia.
    - rewrite Z.shiftl_mul_pow2 by lia.
      transitivity (2 ^ Z.log2 (Zpos m) * 2 ^ Zpos s).
      + rewrite <- Z.pow_add_r by lia. apply Z.pow_le_mono_r; lia.
      + apply Z.mul_le_mono_nonneg_r; [apply Z.pow_nonneg; lia | exact L1]. }
  destruct (Z.div_eucl m' 8796093022208000) as [q r] eqn:Eq.
  assert (Hq : q = m' / 8796093022208000) by (unfold Z.div; rewrite Eq; reflexivity).
  assert (Hq0 : 2 ^ 52 <= q).
  { rewrite Hq. apply Z.div_le_lower_bound; [lia|].
    transitivity (2 ^ 105); [|exact Hm']. vm_compute. discriminate. }
  assert (0 < 2 ^ 52) by (apply Z.pow_pos_nonneg; lia).
  apply (positive_above_weaken e'); [lia|].
  apply binary_round_aux_positive; [lia|].
  rewrite Zdigits2_log2 by lia. pose proof (Z.log2_nonneg q). lia.
Qed.

Lemma seconds_positive ms :
  0 < ms -> F64.ltb F64.zero (F64.div (F64.of_Z ms) (F64.of_Z 1000)) = true.
Proof.
  destruct ms as [|p|p]; try lia. intros _.
  rewrite of_Z_1000.
  pose proof (div_thousand_positive _ (of_Z_positive p)) as H.
  destruct (F64.div (F64.of_Z (Zpos p)) thousand) as [| [] | | [] ? ?];
    simpl in H; try contradiction; reflexivity.
Qed.

Lemma seconds_not_positive ms :
  ms <= 0 -> F64.ltb F64.zero (F64.div (F64.of_Z ms) (F64.of_Z 1000)) = false.
Proof.
  destruct ms as [|p|p]; try lia; intros _; [vm_compute; reflexivity|].
  rewrite of_Z_1000. pose proof (of_Z_not_positive p) as H.
  destruct (F64.of_Z (Zneg p)) as [s|s| |s m e]; try subst s;
    try reflexivity.
  unfold F64.div, thousand, SFdiv.
  destruct (SFdiv_core_binary _ _ _ _ _ _) as [[mz ez] lz].
  pose proof (binary_round_aux_sign (xorb true false) mz ez lz) as S.
  destruct (binary_round_aux _ _ _ _ _ _) as [s|s| |s m' e'];
    try (simpl in S; subst s); reflexivity.
Qed.

Lemma iter_xO_pow p k : Zpos (Pos.iter xO p k) = Zpos p * 2 ^ Zpos k.
Proof.
  induction k as [|k IH] using Pos.peano_ind.
  - simpl. lia.
  - rewrite Pos.iter_succ, Pos2Z.inj_xO, IH, Pos2Z.inj_succ, Z.pow_succ_r by lia.
    ring.
Qed.

(** A mantissa of 53 bits at an exponent in range is left as it is. *)
Lemma binary_round_aux_exact m e :
  Zdigits2 (Zpos m) = 53 -> -1074 <= e <= 971 ->
  binary_round_aux 53 1024 false (Zpos m) e loc_Exact = S754_finite false m e.
Proof.
  intros D He. unfold binary_round_aux, shr_fexp.
  rewrite D, fexp_64. unfold fexp64.
  replace (Z.max (53 + e - 53) (-1074) - e) with 0 by lia.
  cbn [shr shr_record_of_loc shr_m loc_of_shr_record round_nearest_even].
  rewrite D, fexp_64. unfold fexp64.
  replace (Z.max (53 + e - 53) (-1074) - e) with 0 by lia.
  cbn [shr shr_record_of_loc shr_m].
  replace (e <=? 1024 - 53) with true by (symmetry; apply Z.leb_le; lia).
  reflexivity.
Qed.

Lemma of_Z_small p :
  Zpos p < 2 ^ 53 ->
  exists m e, F64.of_Z (Zpos p) = S754_finite false m e /\
              -52 <= e <= 0 /\ Zpos m = Zpos p * 2 ^ (- e) /\
              Zdigits2 (Zpos m) = 53.
Proof.
  intros Hp.
  pose proof (Zdigits2_log2 (Zpos p) eq_refl) as D.
  pose proof (Z.log2_nonneg (Zpos p)) as L0.
  assert (L : Z.log2 (Zpos p) < 53) by (apply Z.log2_lt_pow2; lia).
  unfold F64.of_Z, binary_normalize, binary_round.
  rewrite fexp_64. unfold fexp64.
  change (Zpos (digits2_pos p)) with (Zdigits2 (Zpos p)).
  rewrite Z.max_l by lia. unfold shl_align.
  destruct (Zdigits2 (Zpos p) + 0 - 53 - 0) as [|k|k] eqn:Ek; try lia.
  - exists p, 0. rewrite binary_round_aux_exact by lia.
    repeat split; try lia.
  - exists (Pos.iter xO p k), (Zdigits2 (Zpos p) + 0 - 53).
    assert (Dk : Zdigits2 (Zpos (Pos.iter xO p k)) = 53).
    { rewrite Zdigits2_log2 by reflexivity.
      rewrite iter_xO_pow, Z.log2_mul_pow2 by lia. lia. }
    rewrite binary_round_aux_exact by lia.
    repeat split; try lia.
    rewrite iter_xO_pow. f_equal. f_equal. lia.
Qed.

Lemma of_Z_exact z : 0 <= z <= 2 ^ 53 -> F64.to_Z (F64.of_Z z) = z.
Proof.
  intros Hz. destruct z as [|p|p]; try lia; [reflexivity|].
  destruct (Z.eq_dec (Zpos p) (2 ^ 53)) as [E|E].
  - rewrite E. vm_compute. reflexivity.
  - destruct (of_Z_small p) as (m & e & -> & He & Hm & _); [lia|].
    unfold F64.to_Z. destruct (Z.leb_spec 0 e).
    + assert (e = 0) as -> by lia. rewrite Z.shiftl_0_r. simpl in Hm. lia.
    + rewrite Z.shiftr_div_pow2 by lia. rewrite Hm.
      apply Z.div_mul. apply Z.pow_nonzero; lia.
Qed.

(** [Math.ceil] of a positive double with a fractional part is the least
    integer that is not below it. *)
Lemma Math_ceil_ceiling m e :
  Zpos m < 2 ^ 53 -> e < 0 ->
  let c := F64.to_Z (F64.Math_ceil (S754_finite false m e)) in
  (c - 1) * 2 ^ (- e) < Zpos m <= c * 2 ^ (- e).
Proof.
  intros Hm He. cbn zeta. unfold F64.Math_ceil.
  replace (0 <=? e) with false by (symmetry; apply Z.leb_gt; lia).
  rewrite Z.shiftr_div_pow2, Z.shiftl_mul_pow2 by lia.
  set (k := 2 ^ (- e)).
  assert (Hk : 0 < k) by (apply Z.pow_pos_nonneg; lia).
  assert (Hk1 : 1 <= k) by lia.
  pose proof (Z.div_mod (Zpos m) k ltac:(lia)) as DM.
  pose proof (Z.mod_pos_bound (Zpos m) k Hk) as MB.
  assert (Hq : 0 <= Zpos m / k) by (apply Z.div_pos; lia).
  assert (Hq' : Zpos m / k <= Zpos m).
  { apply Z.div_le_upper_bound; [lia|]. nia. }
  destruct (Z.eqb_spec (Zpos m) (Zpos m / k * k)) as [E|E].
  - rewrite of_Z_exact by lia. nia.
  - rewrite of_Z_exact by lia. nia.
Qed.

(** A double without fractional bits is its own ceiling. *)
Lemma Math_ceil_integer s m e :
  0 <= e -> F64.Math_ceil (S754_finite s m e) = S754_finite s m e.
Proof.
  intros He. unfold F64.Math_ceil.
  replace (0 <=? e) with true by (symmetry; apply Z.leb_le; lia).
  reflexivity.
Qed.

(** The mantissa that rounding returns has at most 53 bits. *)
Lemma shr_fexp_bounded m e l :
  0 <= m -> 0 <= shr_m (fst (shr_fexp 53 1024 m e l)) < 2 ^ 53.
Proof.
  intros Hm. unfold shr_fexp. rewrite fexp_64. unfold fexp64, shr.
  destruct (Z.eq_dec m 0) as [->|Hm0].
  - destruct (Z.max (Zdigits2 0 + e - 53) (-1074) - e) as [|n|n];
      cbn [fst]; try (rewrite shr_m_of_loc; lia).
    rewrite iter_shr_1_m by (rewrite shr_m_of_loc; lia).
    rewrite shr_m_of_loc, Z.div_0_l by (apply Z.pow_nonzero; lia). lia.
  - pose proof (Zdigits2_log2 m ltac:(lia)) as D.
    pose proof (Z.log2_spec m ltac:(lia)) as [_ L2].
    pose proof (Z.log2_nonneg m) as L0.
    destruct (Z.max (Zdigits2 m + e - 53) (-1074) - e) as [|n|n] eqn:En;
      cbn [fst].
    + rewrite shr_m_of_loc. split; [lia|].
      eapply Z.lt_le_trans; [exact L2|]. apply Z.pow_le_mono_r; lia.
    + rewrite iter_shr_1_m by (rewrite shr_m_of_loc; lia).
      rewrite shr_m_of_loc. split; [apply Z.div_pos; lia|].
      apply Z.div_lt_upper_bound; [lia|].
      eapply Z.lt_le_trans; [exact L2|].
      rewrite <- Z.pow_add_r by lia. apply Z.pow_le_mono_r; lia.
    + rewrite shr_m_of_loc. split; [lia|].
      eapply Z.lt_le_trans; [exact L2|]. apply Z.pow_le_mono_r; lia.
Qed.

Lemma binary_round_aux_bounded s m e l :
  0 <= m ->
  match binary_round_aux 53 1024 s m e l with
  | S754_finite _ m' _ => Zpos m' < 2 ^ 53
  | _ => True
  end.
Proof.
  intros Hm. unfold binary_round_aux.
  pose proof (shr_fexp_bounded m e l Hm) as B1.
  destruct (shr_fexp 53 1024 m e l) as [mrs' e'] eqn:E1. cbn [fst] in B1.
  pose proof (round_nearest_even_bounds (shr_m mrs') (loc_of_shr_record mrs'))
    as B.
  set (m1 := round_nearest_even (shr_m mrs') (loc_of_shr_record mrs')) in *.
  pose proof (shr_fexp_bounded m1 e' loc_Exact ltac:(lia)) as B2.
  destruct (shr_fexp 53 1024 m1 e' loc_Exact) as [mrs'' e''] eqn:E2.
  cbn [fst] in B2.
  destruct (shr_m mrs'') as [|p|p]; try exact I.
  destruct (e'' <=? 1024 - 53); [lia | exact I].
Qed.

Lemma div_bounded x y :
  match F64.div x y with
  | S754_finite _ m _ => Zpos m < 2 ^ 53
  | _ => True
  end.
Proof.
  unfold F64.div, SFdiv.
  destruct x as [sx|sx| |sx mx ex], y as [sy|sy| |sy my ey]; try exact I.
  unfold SFdiv_core_binary.
  set (e' := Z.min _ _). set (m' := match ex - ey - e' with 0 => _ | _ => _ end).
  assert (Hm' : 0 <= m').
  { unfold m'. destruct (ex - ey - e'); try lia. apply Z.shiftl_nonneg. lia. }
  destruct (Z.div_eucl m' (Zpos my)) as [q r] eqn:Eq.
  assert (Hq : q = m' / Zpos my) by (unfold Z.div; rewrite Eq; reflexivity).
  apply binary_round_aux_bounded. rewrite Hq. apply Z.div_pos; lia.
Qed.

(** ** Configuration errors *)

(** C3, as stated, fails: [loadTest] called with no request to send, or
    with a window of zero seconds, throws nothing and returns a result; in
    the second case a request is sent. *)
Lemma loadTest_does_not_validate :
  loadTest "https://example.com" 0 (F64.of_Z 1) (mkEnvironment 0 [] 0)
    = Some (Returned
              (Results.mk 0 (F64.of_Z 1) 0 0 [] 0 None None F64.zero)) /\
  loadTest "https://example.com" 1 (F64.of_Z 0)
      (mkEnvironment 0 [Admit 0 0; Settle 0 sample_ok 7] 8)
    = Some (Returned
              (Results.mk 1 (F64.of_Z 0) 1 0
                 [ResponseData.mk 1 7 (ResponseData.Code 200) true
                    (F64.of_Z 100) None]
                 8 (Some 0) (Some 0) (F64.of_Z 100))) /\
  ~ (exists msg,
       loadTest "https://example.com" 0 (F64.of_Z 1) (mkEnvironment 0 [] 0)
       = Some (Thrown msg)).
Proof.
  split; [vm_compute; reflexivity|]. split; [vm_compute; reflexivity|].
  intros [msg H]. vm_compute in H. discriminate H.
Qed.

(** C3, amended. A request count or a time window that is not positive is
    rejected by [validateInputs], which [runTest] calls before [loadTest]:
    the error is thrown before any rate is computed or request sent, and
    [runTest] reports the error and no result.  [loadTest] itself checks
    nothing: called with [totalRequests <= 0] it sends no request and
    returns a result without outcomes. *)
Theorem invalid_configuration url totalRequests timeWindowSeconds env :
  F64.leb totalRequests F64.zero = true \/
  F64.leb timeWindowSeconds F64.zero = true ->
  (exists msg,
     validateInputs url totalRequests timeWindowSeconds = Thrown msg /\
     runTest url totalRequests timeWindowSeconds env = Some (Thrown msg)) /\
  (forall n s e, n <= 0 ->
     loadTest url n timeWindowSeconds (mkEnvironment s [] e)
     = Some (Returned
               (Results.mk n timeWindowSeconds 0 0 [] (e - s) None None
                  F64.zero))).
Proof.
  intros H. split.
  - unfold runTest, validateInputs.
    destruct (url_matches url); simpl; [|eauto].
    destruct (F64.isInteger totalRequests); simpl; [|eauto].
    destruct (F64.leb totalRequests F64.zero) eqn:E1; simpl; [eauto|].
    destruct H as [H|H]; [discriminate|]. rewrite H, orb_true_r. eauto.
  - intros n s e Hn. unfold loadTest.
    replace (max_array_length <? n) with false
      by (symmetry; apply Z.ltb_ge; unfold max_array_length; lia).
    unfold initial. rewrite seqZ_nil by lia. reflexivity.
Qed.

Lemma invalid_configuration_witness :
  (exists msg,
     validateInputs "https://example.com" (F64.of_Z 0) (F64.of_Z 5)
       = Thrown msg /\
     runTest "https://example.com" (F64.of_Z 0) (F64.of_Z 5)
       (mkEnvironment 0 [] 0) = Some (Thrown msg)) /\
  (forall n s e, n <= 0 ->
     loadTest "https://example.com" n (F64.of_Z 5) (mkEnvironment s [] e)
     = Some (Returned
               (Results.mk n (F64.of_Z 5) 0 0 [] (e - s) None None F64.zero))).
Proof.
  apply (invalid_configuration "https://example.com" (F64.of_Z 0) (F64.of_Z 5)
           (mkEnvironment 0 [] 0)).
  left. vm_compute. reflexivity.
Defined.

(** ** The size of a response *)

(** C7, as stated, fails: the body [false] is present and serializes to
    five bytes, and the computed size is 0. *)
Lemma getResponseSize_falsy_body :
  getResponseSize (Some false_body) = F64.zero /\
  size_by_presence false_body = F64.of_Z 5 /\
  getResponseSize (Some false_body) <> size_by_presence false_body.
Proof.
  split; [reflexivity|]. split; [vm_compute; reflexivity|].
  vm_compute. discriminate.
Qed.

(** C7, amended. The size of a response is the parsed content-length
    header when that header is a non-empty text, whatever the body; else
    the UTF-8 byte length of the body's JSON serialization when there is a
    body that is not falsy (not [null], [false], [0] or the empty string);
    else 0. *)
Theorem getResponseSize_preference r :
  (forall h, usable_header r = Some h ->
     getResponseSize (Some r) = parseInt h) /\
  (forall d, usable_header r = None -> Axios.data r = Some d ->
     truthy d = true ->
     getResponseSize (Some r)
       = F64.of_Z (Buffer_byteLength (JSON_stringify d))) /\
  (usable_header r = None ->
     (forall d, Axios.data r = Some d -> truthy d = false) ->
     getResponseSize (Some r) = F64.zero).
Proof.
  unfold usable_header, getResponseSize.
  destruct (content_length r) as [[|c s]|]; repeat split;
    try discriminate;
    try (intros h [= <-]; reflexivity);
    try (intros d _ -> ->; reflexivity);
    try (intros _ H; destruct (Axios.data r) as [d|]; [|reflexivity];
         rewrite (H d eq_refl); reflexivity).
Qed.

Lemma getResponseSize_preference_witness :
  getResponseSize
    (Some (Axios.mkResponse 200 (Some (<["content-length" := "42"]> ∅))
             (Some (VString "hello"))))
    = F64.of_Z 42 /\
  getResponseSize (Some (Axios.mkResponse 200 (Some ∅) (Some (VString "hello"))))
    = F64.of_Z 7 /\
  getResponseSize (Some false_body) = F64.zero.
Proof.
  split; [|split].
  - apply (proj1 (getResponseSize_preference
                    (Axios.mkResponse 200 (Some (<["content-length" := "42"]> ∅))
                       (Some (VString "hello")))) "42").
    vm_compute. reflexivity.
  - apply (proj1 (proj2 (getResponseSize_preference
                           (Axios.mkResponse 200 (Some ∅)
                              (Some (VString "hello")))))
             (VString "hello")); reflexivity.
  - apply (proj2 (proj2 (getResponseSize_preference false_body)));
      [reflexivity|].
    intros d [= <-]. reflexivity.
Defined.

(** ** The queue and the tasks in flight *)

Lemma dequeue_split i q q' :
  dequeue i q = Some q' ->
  exists l1 l2, q = l1 ++ i :: l2 /\ q' = l1 ++ l2.
Proof.
  revert q'. induction q as [|j q IH]; intros q' H; simpl in H; [discriminate|].
  destruct (Z.eqb_spec i j) as [->|Hne].
  - injection H as <-. exists [], q. split; reflexivity.
  - destruct (dequeue i q) as [q0|] eqn:E; simpl in H; [|discriminate].
    injection H as <-.
    destruct (IH q0 eq_refl) as (l1 & l2 & -> & ->).
    exists (j :: l1), l2. split; reflexivity.
Qed.

Lemma take_task_split i l t l' :
  take_task i l = Some (t, l') ->
  exists l1 l2, l = l1 ++ t :: l2 /\ l' = l1 ++ l2 /\ index t = i.
Proof.
  revert t l'. induction l as [|u l IH]; intros t l' H; simpl in H; [discriminate|].
  destruct (Z.eqb_spec i (index u)) as [Heq|Hne].
  - injection H as <- <-. exists [], l. repeat split; auto.
  - destruct (take_task i l) as [[t0 r]|] eqn:E; [|discriminate].
    injection H as <- <-.
    destruct (IH t0 r eq_refl) as (l1 & l2 & -> & -> & Hi).
    exists (u :: l1), l2. repeat split; auto.
Qed.

(** ** Runs *)

Lemma run_snoc n st tr e :
  run n st (tr ++ [e]) =
  match run n st tr with
  | Some st' => step n st' e
  | None => None
  end.
Proof.
  revert st. induction tr as [|e0 tr IH]; intros st; simpl.
  - destruct (step n st e); reflexivity.
  - destruct (step n st e0); [apply IH | reflexivity].
Qed.

Lemma count_outcomes_app p l1 l2 :
  count_outcomes p (l1 ++ l2) = count_outcomes p l1 + count_outcomes p l2.
Proof. induction l1 as [|o l1 IH]; simpl; [reflexivity | rewrite IH; lia]. Qed.

Lemma count_outcomes_partition l :
  count_outcomes ResponseData.success l + count_outcomes failed l
  = Z.of_nat (length l).
Proof.
  induction l as [|o l IH]; [reflexivity|].
  cbn [count_outcomes length]. unfold failed at 1.
  destruct (ResponseData.success o); simpl negb; lia.
Qed.

Lemma sum_sizeBytes_snoc l o :
  sum_sizeBytes (l ++ [o]) = F64.add (sum_sizeBytes l) (ResponseData.sizeBytes o).
Proof. unfold sum_sizeBytes. rewrite fold_left_app. reflexivity. Qed.

Lemma settle_requestNumber task outcome now :
  ResponseData.requestNumber (settle task outcome now)
  = ResponseData.requestNumber (responseData task).
Proof. destruct outcome; reflexivity. Qed.

Lemma settle_success task outcome now :
  ResponseData.success (responseData task) = false ->
  ResponseData.success (settle task outcome now)
  = match outcome with Axios.Resolved _ => true | Axios.Rejected _ => false end.
Proof. destruct outcome; simpl; auto. Qed.

Lemma begin_request_task n i s r : snd (begin_request n i s r) = fresh_task i s.
Proof. reflexivity. Qed.

Lemma begin_request_results n i s r :
  let r' := fst (begin_request n i s r) in
  Results.totalRequests r' = Results.totalRequests r /\
  Results.timeWindowSeconds r' = Results.timeWindowSeconds r /\
  Results.successfulRequests r' = Results.successfulRequests r /\
  Results.failedRequests r' = Results.failedRequests r /\
  Results.responses r' = Results.responses r /\
  Results.totalTimeTakenMs r' = Results.totalTimeTakenMs r /\
  Results.totalResponseSizeBytes r' = Results.totalResponseSizeBytes r /\
  Results.firstQueryStartTime r'
    = (if i =? 0 then Some s else Results.firstQueryStartTime r) /\
  Results.lastQueryStartTime r'
    = (if i =? n - 1 then Some s else Results.lastQueryStartTime r).
Proof.
  unfold begin_request; simpl.
  destruct (i =? 0), (i =? n - 1); simpl; repeat split; reflexivity.
Qed.

Lemma finish_request_results task outcome now r :
  let r' := finish_request task outcome now r in
  let d := settle task outcome now in
  Results.totalRequests r' = Results.totalRequests r /\
  Results.timeWindowSeconds r' = Results.timeWindowSeconds r /\
  Results.successfulRequests r'
    = Results.successfulRequests r
      + (match outcome with Axios.Resolved _ => 1 | Axios.Rejected _ => 0 end) /\
  Results.failedRequests r'
    = Results.failedRequests r
      + (match outcome with Axios.Resolved _ => 0 | Axios.Rejected _ => 1 end) /\
  Results.responses r' = Results.responses r ++ [d] /\
  Results.totalTimeTakenMs r' = Results.totalTimeTakenMs r /\
  Results.totalResponseSizeBytes r'
    = F64.add (Results.totalResponseSizeBytes r) (ResponseData.sizeBytes d) /\
  Results.firstQueryStartTime r' = Results.firstQueryStartTime r /\
  Results.lastQueryStartTime r' = Results.lastQueryStartTime r.
Proof.
  unfold finish_request; destruct outcome; simpl; repeat split; lia.
Qed.

Section Invariant.

Variable n : Z.
Variable t : number.

Lemma invariant_initial : invariant n t [] (initial n t).
Proof.
  constructor; simpl; try reflexivity; intros; contradiction.
Qed.

Lemma numbers_NoDup : List.NoDup (map (fun i => i + 1) (seqZ 0 n)).
Proof.
  apply Finite.Injective_map_NoDup; [intros x y; lia|].
  apply NoDup_ListNoDup, NoDup_seqZ.
Qed.

Lemma queued_NoDup tr st :
  invariant n t tr st -> List.NoDup (queued (throttleRequests st)).
Proof.
  intros I. pose proof numbers_NoDup as H.
  eapply Permutation_NoDup in H; [|symmetry; apply (inv_numbers _ _ _ _ I)].
  apply List.NoDup_app_remove_l in H. apply List.NoDup_app_remove_l in H.
  eapply List.NoDup_map_inv; eassumption.
Qed.

Lemma in_snoc {A} (x y : A) l : In x (l ++ [y]) <-> In x l \/ x = y.
Proof. rewrite in_app_iff. simpl. intuition congruence. Qed.

Lemma invariant_admit tr st i now st' :
  invariant n t tr st -> step n st (Admit i now) = Some st' ->
  invariant n t (tr ++ [Admit i now]) st'.
Proof.
  intros I H. pose proof (queued_NoDup _ _ I) as ND.
  unfold step in H.
  destruct (dequeue i (queued (throttleRequests st))) as [q|] eqn:Eq;
    [|discriminate].
  destruct (dequeue_split _ _ _ Eq) as (l1 & l2 & Hq & ->).
  pose proof (begin_request_results n i now (results st)) as R.
  pose proof (begin_request_task n i now (results st)) as T.
  destruct (begin_request n i now (results st)) as [r' task] eqn:Eb.
  simpl in R, T. destruct R as (R1 & R2 & R3 & R4 & R5 & R6 & R7 & R8 & R9).
  injection H as <-. subst task.
  destruct I. rewrite Hq in *.
  constructor; simpl; try congruence.
  - rewrite R5. rewrite <- inv_numbers0. rewrite !map_app. simpl.
    rewrite <- !Permutation_middle. reflexivity.
  - intros task [<-|Hin].
    + exists now. split; [apply in_snoc; auto | reflexivity].
    + destruct (inv_tasks0 task Hin) as (s & Hs & Ht).
      exists s. split; [apply in_snoc; auto | exact Ht].
  - intros j o now' Hin. apply in_snoc in Hin as [Hin|Hin]; [|discriminate].
    destruct (inv_settled0 j o now' Hin) as (s & Hs & Ho).
    exists s. split; [apply in_snoc; auto | rewrite R5; exact Ho].
  - intros d Hd. rewrite R5 in Hd.
    destruct (inv_outcomes0 d Hd) as (j & s & o & now' & Ha & Hs & ->).
    exists j, s, o, now'. rewrite !in_snoc. auto.
  - intros j s Hin Hq'. apply in_snoc in Hin as [Hin|Hin].
    + apply (inv_admitted0 j s Hin).
      apply in_app_iff in Hq'. apply in_app_iff. simpl. tauto.
    + injection Hin as -> ->.
      apply NoDup_remove_2 in ND. exact (ND Hq').
  - intros s Hin. rewrite R8. apply in_snoc in Hin as [Hin|Hin].
    + destruct (Z.eqb_spec i 0) as [->|_]; [|auto].
      exfalso. apply (inv_admitted0 0 s Hin). apply in_app_iff. simpl. auto.
    + injection Hin as <- <-. reflexivity.
  - intros s Hin. rewrite R9. apply in_snoc in Hin as [Hin|Hin].
    + destruct (Z.eqb_spec i (n - 1)) as [->|_]; [|auto].
      exfalso. apply (inv_admitted0 (n - 1) s Hin). apply in_app_iff. simpl. auto.
    + injection Hin as Hi <-. rewrite <- Hi, Z.eqb_refl. reflexivity.
Qed.

Lemma invariant_settle tr st i o now st' :
  invariant n t tr st -> step n st (Settle i o now) = Some st' ->
  invariant n t (tr ++ [Settle i o now]) st'.
Proof.
  intros I H. unfold step in H.
  destruct (take_task i (inflight st)) as [[task rest]|] eqn:Et;
    [|discriminate].
  destruct (take_task_split _ _ _ _ Et) as (l1 & l2 & Hl & -> & Hi).
  pose proof (finish_request_results task o now (results st)) as R.
  simpl in R. destruct R as (R1 & R2 & R3 & R4 & R5 & R6 & R7 & R8 & R9).
  injection H as <-.
  destruct I. rewrite Hl in *.
  destruct (inv_tasks0 task) as (s & Hs & Ht);
    [apply in_app_iff; simpl; auto|].
  rewrite Hi in Hs, Ht.
  assert (Hsucc : ResponseData.success (settle task o now)
                  = match o with
                    | Axios.Resolved _ => true
                    | Axios.Rejected _ => false
                    end)
    by (apply settle_success; rewrite Ht; reflexivity).
  constructor; simpl; try congruence.
  - rewrite R3, R5, count_outcomes_app, inv_successful0. simpl.
    rewrite Hsucc. destruct o; lia.
  - rewrite R4, R5, count_outcomes_app, inv_failed0. simpl.
    unfold failed at 3. rewrite Hsucc. destruct o; simpl; lia.
  - rewrite R7, R5, sum_sizeBytes_snoc, inv_size0. reflexivity.
  - rewrite R5. rewrite <- inv_numbers0. rewrite !map_app. simpl.
    rewrite settle_requestNumber, Ht. simpl.
    rewrite <- !app_assoc. simpl.
    rewrite <- !Permutation_middle. reflexivity.
  - intros task' Hin.
    destruct (inv_tasks0 task') as (s' & Hs' & Ht').
    + apply in_app_iff in Hin. apply in_app_iff. simpl. tauto.
    + exists s'. split; [apply in_snoc; auto | exact Ht'].
  - intros j o' now' Hin. rewrite R5. apply in_snoc in Hin as [Hin|Hin].
    + destruct (inv_settled0 j o' now' Hin) as (s' & Hs' & Ho').
      exists s'. split; [apply in_snoc; auto | apply in_snoc; auto].
    + injection Hin as -> -> ->.
      exists s. split; [apply in_snoc; auto|].
      apply in_snoc. right. rewrite Ht. reflexivity.
  - intros d Hd. rewrite R5 in Hd. apply in_snoc in Hd as [Hd|Hd].
    + destruct (inv_outcomes0 d Hd) as (j & s' & o' & now' & Ha & Hse & ->).
      exists j, s', o', now'. rewrite !in_snoc. auto.
    + exists i, s, o, now. rewrite !in_snoc.
      split; [auto|]. split; [auto|]. rewrite Hd, Ht. reflexivity.
  - intros j s' Hin. apply in_snoc in Hin as [Hin|Hin]; [|discriminate].
    apply (inv_admitted0 j s' Hin).
  - intros s' Hin. rewrite R8. apply in_snoc in Hin as [Hin|Hin];
      [auto | discriminate].
  - intros s' Hin. rewrite R9. apply in_snoc in Hin as [Hin|Hin];
      [auto | discriminate].
Qed.

Lemma run_invariant tr st :
  run n (initial n t) tr = Some st -> invariant n t tr st.
Proof.
  revert st. induction tr as [|e tr IH] using rev_ind; intros st H.
  - injection H as <-. apply invariant_initial.
  - rewrite run_snoc in H.
    destruct (run n (initial n t) tr) as [st0|]; [|discriminate].
    specialize (IH st0 eq_refl).
    destruct e; [eapply invariant_admit | eapply invariant_settle]; eauto.
Qed.

End Invariant.

(** ** Completed calls of [loadTest] *)

Lemma loadTest_returned url n t env r :
  loadTest url n t env = Some (Returned r) ->
  exists st,
    run n (initial n t) (trace env) = Some st /\
    queued (throttleRequests st) = [] /\ inflight st = [] /\
    r = Results.set_totalTimeTakenMs (endTime env - startTime env) (results st).
Proof.
  unfold loadTest. destruct (max_array_length <? n); [discriminate|].
  destruct (run n (initial n t) (trace env)) as [st|] eqn:E; [|discriminate].
  unfold all_settled.
  destruct (queued (throttleRequests st)) eqn:Q; [|discriminate].
  destruct (inflight st) eqn:F; [|discriminate].
  intros H. injection H as <-. exists st. auto.
Qed.

Lemma completed_numbers n t tr st :
  invariant n t tr st ->
  queued (throttleRequests st) = [] -> inflight st = [] ->
  Permutation (map ResponseData.requestNumber (Results.responses (results st)))
              (map (fun i => i + 1) (seqZ 0 n)).
Proof.
  intros I Q F. pose proof (inv_numbers _ _ _ _ I) as H.
  rewrite Q, F in H. simpl in H. rewrite app_nil_r in H. exact H.
Qed.

Lemma completed_length n t tr st :
  invariant n t tr st ->
  queued (throttleRequests st) = [] -> inflight st = [] ->
  length (Results.responses (results st)) = Z.to_nat n.
Proof.
  intros I Q F. pose proof (completed_numbers _ _ _ _ I Q F) as H.
  apply Permutation_length in H.
  rewrite !length_map, length_seqZ in H. exact H.
Qed.

Lemma run_sequential n outcome clock q st :
  queued (throttleRequests st) = q -> inflight st = [] ->
  exists st',
    run n st (sequential_trace outcome clock q) = Some st' /\
    queued (throttleRequests st') = [] /\ inflight st' = [].
Proof.
  revert st. induction q as [|i q IH]; intros st Q F.
  - exists st. simpl. auto.
  - cbn [sequential_trace flat_map app run].
    unfold step at 1. rewrite Q. cbn [dequeue]. rewrite Z.eqb_refl.
    destruct (begin_request n i (clock (2 * i)) (results st)) as [r' task] eqn:B.
    pose proof (begin_request_task n i (clock (2 * i)) (results st)) as T.
    rewrite B in T. simpl in T. subst task.
    unfold step at 1. rewrite F. cbn [inflight take_task fresh_task index].
    rewrite Z.eqb_refl.
    apply IH; reflexivity.
Qed.

Lemma loadTest_completes url n t outcome clock s e :
  n <= max_array_length ->
  exists r,
    loadTest url n t
      (mkEnvironment s (sequential_trace outcome clock (seqZ 0 n)) e)
    = Some (Returned r).
Proof.
  intros Hn. unfold loadTest.
  replace (max_array_length <? n) with false by (symmetry; apply Z.ltb_ge; lia).
  destruct (run_sequential n outcome clock (seqZ 0 n) (initial n t))
    as (st & R & Q & F); [reflexivity | reflexivity |].
  cbn [trace]. rewrite R. unfold all_settled. rewrite Q, F. eauto.
Qed.

(** What a completed call has counted. *)
Lemma completed_counts url n t env r :
  0 < n ->
  loadTest url n t env = Some (Returned r) ->
  Z.of_nat (length (Results.responses r)) = n /\
  Results.totalRequests r = n /\
  Results.successfulRequests r
    = count_outcomes ResponseData.success (Results.responses r) /\
  Results.failedRequests r = count_outcomes failed (Results.responses r) /\
  Results.totalResponseSizeBytes r = sum_sizeBytes (Results.responses r).
Proof.
  intros Hn H.
  destruct (loadTest_returned _ _ _ _ _ H) as (st & Hrun & Q & F & ->).
  pose proof (run_invariant _ _ _ _ Hrun) as I.
  pose proof (completed_length _ _ _ _ I Q F) as L.
  destruct I. simpl. repeat split; try assumption. lia.
Qed.

(** C1. After a completed call of [loadTest] with [totalRequests > 0], the
    two counters add up to the number of outcome records, which is
    [totalRequests]: each unit of work has appended one record and
    incremented the counter that matches it, so [successfulRequests] counts
    the records with [success] set and [failedRequests] the others. *)
Theorem loadTest_counts url n t env r :
  0 < n ->
  loadTest url n t env = Some (Returned r) ->
  Results.successfulRequests r + Results.failedRequests r
    = Z.of_nat (length (Results.responses r)) /\
  Z.of_nat (length (Results.responses r)) = Results.totalRequests r /\
  Results.totalRequests r = n /\
  Results.successfulRequests r
    = count_outcomes ResponseData.success (Results.responses r) /\
  Results.failedRequests r = count_outcomes failed (Results.responses r).
Proof.
  intros Hn H.
  destruct (completed_counts _ _ _ _ _ Hn H) as (L & N & S & F & _).
  rewrite S, F, count_outcomes_partition.
  repeat split; try reflexivity; congruence.
Qed.

Lemma loadTest_counts_witness :
  Results.successfulRequests sample_result + Results.failedRequests sample_result
    = Z.of_nat (length (Results.responses sample_result)) /\
  Z.of_nat (length (Results.responses sample_result))
    = Results.totalRequests sample_result /\
  Results.totalRequests sample_result = 3 /\
  Results.successfulRequests sample_result
    = count_outcomes ResponseData.success (Results.responses sample_result) /\
  Results.failedRequests sample_result
    = count_outcomes failed (Results.responses sample_result).
Proof.
  apply (loadTest_counts "https://example.com" 3 (F64.of_Z 3) sample_env);
    [lia | vm_compute; reflexivity].
Defined.

(** ** The rate *)

Lemma run_rate n t tr st :
  run n (initial n t) tr = Some st ->
  rate (throttleRequests st) = requestsPerSecond n t.
Proof. intros H. exact (inv_rate _ _ _ _ (run_invariant _ _ _ _ H)). Qed.

(** On whole-second windows the rate is the integer ceiling of the
    quotient; checked on every pair up to 64. *)
Example requestsPerSecond_small_integers :
  forallb
    (fun a =>
       forallb
         (fun b =>
            F64.eqb (requestsPerSecond a (F64.of_Z b))
                    (F64.of_Z (ceil_div a b)))
         (seqZ 1 64))
    (seqZ 1 64)
  = true.
Proof. vm_compute. reflexivity. Qed.

(** The quotient is the rounded quotient of doubles: one request in a
    window of 0.3333333333333333 seconds gives the rate 3, since
    [1 / 0.3333333333333333] is the double 3. *)
Example requestsPerSecond_rounded_quotient :
  requestsPerSecond 1 (F64.div (F64.of_Z 1) (F64.of_Z 3)) = F64.of_Z 3.
Proof. vm_compute. reflexivity. Qed.

(** The rate is the ceiling of the quotient of doubles: the quotient
    itself when it has no fractional bits, and otherwise the integer [c]
    with [c - 1 < quotient <= c]. *)
Lemma requestsPerSecond_ceiling n t m e :
  F64.div (F64.of_Z n) t = S754_finite false m e ->
  if 0 <=? e then requestsPerSecond n t = S754_finite false m e
  else
    let c := F64.to_Z (requestsPerSecond n t) in
    (c - 1) * 2 ^ (- e) < Zpos m <= c * 2 ^ (- e).
Proof.
  intros H. unfold requestsPerSecond. rewrite H.
  destruct (Z.leb_spec 0 e) as [He|He].
  - apply Math_ceil_integer. exact He.
  - apply Math_ceil_ceiling; [|exact He].
    pose proof (div_bounded (F64.of_Z n) t) as B. rewrite H in B. exact B.
Qed.

(** C2. The limiter is configured with
    [Math.ceil(totalRequests / timeWindowSeconds)], for positive arguments
    as for any others: the least integer that is not below the quotient of
    the two doubles.  That rate is the limiter's rate in every state the
    run goes through: it is computed once and nothing changes it.  For 10
    requests in 3 seconds the rate is 4. *)
Theorem requestsPerSecond_fixed n t tr st :
  run n (initial n t) tr = Some st ->
  rate (throttleRequests (initial n t))
    = F64.Math_ceil (F64.div (F64.of_Z n) t) /\
  rate (throttleRequests st) = F64.Math_ceil (F64.div (F64.of_Z n) t) /\
  (forall m e,
     F64.div (F64.of_Z n) t = S754_finite false m e ->
     if 0 <=? e then rate (throttleRequests st) = S754_finite false m e
     else
       let c := F64.to_Z (rate (throttleRequests st)) in
       (c - 1) * 2 ^ (- e) < Zpos m <= c * 2 ^ (- e)) /\
  requestsPerSecond 10 (F64.of_Z 3) = F64.of_Z 4.
Proof.
  intros H. pose proof (run_rate _ _ _ _ H) as R.
  split; [reflexivity|]. split; [rewrite R; reflexivity|]. split.
  - intros m e Hq. rewrite R. apply requestsPerSecond_ceiling. exact Hq.
  - vm_compute. reflexivity.
Qed.

Lemma requestsPerSecond_fixed_witness :
  rate (throttleRequests (initial 10 (F64.of_Z 3)))
    = F64.Math_ceil (F64.div (F64.of_Z 10) (F64.of_Z 3)) /\
  rate (throttleRequests
          (mkState
             (Results.mk 10 (F64.of_Z 3) 0 0 [] 0 (Some 5) None F64.zero)
             (mkThrottle (F64.of_Z 4) [1; 2; 3; 4; 5; 6; 7; 8; 9])
             [fresh_task 0 5]))
    = F64.Math_ceil (F64.div (F64.of_Z 10) (F64.of_Z 3)) /\
  (forall m e,
     F64.div (F64.of_Z 10) (F64.of_Z 3) = S754_finite false m e ->
     if 0 <=? e then F64.of_Z 4 = S754_finite false m e
     else
       let c := F64.to_Z (F64.of_Z 4) in
       (c - 1) * 2 ^ (- e) < Zpos m <= c * 2 ^ (- e)) /\
  requestsPerSecond 10 (F64.of_Z 3) = F64.of_Z 4.
Proof.
  apply (requestsPerSecond_fixed 10 (F64.of_Z 3) [Admit 0 5]).
  vm_compute. reflexivity.
Defined.

(** ** The limiter *)

Lemma throttled_queue n tr :
  forall st k m,
    queued (throttleRequests st) = seqZ k m ->
    throttled n st tr = true ->
    admitted_indices tr = seqZ k (Z.of_nat (length (admitted_indices tr))).
Proof.
  induction tr as [|e tr IH]; intros st k m Q H; [reflexivity|].
  cbn [throttled] in H. apply andb_true_iff in H as (A & H).
  destruct (step n st e) as [st'|] eqn:E; [|discriminate].
  destruct e as [i now|i o now]; cbn [admitted_indices].
  - unfold throttle_admits in A. rewrite Q in A.
    destruct (Z.le_gt_cases m 0) as [Hm|Hm];
      [rewrite seqZ_nil in A by lia; discriminate|].
    rewrite seqZ_cons in A, Q by lia.
    apply andb_true_iff in A as (A & _). apply Z.eqb_eq in A. subst i.
    simpl in E. rewrite Q in E. cbn [dequeue] in E.
    rewrite Z.eqb_refl in E.
    injection E as <-.
    cbn [length]. rewrite Nat2Z.inj_succ, seqZ_cons by lia.
    f_equal. rewrite Z.pred_succ.
    eapply IH; [|exact H]; reflexivity.
  - simpl in E.
    destruct (take_task i (inflight st)) as [[task rest]|]; [|discriminate].
    injection E as <-. eapply IH; [|exact H]; exact Q.
Qed.

(** The first part of the admission policy holds of the limiter: whatever
    it admits, the units start in the order of their submission. *)
Lemma throttled_first_in_first_out n t tr :
  throttled n (initial n t) tr = true -> first_in_first_out tr.
Proof. intros H. apply (throttled_queue n tr (initial n t) 0 n); auto. Qed.

(** C4. The second part fails on the limiter the program uses, which
    bounds the units in flight and not the starts per second.  For three
    requests in a window of three seconds the rate is 1; against a server
    that answers within a millisecond the limiter admits the three units
    in order, one at a time, at 0, 1 and 2 milliseconds, and the run is
    complete: three admissions within one second, where the rate allows
    one. *)
Theorem throttle_exceeds_rate :
  requestsPerSecond 3 (F64.of_Z 3) = F64.of_Z 1 /\
  throttled 3 (initial 3 (F64.of_Z 3)) (trace fast_env) = true /\
  loadTest "http://localhost:8080" 3 (F64.of_Z 3) fast_env
    = Some (Returned fast_result) /\
  first_in_first_out (trace fast_env) /\
  admissions_within 0 (trace fast_env) = 3 /\
  ~ rate_respected 1 (trace fast_env).
Proof.
  split; [vm_compute; reflexivity|].
  split; [vm_compute; reflexivity|].
  split; [vm_compute; reflexivity|].
  split; [reflexivity|].
  split; [reflexivity|].
  intros H. specialize (H 0). vm_compute in H. apply H. reflexivity.
Qed.

(** ** Request numbers *)

Lemma count_outcomes_count_occ k l :
  count_outcomes (fun d => ResponseData.requestNumber d =? k) l
  = Z.of_nat (count_occ Z.eq_dec (map ResponseData.requestNumber l) k).
Proof.
  induction l as [|d l IH]; [reflexivity|].
  cbn [count_outcomes map count_occ].
  destruct (Z.eq_dec (ResponseData.requestNumber d) k) as [E|E].
  - apply Z.eqb_eq in E as ->. rewrite IH. lia.
  - apply Z.eqb_neq in E as ->. rewrite IH. lia.
Qed.

Lemma in_numbers n k :
  In k (map (fun i => i + 1) (seqZ 0 n)) <-> 1 <= k <= n.
Proof.
  rewrite in_map_iff. split.
  - intros (i & <- & Hi). apply list_elem_of_In, elem_of_seqZ in Hi. lia.
  - intros Hk. exists (k - 1). split; [lia|].
    apply list_elem_of_In, elem_of_seqZ. lia.
Qed.

(** C9. A unit of work carries the request number [index + 1] from the
    moment it is created, so that after a completed run every value
    [1..totalRequests] is the request number of exactly one outcome, no
    other value occurs and none occurs twice, whatever the order in which
    the outcomes were appended. *)
Theorem requestNumber_assignment url n t env r :
  loadTest url n t env = Some (Returned r) ->
  (forall d, In d (Results.responses r) ->
     exists i s o now,
       In (Admit i s) (trace env) /\ In (Settle i o now) (trace env) /\
       d = settle (fresh_task i s) o now /\
       ResponseData.requestNumber d = i + 1) /\
  (forall k, 1 <= k <= n ->
     count_outcomes (fun d => ResponseData.requestNumber d =? k)
       (Results.responses r) = 1) /\
  (forall d, In d (Results.responses r) ->
     1 <= ResponseData.requestNumber d <= n) /\
  List.NoDup (map ResponseData.requestNumber (Results.responses r)).
Proof.
  intros H.
  destruct (loadTest_returned _ _ _ _ _ H) as (st & Hrun & Q & F & ->).
  pose proof (run_invariant _ _ _ _ Hrun) as I.
  pose proof (completed_numbers _ _ _ _ I Q F) as P.
  pose proof (numbers_NoDup n) as ND.
  simpl. split; [|split; [|split]].
  - intros d Hd.
    destruct (inv_outcomes _ _ _ _ I d Hd) as (i & s & o & now & Ha & Hs & ->).
    exists i, s, o, now. repeat split; auto.
    rewrite settle_requestNumber. reflexivity.
  - intros k Hk. rewrite count_outcomes_count_occ.
    rewrite (Permutation_count_occ Z.eq_dec) in P. rewrite P.
    rewrite (proj1 (NoDup_count_occ' Z.eq_dec _) ND); [reflexivity|].
    apply in_numbers. assumption.
  - intros d Hd. apply (in_numbers n). rewrite <- P.
    apply in_map. assumption.
  - eapply Permutation_NoDup; [symmetry; exact P | exact ND].
Qed.

Lemma requestNumber_assignment_witness :
  (forall d, In d (Results.responses sample_result) ->
     exists i s o now,
       In (Admit i s) (trace sample_env) /\
       In (Settle i o now) (trace sample_env) /\
       d = settle (fresh_task i s) o now /\
       ResponseData.requestNumber d = i + 1) /\
  (forall k, 1 <= k <= 3 ->
     count_outcomes (fun d => ResponseData.requestNumber d =? k)
       (Results.responses sample_result) = 1) /\
  (forall d, In d (Results.responses sample_result) ->
     1 <= ResponseData.requestNumber d <= 3) /\
  List.NoDup (map ResponseData.requestNumber (Results.responses sample_result)).
Proof.
  apply (requestNumber_assignment "https://example.com" 3 (F64.of_Z 3) sample_env).
  vm_compute. reflexivity.
Defined.

(** ** First and last start times *)

(** C10. With [totalRequests = 1] the only unit of work has index 0, which
    is also [totalRequests - 1]: after the run both [firstQueryStartTime]
    and [lastQueryStartTime] are set, to the time at which that unit
    started, the time its elapsed time is measured from. *)
Theorem single_request_start_times url t env r :
  loadTest url 1 t env = Some (Returned r) ->
  exists s o now,
    In (Admit 0 s) (trace env) /\
    Results.firstQueryStartTime r = Some s /\
    Results.lastQueryStartTime r = Some s /\
    Results.responses r = [settle (fresh_task 0 s) o now] /\
    ResponseData.timeMs (settle (fresh_task 0 s) o now) = now - s.
Proof.
  intros H.
  destruct (loadTest_returned _ _ _ _ _ H) as (st & Hrun & Q & F & ->).
  pose proof (run_invariant _ _ _ _ Hrun) as I.
  pose proof (completed_numbers _ _ _ _ I Q F) as P.
  pose proof (completed_length _ _ _ _ I Q F) as L. simpl.
  destruct (Results.responses (results st)) as [|d [|d' l]] eqn:E;
    try discriminate.
  destruct (inv_outcomes _ _ _ _ I d) as (i & s & o & now & Ha & Hs & Hd);
    [rewrite E; left; reflexivity|].
  assert (i = 0) as ->.
  { apply Permutation_length_1 in P. simpl in P.
    rewrite Hd, settle_requestNumber in P. simpl in P. lia. }
  exists s, o, now. repeat split.
  - exact Ha.
  - apply (inv_first _ _ _ _ I). exact Ha.
  - apply (inv_last _ _ _ _ I). exact Ha.
  - rewrite Hd. reflexivity.
  - destruct o; reflexivity.
Qed.

Lemma single_request_start_times_witness :
  exists s o now,
    In (Admit 0 s) (trace single_env) /\
    Results.firstQueryStartTime single_result = Some s /\
    Results.lastQueryStartTime single_result = Some s /\
    Results.responses single_result = [settle (fresh_task 0 s) o now] /\
    ResponseData.timeMs (settle (fresh_task 0 s) o now) = now - s.
Proof.
  apply (single_request_start_times "https://example.com" (F64.of_Z 1)
           single_env single_result).
  vm_compute. reflexivity.
Defined.

(** ** Sizes *)

(** C5. After a completed run [totalResponseSizeBytes] is the sum of
    [sizeBytes] over the outcomes in [responses]; the outcome of a failed
    request carries the size of the response attached to the error when
    there is one, and 0 otherwise. *)
Theorem totalResponseSizeBytes_sum url n t env r :
  loadTest url n t env = Some (Returned r) ->
  Results.totalResponseSizeBytes r = sum_sizeBytes (Results.responses r) /\
  (forall i e now, In (Settle i (Axios.Rejected e) now) (trace env) ->
     exists d, In d (Results.responses r) /\
               ResponseData.requestNumber d = i + 1 /\
               ResponseData.success d = false /\
               ResponseData.sizeBytes d = attached_size e).
Proof.
  intros H.
  destruct (loadTest_returned _ _ _ _ _ H) as (st & Hrun & Q & F & ->).
  pose proof (run_invariant _ _ _ _ Hrun) as I. simpl. split.
  - apply (inv_size _ _ _ _ I).
  - intros i e now Hin.
    destruct (inv_settled _ _ _ _ I _ _ _ Hin) as (s & _ & Hd).
    eexists. split; [exact Hd|]. repeat split.
Qed.

Lemma totalResponseSizeBytes_sum_witness :
  Results.totalResponseSizeBytes sample_result
    = sum_sizeBytes (Results.responses sample_result) /\
  (forall i e now, In (Settle i (Axios.Rejected e) now) (trace sample_env) ->
     exists d, In d (Results.responses sample_result) /\
               ResponseData.requestNumber d = i + 1 /\
               ResponseData.success d = false /\
               ResponseData.sizeBytes d = attached_size e).
Proof.
  apply (totalResponseSizeBytes_sum "https://example.com" 3 (F64.of_Z 3)).
  vm_compute. reflexivity.
Defined.

(** ** Failed requests *)

Lemma settle_timeMs i s o now :
  ResponseData.timeMs (settle (fresh_task i s) o now) = now - s.
Proof. destruct o; reflexivity. Qed.

(** C6, as stated, fails: the outcome of a failed call whose error has an
    empty message is recorded with an empty error text. *)
Lemma failed_request_empty_message :
  loadTest "https://example.com" 1 (F64.of_Z 1) silent_env
    = Some (Returned silent_result) /\
  ~ (forall d, In d (Results.responses silent_result) ->
       ResponseData.success d = false -> has_error_text d = true).
Proof.
  split; [vm_compute; reflexivity|].
  intros H. specialize (H _ (or_introl eq_refl) eq_refl). discriminate H.
Qed.

Lemma take_task_in i l :
  In i (map index l) -> exists task rest, take_task i l = Some (task, rest).
Proof.
  induction l as [|u l IH]; simpl; [contradiction|].
  intros H. destruct (Z.eqb_spec i (index u)) as [Heq|Hne]; [eauto|].
  destruct H as [H|H]; [congruence|].
  destruct (IH H) as (task & rest & ->). eauto.
Qed.

Lemma run_app n st tr1 tr2 :
  run n st (tr1 ++ tr2) =
  match run n st tr1 with
  | Some st' => run n st' tr2
  | None => None
  end.
Proof.
  revert st. induction tr1 as [|e tr1 IH]; intros st; simpl; [reflexivity|].
  destruct (step n st e); [apply IH | reflexivity].
Qed.

Lemma step_keeps_responses n st e st' d :
  step n st e = Some st' ->
  In d (Results.responses (results st)) ->
  In d (Results.responses (results st')).
Proof.
  destruct e as [i now|i o now]; simpl.
  - destruct (dequeue i (queued (throttleRequests st))); [|discriminate].
    intros [= <-]. simpl.
    destruct (i =? 0), (i =? n - 1); simpl; auto.
  - destruct (take_task i (inflight st)) as [[task rest]|]; [|discriminate].
    intros [= <-]. simpl.
    pose proof (finish_request_results task o now (results st)) as Q.
    cbv zeta in Q. destruct Q as (_ & _ & _ & _ & -> & _).
    intros H. apply in_or_app. left. exact H.
Qed.

Lemma run_keeps_responses n tr st st' d :
  run n st tr = Some st' ->
  In d (Results.responses (results st)) ->
  In d (Results.responses (results st')).
Proof.
  revert st. induction tr as [|e tr IH]; intros st H Hd; simpl in H.
  - injection H as <-. exact Hd.
  - destruct (step n st e) as [st1|] eqn:E; [|discriminate].
    apply (IH st1 H). eapply step_keeps_responses; eassumption.
Qed.

(** What can happen next depends on the units waiting and the calls in
    flight only, not on what has been recorded. *)
Lemma step_pending n a b e :
  pending a = pending b ->
  option_map pending (step n a e) = option_map pending (step n b e).
Proof.
  destruct a as [ra [ta qa] fa], b as [rb [tb qb] fb].
  unfold pending. simpl. intros [= -> ->].
  destruct e as [i now|i o now]; simpl.
  - destruct (dequeue i qb); reflexivity.
  - destruct (take_task i fb) as [[task rest]|]; reflexivity.
Qed.

Lemma run_pending n tr a b :
  pending a = pending b ->
  option_map pending (run n a tr) = option_map pending (run n b tr).
Proof.
  revert a b. induction tr as [|e tr IH]; intros a b H; simpl.
  - rewrite H. reflexivity.
  - pose proof (step_pending n a b e H) as S.
    destruct (step n a e) as [a'|], (step n b e) as [b'|];
      try discriminate; [|reflexivity].
    apply IH. simpl in S. congruence.
Qed.

(** C6, amended. A call that fails while it is in flight is absorbed by
    its unit of work: the piece of work after the call runs to its end and
    appends one outcome with [success = false], the error's message as it
    is (empty when the client's message is empty), the elapsed time
    measured as for a success (the time at the settlement minus the unit's
    start time), the status of the response attached to the error or
    ['N/A'] without one, and the size of that response or 0; it counts one
    failure and no success.  The failure stops nothing: the other calls in
    flight and the units waiting are left as they are, whatever can happen
    after a success of the same call can happen after its failure, and
    when the run ends [loadTest] returns, with this outcome and the
    outcome of every other settled call among the responses, one for each
    unit.  [loadTest] throws for no failed call: only for a request count
    beyond the longest array. *)
Theorem failed_request_outcome url n t tr st i e now :
  run n (initial n t) tr = Some st ->
  In i (map index (inflight st)) ->
  exists s st' before after,
    In (Admit i s) tr /\
    step n st (Settle i (Axios.Rejected e) now) = Some st' /\
    Results.responses (results st')
      = Results.responses (results st)
        ++ [ResponseData.mk (i + 1) (now - s) (attached_status e) false
              (attached_size e) (Some (Axios.message e))] /\
    Results.failedRequests (results st')
      = Results.failedRequests (results st) + 1 /\
    Results.successfulRequests (results st')
      = Results.successfulRequests (results st) /\
    inflight st = before ++ fresh_task i s :: after /\
    inflight st' = before ++ after /\
    throttleRequests st' = throttleRequests st /\
    (forall response rest,
       exists st_ok,
         step n st (Settle i (Axios.Resolved response) now) = Some st_ok /\
         option_map pending (run n st' rest)
           = option_map pending (run n st_ok rest)) /\
    (forall env rest r,
       trace env = tr ++ Settle i (Axios.Rejected e) now :: rest ->
       loadTest url n t env = Some (Returned r) ->
       In (ResponseData.mk (i + 1) (now - s) (attached_status e) false
             (attached_size e) (Some (Axios.message e)))
          (Results.responses r) /\
       (forall j o now', In (Settle j o now') (trace env) ->
          exists s',
            In (Admit j s') (trace env) /\
            In (settle (fresh_task j s') o now') (Results.responses r) /\
            ResponseData.timeMs (settle (fresh_task j s') o now')
              = now' - s') /\
       length (Results.responses r) = Z.to_nat n) /\
    (forall env msg,
       loadTest url n t env = Some (Thrown msg) -> max_array_length < n).
Proof.
  intros Hrun Hin.
  pose proof (run_invariant _ _ _ _ Hrun) as I.
  destruct (take_task_in i (inflight st) Hin) as (task & rest0 & E).
  destruct (take_task_split _ _ _ _ E) as (before & after & Hl & Hrest & Hi).
  assert (Ht : In task (inflight st))
    by (rewrite Hl; apply in_or_app; right; left; reflexivity).
  destruct (inv_tasks _ _ _ _ I task Ht) as (s & Ha & Hf).
  rewrite Hi in Ha, Hf. subst task.
  set (d := ResponseData.mk (i + 1) (now - s) (attached_status e) false
              (attached_size e) (Some (Axios.message e))).
  assert (Hd : settle (fresh_task i s) (Axios.Rejected e) now = d)
    by reflexivity.
  set (st' := mkState
                (finish_request (fresh_task i s) (Axios.Rejected e) now
                   (results st))
                (throttleRequests st) rest0).
  assert (Hstep : step n st (Settle i (Axios.Rejected e) now) = Some st')
    by (simpl; rewrite E; reflexivity).
  pose proof (finish_request_results (fresh_task i s) (Axios.Rejected e) now
                (results st)) as Q.
  cbv zeta in Q. rewrite Hd in Q.
  destruct Q as (_ & _ & Q3 & Q4 & Q5 & _).
  assert (R5 : Results.responses (results st')
               = Results.responses (results st) ++ [d]) by exact Q5.
  exists s, st', before, after.
  split; [exact Ha|]. split; [exact Hstep|]. split; [exact Q5|].
  split; [exact Q4|]. split; [simpl; lia|]. split; [exact Hl|].
  split; [exact Hrest|]. split; [reflexivity|]. split; [|split].
  - intros response rest.
    exists (mkState
              (finish_request (fresh_task i s) (Axios.Resolved response) now
                 (results st))
              (throttleRequests st) rest0).
    split; [simpl; rewrite E; reflexivity|].
    apply run_pending. reflexivity.
  - intros env rest r Htr H.
    destruct (loadTest_returned _ _ _ _ _ H) as (st2 & Hrun2 & Q & F & ->).
    pose proof (run_invariant _ _ _ _ Hrun2) as I2. simpl.
    split; [|split].
    + rewrite Htr, run_app, Hrun in Hrun2. cbn [run] in Hrun2.
      rewrite Hstep in Hrun2.
      apply (run_keeps_responses _ _ _ _ _ Hrun2).
      rewrite R5. apply in_or_app. right. left. reflexivity.
    + intros j o now' Hj.
      destruct (inv_settled _ _ _ _ I2 _ _ _ Hj) as (s' & Ha' & Hd').
      exists s'. split; [exact Ha'|]. split; [exact Hd' | apply settle_timeMs].
    + apply (completed_length _ _ _ _ I2 Q F).
  - intros env msg. unfold loadTest.
    destruct (Z.ltb_spec max_array_length n) as [L|L]; [intros _; exact L|].
    destruct (run n (initial n t) (trace env)) as [st2|]; [|discriminate].
    destruct (all_settled st2); discriminate.
Qed.

Lemma failed_request_outcome_witness :
  exists s st' before after,
    In (Admit 1 s) [Admit 0 1000; Admit 1 1001] /\
    step 3 sample_midway (Settle 1 (Axios.Rejected sample_error) 11002)
      = Some st' /\
    Results.responses (results st')
      = Results.responses (results sample_midway)
        ++ [ResponseData.mk (1 + 1) (11002 - s) (attached_status sample_error)
              false (attached_size sample_error)
              (Some (Axios.message sample_error))] /\
    Results.failedRequests (results st')
      = Results.failedRequests (results sample_midway) + 1 /\
    Results.successfulRequests (results st')
      = Results.successfulRequests (results sample_midway) /\
    inflight sample_midway = before ++ fresh_task 1 s :: after /\
    inflight st' = before ++ after /\
    throttleRequests st' = throttleRequests sample_midway /\
    (forall response rest,
       exists st_ok,
         step 3 sample_midway (Settle 1 (Axios.Resolved response) 11002)
           = Some st_ok /\
         option_map pending (run 3 st' rest)
           = option_map pending (run 3 st_ok rest)) /\
    (forall env rest r,
       trace env
         = [Admit 0 1000; Admit 1 1001]
           ++ Settle 1 (Axios.Rejected sample_error) 11002 :: rest ->
       loadTest "https://example.com" 3 (F64.of_Z 3) env = Some (Returned r) ->
       In (ResponseData.mk (1 + 1) (11002 - s) (attached_status sample_error)
             false (attached_size sample_error)
             (Some (Axios.message sample_error)))
          (Results.responses r) /\
       (forall j o now', In (Settle j o now') (trace env) ->
          exists s',
            In (Admit j s') (trace env) /\
            In (settle (fresh_task j s') o now') (Results.responses r) /\
            ResponseData.timeMs (settle (fresh_task j s') o now')
              = now' - s') /\
       length (Results.responses r) = Z.to_nat 3) /\
    (forall env msg,
       loadTest "https://example.com" 3 (F64.of_Z 3) env = Some (Thrown msg) ->
       max_array_length < 3).
Proof.
  apply (failed_request_outcome "https://example.com" 3 (F64.of_Z 3)
           [Admit 0 1000; Admit 1 1001] sample_midway 1 sample_error 11002).
  - vm_compute. reflexivity.
  - simpl. left. reflexivity.
Defined.

(** ** The summary *)

(** C8, as stated, fails: for a run of zero elapsed milliseconds the
    reported throughput is the number 0, and the formula gives the text
    of [0 / 0]. *)
Lemma throughput_of_instant_run :
  loadTest "https://example.com" 1 (F64.of_Z 1) instant_env
    = Some (Returned instant_result) /\
  mbps (summarize instant_result) = Num F64.zero /\
  throughput_of (Results.responses instant_result)
    (Results.totalTimeTakenMs instant_result) = TNaN /\
  mbps (summarize instant_result)
    <> Text (throughput_of (Results.responses instant_result)
               (Results.totalTimeTakenMs instant_result)).
Proof.
  split; [vm_compute; reflexivity|].
  split; [vm_compute; reflexivity|].
  split; [vm_compute; reflexivity|].
  vm_compute. discriminate.
Qed.

(** C8, amended. The summary reported for a completed run is the one
    recomputed from its outcomes: the error rate is the share of failed
    outcomes times 100, the average response time the mean of their
    elapsed times, the size in MB the sum of their sizes over 1024 * 1024,
    each to two decimals; the throughput is that rounded size over
    [totalTimeTakenMs / 1000], to two decimals, when this time is positive,
    and the number 0 when it is not. *)
Theorem summary_recomputed url n t env r :
  0 < n ->
  loadTest url n t env = Some (Returned r) ->
  errorRate (summarize r) = error_rate_of (Results.responses r) /\
  averageResponseTimeMs (summarize r)
    = Text (average_of (Results.responses r)) /\
  totalResponseSizeMB (summarize r) = total_MB_of (Results.responses r) /\
  mbps (summarize r)
    = (if 0 <? Results.totalTimeTakenMs r
       then Text (throughput_of (Results.responses r)
                    (Results.totalTimeTakenMs r))
       else Num F64.zero).
Proof.
  intros Hn H.
  destruct (completed_counts _ _ _ _ _ Hn H) as (L & N & _ & Fl & Sz).
  unfold summarize, error_rate_of, average_of, total_MB_of, throughput_of.
  cbn [errorRate averageResponseTimeMs totalResponseSizeMB mbps].
  rewrite Fl, N, <- L, Sz.
  replace (0 <? Z.of_nat (length (Results.responses r))) with true
    by (symmetry; apply Z.ltb_lt; lia).
  repeat split; try reflexivity.
  destruct (Z.ltb_spec 0 (Results.totalTimeTakenMs r)) as [Hms|Hms].
  - rewrite seconds_positive by exact Hms. reflexivity.
  - rewrite seconds_not_positive by exact Hms. reflexivity.
Qed.

Lemma summary_recomputed_witness :
  errorRate (summarize sample_result)
    = error_rate_of (Results.responses sample_result) /\
  averageResponseTimeMs (summarize sample_result)
    = Text (average_of (Results.responses sample_result)) /\
  totalResponseSizeMB (summarize sample_result)
    = total_MB_of (Results.responses sample_result) /\
  mbps (summarize sample_result)
    = (if 0 <? Results.totalTimeTakenMs sample_result
       then Text (throughput_of (Results.responses sample_result)
                    (Results.totalTimeTakenMs sample_result))
       else Num F64.zero).
Proof.
  apply (summary_recomputed "https://example.com" 3 (F64.of_Z 3) sample_env);
    [lia | vm_compute; reflexivity].
Defined.

(** * Further properties of the code *)

(** ** The run at every moment *)

Lemma step_admit_inv n st i now st' :
  step n st (Admit i now) = Some st' ->
  exists l1 l2,
    queued (throttleRequests st) = l1 ++ i :: l2 /\
    queued (throttleRequests st') = l1 ++ l2 /\
    rate (throttleRequests st') = rate (throttleRequests st) /\
    inflight st' = fresh_task i now :: inflight st /\
    results st' = fst (begin_request n i now (results st)).
Proof.
  simpl. intros H.
  destruct (dequeue i (queued (throttleRequests st))) as [q|] eqn:E;
    [|discriminate].
  destruct (dequeue_split _ _ _ E) as (l1 & l2 & Hq & ->).
  injection H as <-. exists l1, l2. simpl. auto.
Qed.

Lemma step_settle_inv n st i o now st' :
  step n st (Settle i o now) = Some st' ->
  exists task l1 l2,
    inflight st = l1 ++ task :: l2 /\ index task = i /\
    inflight st' = l1 ++ l2 /\
    throttleRequests st' = throttleRequests st /\
    results st' = finish_request task o now (results st).
Proof.
  simpl. intros H.
  destruct (take_task i (inflight st)) as [[task rest]|] eqn:E;
    [|discriminate].
  destruct (take_task_split _ _ _ _ E) as (l1 & l2 & Hl & -> & Hi).
  injection H as <-. exists task, l1, l2. simpl. auto.
Qed.

(** X1. Whatever the state a piece of the run starts from, the outcomes
    recorded before it are still there afterwards, unchanged and in the
    same places: the run only appends, neither counter ever decreases, and
    the two counters together grow by the number of outcomes appended. *)
Theorem run_append_only n st tr st' :
  run n st tr = Some st' ->
  exists more,
    Results.responses (results st') = Results.responses (results st) ++ more /\
    Results.successfulRequests (results st)
      <= Results.successfulRequests (results st') /\
    Results.failedRequests (results st)
      <= Results.failedRequests (results st') /\
    Results.successfulRequests (results st')
      + Results.failedRequests (results st')
    = Results.successfulRequests (results st)
      + Results.failedRequests (results st) + Z.of_nat (length more).
Proof.
  revert st. induction tr as [|e tr IH]; intros st H; simpl in H.
  - injection H as <-. exists []. rewrite app_nil_r.
    split; [reflexivity | simpl; lia].
  - destruct (step n st e) as [st1|] eqn:E; [|discriminate].
    destruct (IH st1 H) as (more & R & S & F & B).
    destruct e as [i now|i o now].
    + destruct (step_admit_inv _ _ _ _ _ E) as (_ & _ & _ & _ & _ & _ & Hr).
      pose proof (begin_request_results n i now (results st)) as Q.
      cbv zeta in Q. rewrite <- Hr in Q.
      destruct Q as (_ & _ & Q3 & Q4 & Q5 & _).
      exists more. rewrite R, Q5. split; [reflexivity | lia].
    + destruct (step_settle_inv _ _ _ _ _ _ E)
        as (task & _ & _ & _ & _ & _ & _ & Hr).
      pose proof (finish_request_results task o now (results st)) as Q.
      cbv zeta in Q. rewrite <- Hr in Q.
      destruct Q as (_ & _ & Q3 & Q4 & Q5 & _).
      exists (settle task o now :: more).
      rewrite R, Q5, <- app_assoc. simpl length.
      split; [reflexivity|]. destruct o; cbn in Q3, Q4; lia.
Qed.

Lemma run_append_only_witness :
  exists more,
    Results.responses sample_result = [] ++ more /\
    0 <= Results.successfulRequests sample_result /\
    0 <= Results.failedRequests sample_result /\
    Results.successfulRequests sample_result
      + Results.failedRequests sample_result
    = 0 + 0 + Z.of_nat (length more).
Proof.
  apply (run_append_only 3 (initial 3 (F64.of_Z 3)) (trace sample_env)
           (mkState (Results.set_totalTimeTakenMs 0 sample_result)
              (mkThrottle (F64.of_Z 1) []) [])).
  vm_compute. reflexivity.
Defined.

(** X2. At every moment of a run for [totalRequests >= 0] each unit is in
    exactly one place: waiting in the limiter, in flight, or recorded.  The
    three numbers add up to [totalRequests], and the two counters add up
    to the number of outcomes recorded so far, which never exceeds
    [totalRequests]. *)
Theorem run_conservation n t tr st :
  0 <= n ->
  run n (initial n t) tr = Some st ->
  Z.of_nat (length (Results.responses (results st)))
    + Z.of_nat (length (inflight st))
    + Z.of_nat (length (queued (throttleRequests st))) = n /\
  Results.successfulRequests (results st)
    + Results.failedRequests (results st)
    = Z.of_nat (length (Results.responses (results st))) /\
  Z.of_nat (length (Results.responses (results st))) <= n.
Proof.
  intros Hn H. pose proof (run_invariant _ _ _ _ H) as I.
  pose proof (inv_numbers _ _ _ _ I) as P.
  apply Permutation_length in P.
  rewrite !length_app, !length_map, length_seqZ in P.
  rewrite (inv_successful _ _ _ _ I), (inv_failed _ _ _ _ I),
    count_outcomes_partition.
  repeat split; lia.
Qed.

Lemma run_conservation_witness :
  Z.of_nat (length ([] : list ResponseData.t))
    + Z.of_nat (length [fresh_task 0 5])
    + Z.of_nat (length [1; 2]) = 3 /\
  0 + 0 = Z.of_nat (length ([] : list ResponseData.t)) /\
  Z.of_nat (length ([] : list ResponseData.t)) <= 3.
Proof.
  apply (run_conservation 3 (F64.of_Z 3) [Admit 0 5]
           (mkState
              (Results.mk 3 (F64.of_Z 3) 0 0 [] 0 (Some 5) None F64.zero)
              (mkThrottle (F64.of_Z 1) [1; 2]) [fresh_task 0 5]));
    [lia | vm_compute; reflexivity].
Defined.

Lemma settled_indices_snoc tr e :
  settled_indices (tr ++ [e])
  = settled_indices tr
    ++ match e with Admit _ _ => [] | Settle i _ _ => [i] end.
Proof.
  induction tr as [|e0 tr IH]; simpl.
  - destruct e; reflexivity.
  - destruct e0; rewrite IH; reflexivity.
Qed.

Lemma run_settlement_order n t tr st :
  run n (initial n t) tr = Some st ->
  map ResponseData.requestNumber (Results.responses (results st))
  = map (fun i => i + 1) (settled_indices tr).
Proof.
  revert st. induction tr as [|e tr IH] using rev_ind; intros st H.
  - injection H as <-. reflexivity.
  - rewrite run_snoc in H.
    destruct (run n (initial n t) tr) as [st0|] eqn:E; [|discriminate].
    specialize (IH st0 eq_refl).
    pose proof (run_invariant _ _ _ _ E) as I.
    rewrite settled_indices_snoc. destruct e as [i now|i o now].
    + destruct (step_admit_inv _ _ _ _ _ H) as (_ & _ & _ & _ & _ & _ & Hr).
      pose proof (begin_request_results n i now (results st0)) as Q.
      cbv zeta in Q. rewrite <- Hr in Q.
      destruct Q as (_ & _ & _ & _ & Q5 & _).
      rewrite Q5, IH, app_nil_r. reflexivity.
    + destruct (step_settle_inv _ _ _ _ _ _ H)
        as (task & l1 & l2 & Hl & Hi & _ & _ & Hr).
      pose proof (finish_request_results task o now (results st0)) as Q.
      cbv zeta in Q. rewrite <- Hr in Q.
      destruct Q as (_ & _ & _ & _ & Q5 & _).
      destruct (inv_tasks _ _ _ _ I task) as (s & _ & Ht);
        [rewrite Hl; apply in_app_iff; simpl; auto|].
      rewrite Q5, !map_app, IH. simpl.
      rewrite settle_requestNumber, Ht, Hi. reflexivity.
Qed.

(** X3. The outcomes of a completed run stand in [responses] in the order
    in which the calls settled, not in the order of the request numbers:
    the request numbers read off the list are the indices of the settled
    units, plus one, in settlement order. *)
Theorem responses_in_settlement_order url n t env r :
  loadTest url n t env = Some (Returned r) ->
  map ResponseData.requestNumber (Results.responses r)
  = map (fun i => i + 1) (settled_indices (trace env)).
Proof.
  intros H.
  destruct (loadTest_returned _ _ _ _ _ H) as (st & Hrun & _ & _ & ->).
  simpl. apply (run_settlement_order _ _ _ _ Hrun).
Qed.

Lemma responses_in_settlement_order_witness :
  map ResponseData.requestNumber (Results.responses sample_result)
  = map (fun i => i + 1) (settled_indices (trace sample_env)).
Proof.
  apply (responses_in_settlement_order "https://example.com" 3 (F64.of_Z 3)).
  vm_compute. reflexivity.
Defined.

(** X4. Every outcome of a completed run has one of two shapes: a success
    with a numeric status and no error, or a failure with an error text;
    an outcome whose status is ['N/A'] is a failure. *)
Theorem outcomes_well_shaped url n t env r d :
  loadTest url n t env = Some (Returned r) ->
  In d (Results.responses r) ->
  well_shaped d /\
  (ResponseData.status d = ResponseData.NA ->
   ResponseData.success d = false).
Proof.
  intros H Hd.
  destruct (loadTest_returned _ _ _ _ _ H) as (st & Hrun & _ & _ & ->).
  pose proof (run_invariant _ _ _ _ Hrun) as I. simpl in Hd.
  destruct (inv_outcomes _ _ _ _ I d Hd) as (i & s & o & now & _ & _ & ->).
  unfold well_shaped. destruct o as [resp|e]; simpl.
  - split; [left; eauto | discriminate].
  - split; [right; eauto | reflexivity].
Qed.

Lemma outcomes_well_shaped_witness :
  well_shaped
    (ResponseData.mk 2 10001 ResponseData.NA false F64.zero
       (Some "timeout of 10000ms exceeded")) /\
  (ResponseData.NA = ResponseData.NA -> false = false).
Proof.
  apply (outcomes_well_shaped "https://example.com" 3 (F64.of_Z 3)
           sample_env sample_result
           (ResponseData.mk 2 10001 ResponseData.NA false F64.zero
              (Some "timeout of 10000ms exceeded"))).
  - vm_compute. reflexivity.
  - simpl. left. reflexivity.
Defined.

(** ** Start times *)

Lemma every_unit_admitted n t tr st i :
  invariant n t tr st ->
  queued (throttleRequests st) = [] -> inflight st = [] ->
  0 <= i < n -> exists s, In (Admit i s) tr.
Proof.
  intros I Q F Hi.
  pose proof (completed_numbers _ _ _ _ I Q F) as P.
  assert (Hin : In (i + 1) (map (fun i => i + 1) (seqZ 0 n)))
    by (apply in_numbers; lia).
  rewrite <- P in Hin. apply in_map_iff in Hin as (d & Hd & Hin).
  destruct (inv_outcomes _ _ _ _ I d Hin) as (j & s & o & now & Ha & _ & ->).
  rewrite settle_requestNumber in Hd. simpl in Hd.
  assert (j = i) as -> by lia. eauto.
Qed.

(** X5. After a completed run of at least one request,
    [firstQueryStartTime] is the time at which the unit of index 0 started
    and [lastQueryStartTime] the time at which the unit of index
    [totalRequests - 1] started, whatever the order in which the limiter
    admitted the units and the calls settled; each of the two units
    started exactly once. *)
Theorem start_times_by_index url n t env r :
  1 <= n ->
  loadTest url n t env = Some (Returned r) ->
  exists s1 sn,
    Results.firstQueryStartTime r = Some s1 /\
    Results.lastQueryStartTime r = Some sn /\
    (forall s, In (Admit 0 s) (trace env) <-> s = s1) /\
    (forall s, In (Admit (n - 1) s) (trace env) <-> s = sn).
Proof.
  intros Hn H.
  destruct (loadTest_returned _ _ _ _ _ H) as (st & Hrun & Q & F & ->).
  pose proof (run_invariant _ _ _ _ Hrun) as I.
  destruct (every_unit_admitted _ _ _ _ 0 I Q F) as (s1 & H1); [lia|].
  destruct (every_unit_admitted _ _ _ _ (n - 1) I Q F) as (sn & H2); [lia|].
  exists s1, sn. simpl.
  pose proof (inv_first _ _ _ _ I) as If.
  pose proof (inv_last _ _ _ _ I) as Il.
  repeat split; auto.
  - intros Hs. pose proof (If _ Hs). pose proof (If _ H1). congruence.
  - intros ->. exact H1.
  - intros Hs. pose proof (Il _ Hs). pose proof (Il _ H2). congruence.
  - intros ->. exact H2.
Qed.

Lemma start_times_by_index_witness :
  exists s1 sn,
    Results.firstQueryStartTime sample_result = Some s1 /\
    Results.lastQueryStartTime sample_result = Some sn /\
    (forall s, In (Admit 0 s) (trace sample_env) <-> s = s1) /\
    (forall s, In (Admit (3 - 1) s) (trace sample_env) <-> s = sn).
Proof.
  apply (start_times_by_index "https://example.com" 3 (F64.of_Z 3));
    [lia | vm_compute; reflexivity].
Defined.

(** ** Sizes that are not numbers *)

Lemma add_nan_l x : F64.add F64.nan x = F64.nan.
Proof. destruct x; reflexivity. Qed.

Lemma add_nan_r x : F64.add x F64.nan = F64.nan.
Proof. destruct x; reflexivity. Qed.

Lemma fold_sizeBytes_nan l :
  fold_left (fun sum o => F64.add sum (ResponseData.sizeBytes o)) l F64.nan
  = F64.nan.
Proof.
  induction l as [|x l IH]; cbn [fold_left]; [reflexivity|].
  rewrite add_nan_l. exact IH.
Qed.

Lemma sum_sizeBytes_nan l d :
  In d l -> ResponseData.sizeBytes d = F64.nan -> sum_sizeBytes l = F64.nan.
Proof.
  intros Hin Hd. apply in_split in Hin as (l1 & l2 & ->).
  unfold sum_sizeBytes. rewrite fold_left_app. cbn [fold_left].
  rewrite Hd, add_nan_r. apply fold_sizeBytes_nan.
Qed.

(** X6. [NaN] is contagious: when the size of one outcome is [NaN], as it
    is for a response whose content-length header does not start with a
    number, the [totalResponseSizeBytes] of the whole run is [NaN], and the
    summary prints the total size in MB as [NaN]. *)
Theorem totalResponseSizeBytes_nan url n t env r d :
  loadTest url n t env = Some (Returned r) ->
  In d (Results.responses r) ->
  ResponseData.sizeBytes d = F64.nan ->
  Results.totalResponseSizeBytes r = F64.nan /\
  totalResponseSizeMB (summarize r) = TNaN.
Proof.
  intros H Hd Hs.
  assert (E : Results.totalResponseSizeBytes r = F64.nan).
  { destruct (loadTest_returned _ _ _ _ _ H) as (st & Hrun & _ & _ & ->).
    pose proof (run_invariant _ _ _ _ Hrun) as I. simpl in *.
    rewrite (inv_size _ _ _ _ I). eapply sum_sizeBytes_nan; eassumption. }
  split; [exact E|].
  unfold summarize. cbn [totalResponseSizeMB]. rewrite E. reflexivity.
Qed.

Lemma totalResponseSizeBytes_nan_witness :
  Results.totalResponseSizeBytes garbled_result = F64.nan /\
  totalResponseSizeMB (summarize garbled_result) = TNaN.
Proof.
  apply (totalResponseSizeBytes_nan "https://example.com" 2 (F64.of_Z 1)
           garbled_env garbled_result
           (ResponseData.mk 2 6 (ResponseData.Code 200) true F64.nan None)).
  - vm_compute. reflexivity.
  - simpl. right. left. reflexivity.
  - reflexivity.
Defined.

(** ** Nothing to send *)

(** X7. With [totalRequests <= 0] nothing can happen: no unit is ever
    admitted and no call settles, so the only complete execution is the
    empty one, and it returns a result without outcomes and without start
    times. *)
Theorem loadTest_nothing_to_send url n t env r :
  n <= 0 ->
  loadTest url n t env = Some (Returned r) ->
  trace env = [] /\
  r = Results.mk n t 0 0 [] (endTime env - startTime env) None None F64.zero.
Proof.
  intros Hn H.
  destruct (loadTest_returned _ _ _ _ _ H) as (st & Hrun & _ & _ & ->).
  unfold initial in Hrun. rewrite seqZ_nil in Hrun by lia.
  destruct (trace env) as [|[i now|i o now] tr]; simpl in Hrun;
    [|discriminate..].
  injection Hrun as <-. split; reflexivity.
Qed.

Lemma loadTest_nothing_to_send_witness :
  trace (mkEnvironment 3 [] 4) = [] /\
  Results.mk 0 (F64.of_Z 1) 0 0 [] 1 None None F64.zero
  = Results.mk 0 (F64.of_Z 1) 0 0 [] (4 - 3) None None F64.zero.
Proof.
  apply (loadTest_nothing_to_send "https://example.com" 0 (F64.of_Z 1)
           (mkEnvironment 3 [] 4)
           (Results.mk 0 (F64.of_Z 1) 0 0 [] 1 None None F64.zero));
    [lia | vm_compute; reflexivity].
Defined.

(** ** Elapsed times *)

Lemma run_elapsed n t tr st :
  run n (initial n t) tr = Some st ->
  StronglySorted Z.le (map event_time tr) ->
  forall d, In d (Results.responses (results st)) -> 0 <= ResponseData.timeMs d.
Proof.
  revert st. induction tr as [|e tr IH] using rev_ind; intros st H S d Hd.
  - injection H as <-. contradiction.
  - rewrite run_snoc in H.
    destruct (run n (initial n t) tr) as [st0|] eqn:E; [|discriminate].
    rewrite map_app in S. simpl in S.
    pose proof (StronglySorted_app_1_l _ _ _ S) as S0.
    specialize (IH st0 eq_refl S0).
    pose proof (run_invariant _ _ _ _ E) as I.
    destruct e as [i now|i o now].
    + destruct (step_admit_inv _ _ _ _ _ H) as (_ & _ & _ & _ & _ & _ & Hr).
      pose proof (begin_request_results n i now (results st0)) as Q.
      cbv zeta in Q. rewrite <- Hr in Q.
      destruct Q as (_ & _ & _ & _ & Q5 & _).
      rewrite Q5 in Hd. auto.
    + destruct (step_settle_inv _ _ _ _ _ _ H)
        as (task & l1 & l2 & Hl & Hi & _ & _ & Hr).
      pose proof (finish_request_results task o now (results st0)) as Q.
      cbv zeta in Q. rewrite <- Hr in Q.
      destruct Q as (_ & _ & _ & _ & Q5 & _).
      rewrite Q5 in Hd. apply in_app_iff in Hd as [Hd|[<-|[]]]; [auto|].
      destruct (inv_tasks _ _ _ _ I task) as (s & Hs & Ht);
        [rewrite Hl; apply in_app_iff; simpl; auto|].
      rewrite Ht, settle_timeMs.
      assert (s <= now); [|lia].
      eapply (StronglySorted_app_1_elem_of _ _ _ _ _ S).
      * apply list_elem_of_In, in_map_iff.
        exists (Admit (index task) s). split; [reflexivity | exact Hs].
      * simpl. apply list_elem_of_In. simpl. auto.
Qed.

(** X8. When the clock does not go back during a run, no elapsed time is
    negative and no request takes longer than the whole run: every
    outcome has [0 <= timeMs <= totalTimeTakenMs]. *)
Theorem elapsed_times_bounded url n t env r :
  Sorted Z.le (clock_readings env) ->
  loadTest url n t env = Some (Returned r) ->
  0 <= Results.totalTimeTakenMs r /\
  forall d, In d (Results.responses r) ->
    0 <= ResponseData.timeMs d <= Results.totalTimeTakenMs r.
Proof.
  intros S H.
  destruct (loadTest_returned _ _ _ _ _ H) as (st & Hrun & _ & _ & ->).
  pose proof (run_invariant _ _ _ _ Hrun) as I.
  apply Sorted_StronglySorted in S; [|exact _].
  unfold clock_readings in S.
  apply StronglySorted_cons in S as [S1 S].
  pose proof (StronglySorted_app_1_l _ _ _ S) as S2.
  rewrite Forall_forall in S1. simpl.
  assert (Hse : startTime env <= endTime env).
  { apply S1. apply elem_of_app. right. apply list_elem_of_In. simpl. auto. }
  split; [lia|]. intros d Hd.
  pose proof (run_elapsed _ _ _ _ Hrun S2 d Hd) as H0.
  destruct (inv_outcomes _ _ _ _ I d Hd) as (i & s & o & now & Ha & Hs & ->).
  rewrite settle_timeMs in *.
  assert (startTime env <= s).
  { apply S1. apply elem_of_app. left. apply list_elem_of_In, in_map_iff.
    exists (Admit i s). auto. }
  assert (now <= endTime env).
  { eapply (StronglySorted_app_1_elem_of _ _ _ _ _ S).
    - apply list_elem_of_In, in_map_iff. exists (Settle i o now). auto.
    - apply list_elem_of_In. simpl. auto. }
  lia.
Qed.

Lemma elapsed_times_bounded_witness :
  0 <= Results.totalTimeTakenMs ordered_result /\
  forall d, In d (Results.responses ordered_result) ->
    0 <= ResponseData.timeMs d <= Results.totalTimeTakenMs ordered_result.
Proof.
  apply (elapsed_times_bounded "https://example.com" 2 (F64.of_Z 1) ordered_env).
  - unfold clock_readings. simpl.
    repeat (apply Sorted_cons || apply Sorted_nil || apply HdRel_cons
            || apply HdRel_nil); lia.
  - vm_compute. reflexivity.
Defined.

(** ** What [validateInputs] lets through *)

Lemma leb_zero_finite s m e :
  F64.leb (S754_finite s m e) F64.zero = s.
Proof. destruct s; reflexivity. Qed.

Lemma accepted_number x :
  F64.isFinite x = true -> F64.leb x F64.zero = false -> positive_finite x.
Proof.
  destruct x as [s|s| |s m e]; intros F L;
    try (vm_compute in F; discriminate).
  rewrite leb_zero_finite in L. subst s. exists m, e. reflexivity.
Qed.

Lemma accepted_integer x :
  F64.isInteger x = true -> F64.leb x F64.zero = false ->
  positive_integer x (F64.to_Z x).
Proof.
  destruct x as [s|s| |s m e]; intros Hi L;
    try (vm_compute in Hi; discriminate).
  rewrite leb_zero_finite in L. subst s. exists m, e.
  split; [reflexivity|]. unfold F64.isInteger in Hi. unfold F64.to_Z.
  destruct (Z.leb_spec 0 e) as [He|He].
  - rewrite Z.shiftl_mul_pow2 by lia.
    assert (0 < 2 ^ e) by (apply Z.pow_pos_nonneg; lia).
    split; [nia | reflexivity].
  - apply Z.eqb_eq in Hi.
    rewrite Z.shiftl_mul_pow2, Z.shiftr_div_pow2 in Hi by lia.
    rewrite Z.shiftr_div_pow2 by lia.
    assert (0 < 2 ^ (- e)) by (apply Z.pow_pos_nonneg; lia).
    split; [|exact Hi].
    assert (0 <= Zpos m / 2 ^ (- e)) by (apply Z.div_pos; lia).
    nia.
Qed.

Lemma validateInputs_accepts url N T :
  validateInputs url N T = Returned tt <->
  url_matches url = true /\
  (F64.isInteger N = true /\ F64.leb N F64.zero = false) /\
  (F64.isFinite T = true /\ F64.leb T F64.zero = false).
Proof.
  unfold validateInputs.
  destruct (url_matches url), (F64.isInteger N), (F64.leb N F64.zero),
    (F64.isFinite T), (F64.leb T F64.zero); simpl;
    intuition discriminate.
Qed.

Lemma positive_integer_accepted x z :
  positive_integer x z ->
  F64.isInteger x = true /\ F64.leb x F64.zero = false /\ F64.to_Z x = z.
Proof.
  intros (m & e & -> & Hz & H). unfold F64.isInteger, F64.to_Z.
  rewrite leb_zero_finite.
  destruct (Z.leb_spec 0 e) as [He|He].
  - rewrite Z.shiftl_mul_pow2 by lia. auto.
  - rewrite Z.shiftl_mul_pow2, Z.shiftr_div_pow2 by lia.
    assert (0 < 2 ^ (- e)) by (apply Z.pow_pos_nonneg; lia).
    rewrite H, Z.div_mul by lia. rewrite Z.eqb_refl. auto.
Qed.

(** X9. [validateInputs] returns normally exactly when the URL has the
    required start, [totalRequests] is a positive finite double without
    fractional bits, and [timeWindowSeconds] is a positive finite double:
    [NaN], the infinities, zero, negative numbers and, for the count,
    fractions are all refused.  The count that reaches [loadTest] is then
    an integer of at least 1. *)
Theorem validateInputs_accepts_exactly url N T :
  validateInputs url N T = Returned tt <->
  url_matches url = true /\
  positive_integer N (F64.to_Z N) /\
  positive_finite T.
Proof.
  rewrite validateInputs_accepts. split.
  - intros (U & (I1 & I2) & (F1 & F2)).
    split; [exact U|]. split.
    + apply accepted_integer; assumption.
    + apply accepted_number; assumption.
  - intros (U & HN & (m & e & ->)).
    destruct (positive_integer_accepted _ _ HN) as (I1 & I2 & _).
    split; [exact U|]. split; [auto|]. split; reflexivity.
Qed.

Lemma validateInputs_accepts_exactly_witness :
  validateInputs "https://example.com" (F64.of_Z 5) (F64.of_Z 2) = Returned tt.
Proof.
  apply (proj2 (validateInputs_accepts_exactly "https://example.com"
                  (F64.of_Z 5) (F64.of_Z 2))).
  split; [reflexivity|]. split.
  - exists 5629499534213120%positive, (-50). vm_compute.
    split; [reflexivity|]. split; [discriminate | reflexivity].
  - exists 4503599627370496%positive, (-51). reflexivity.
Defined.

(** ** The URL check *)

Lemma strip_prefix_spec p s r :
  strip_prefix p s = Some r <-> s = (p ++ r)%string.
Proof.
  revert s. induction p as [|a p IH]; intros s; simpl.
  - split; [intros [= ->]; reflexivity | intros ->; reflexivity].
  - destruct s as [|b s]; [split; discriminate|].
    destruct (Ascii.eqb_spec a b) as [->|Hne].
    + rewrite IH. split; [intros ->; reflexivity | intros [= ->]; reflexivity].
    + split; [discriminate | intros [= E _]; congruence].
Qed.

Lemma strip_byte_spec b c (s r : string) :
  0 <= b < 256 ->
  (if b =? byte_of c then Some s else None) = Some r <->
  c = ascii_of_nat (Z.to_nat b) /\ s = r.
Proof.
  intros Hb. unfold byte_of. destruct (Z.eqb_spec b (Z.of_nat (nat_of_ascii c))) as [E|E].
  - split.
    + intros [= ->]. split; [|reflexivity].
      rewrite E, Nat2Z.id, ascii_nat_embedding. reflexivity.
    + intros [_ ->]. reflexivity.
  - split; [discriminate|]. intros [-> _]. exfalso. apply E.
    rewrite nat_ascii_embedding by lia. lia.
Qed.

Lemma starts_with_line_terminator_spec s :
  starts_with_line_terminator s = true <-> line_terminator_first s.
Proof.
  unfold starts_with_line_terminator, line_terminator_first.
  cbn [strip_one_of strip_bytes].
  destruct s as [|a s].
  { split; [discriminate|]. intros (r & [H|[H|[H|H]]]); discriminate. }
  destruct (if 10 =? byte_of a then Some s else None) as [r1|] eqn:E1.
  { apply strip_byte_spec in E1 as [-> ->]; [|lia].
    split; [intros _; exists r1; auto | reflexivity]. }
  destruct (if 13 =? byte_of a then Some s else None) as [r2|] eqn:E2.
  { apply strip_byte_spec in E2 as [-> ->]; [|lia].
    split; [intros _; exists r2; auto | reflexivity]. }
  assert (N1 : a <> ascii_of_nat 10).
  { intros ->. vm_compute in E1. discriminate. }
  assert (N2 : a <> ascii_of_nat 13).
  { intros ->. vm_compute in E2. discriminate. }
  destruct (Z.eqb_spec 226 (byte_of a)) as [Ea|Ea].
  - assert (a = ascii_of_nat 226) as ->.
    { unfold byte_of in Ea.
      rewrite <- (ascii_nat_embedding a). f_equal. lia. }
    destruct s as [|b s].
    { split; [discriminate|]. intros (r & [H|[H|[H|H]]]); discriminate. }
    destruct (Z.eqb_spec 128 (byte_of b)) as [Eb|Eb].
    + assert (b = ascii_of_nat 128) as ->.
      { unfold byte_of in Eb.
        rewrite <- (ascii_nat_embedding b). f_equal. lia. }
      destruct s as [|c s].
      { split; [discriminate|]. intros (r & [H|[H|[H|H]]]); discriminate. }
      destruct (if 168 =? byte_of c then Some s else None) as [r3|] eqn:E3.
      { apply strip_byte_spec in E3 as [-> ->]; [|lia].
        split; [intros _; exists r3; auto | reflexivity]. }
      destruct (if 169 =? byte_of c then Some s else None) as [r4|] eqn:E4.
      { apply strip_byte_spec in E4 as [-> ->]; [|lia].
        split; [intros _; exists r4; auto 6 | reflexivity]. }
      split; [discriminate|].
      intros (r & [H|[H|[H|H]]]); try discriminate;
        injection H as -> ->.
      * vm_compute in E3. discriminate.
      * vm_compute in E4. discriminate.
    + split; [discriminate|].
      intros (r & [H|[H|[H|H]]]); try discriminate;
        injection H as -> ->; exfalso; apply Eb; reflexivity.
  - split; [discriminate|].
    intros (r & [H|[H|[H|H]]]); try congruence;
      injection H as -> ->; exfalso; apply Ea; reflexivity.
Qed.

(** X10. The URL check looks at the scheme and at one character: a URL is
    accepted exactly when it is ["http://"] or ["https://"] followed by at
    least one character, the first of which is not a line terminator.
    Nothing after that character is examined. *)
Theorem url_matches_exactly url :
  url_matches url = true <->
  exists c rest,
    (url = ("http://" ++ String c rest)%string \/
     url = ("https://" ++ String c rest)%string) /\
    ~ line_terminator_first (String c rest).
Proof.
  unfold url_matches. split.
  - destruct (strip_prefix "http://" url) as [r|] eqn:E1.
    + apply strip_prefix_spec in E1 as ->.
      destruct r as [|c rest]; [discriminate|]. intros H.
      exists c, rest. split; [auto|].
      rewrite <- starts_with_line_terminator_spec.
      destruct (starts_with_line_terminator (String c rest));
        [discriminate | discriminate].
    + destruct (strip_prefix "https://" url) as [r|] eqn:E2;
        [|discriminate].
      apply strip_prefix_spec in E2 as ->.
      destruct r as [|c rest]; [discriminate|]. intros H.
      exists c, rest. split; [auto|].
      rewrite <- starts_with_line_terminator_spec.
      destruct (starts_with_line_terminator (String c rest));
        [discriminate | discriminate].
  - intros (c & rest & [->| ->] & H);
      rewrite <- starts_with_line_terminator_spec in H.
    + replace (strip_prefix "http://" ("http://" ++ String c rest))
        with (Some (String c rest))
        by (symmetry; apply strip_prefix_spec; reflexivity).
      destruct (starts_with_line_terminator (String c rest));
        [exfalso; auto | reflexivity].
    + replace (strip_prefix "http://" ("https://" ++ String c rest))
        with (@None string) by reflexivity.
      replace (strip_prefix "https://" ("https://" ++ String c rest))
        with (Some (String c rest))
        by (symmetry; apply strip_prefix_spec; reflexivity).
      destruct (starts_with_line_terminator (String c rest));
        [exfalso; auto | reflexivity].
Qed.

Lemma url_matches_exactly_witness :
  url_matches "http://x and anything after" = true.
Proof.
  apply (proj2 (url_matches_exactly "http://x and anything after")).
  exists "x"%char, " and anything after". split; [left; reflexivity|].
  intros (r & [H|[H|[H|H]]]); discriminate.
Defined.

(** ** [runTest] as a whole *)

Lemma of_Z_positive_integer n :
  1 <= n <= 2 ^ 53 -> positive_integer (F64.of_Z n) n.
Proof.
  intros Hn. destruct (Z.eq_dec n (2 ^ 53)) as [->|Hne].
  - exists 4503599627370496%positive, 1. vm_compute.
    split; [reflexivity|]. split; [discriminate | reflexivity].
  - destruct n as [|p|p]; try lia.
    destruct (of_Z_small p) as (m & e & E & He & Hm & _); [lia|].
    exists m, e. split; [exact E|]. split; [lia|].
    destruct (Z.leb_spec 0 e).
    + assert (e = 0) as -> by lia. simpl in Hm. lia.
    + exact Hm.
Qed.

Lemma runTest_of_Z url n T env :
  url_matches url = true -> positive_finite T -> 1 <= n <= 2 ^ 53 ->
  runTest url (F64.of_Z n) T env
  = match loadTest url n T env with
    | Some (Returned r) => Some (Returned (r, summarize r))
    | Some (Thrown msg) => Some (Thrown msg)
    | None => None
    end.
Proof.
  intros U (m & e & ->) Hn.
  destruct (positive_integer_accepted _ _ (of_Z_positive_integer n Hn))
    as (I1 & I2 & I3).
  unfold runTest.
  replace (validateInputs url (F64.of_Z n) (S754_finite false m e))
    with (Returned tt).
  - rewrite I3. reflexivity.
  - symmetry. apply validateInputs_accepts. repeat split; auto.
Qed.

(** X11. When [runTest] reports a result, the inputs had passed
    [validateInputs], the result is the one [loadTest] returned for the
    integer count, with the summary computed from it, and it is complete:
    one outcome for each of the [totalRequests >= 1] requests, both
    inputs echoed, and both start times set, so that [formatTimestamp]
    is never handed [null]. *)
Theorem runTest_reports url N T env r smry :
  runTest url N T env = Some (Returned (r, smry)) ->
  validateInputs url N T = Returned tt /\
  loadTest url (F64.to_Z N) T env = Some (Returned r) /\
  smry = summarize r /\
  1 <= F64.to_Z N /\
  Z.of_nat (length (Results.responses r)) = F64.to_Z N /\
  Results.totalRequests r = F64.to_Z N /\
  Results.timeWindowSeconds r = T /\
  (exists s1, Results.firstQueryStartTime r = Some s1) /\
  (exists sn, Results.lastQueryStartTime r = Some sn).
Proof.
  unfold runTest. intros H.
  destruct (validateInputs url N T) as [[]|msg] eqn:V; [|discriminate].
  destruct (loadTest url (F64.to_Z N) T env) as [[r0|msg]|] eqn:L;
    try discriminate.
  injection H as <- <-.
  apply validateInputs_accepts in V as V'.
  destruct V' as (_ & (I1 & I2) & _).
  destruct (accepted_integer _ I1 I2) as (m & e & _ & Hn & _).
  assert (H0 : 0 < F64.to_Z N) by lia.
  destruct (completed_counts _ _ _ _ _ H0 L) as (Len & Tot & _).
  destruct (loadTest_returned _ _ _ _ _ L) as (st & Hrun & Q & F & Hr).
  pose proof (run_invariant _ _ _ _ Hrun) as I.
  destruct (every_unit_admitted _ _ _ _ 0 I Q F) as (s1 & H1); [lia|].
  destruct (every_unit_admitted _ _ _ _ (F64.to_Z N - 1) I Q F)
    as (sn & H2); [lia|].
  repeat split; auto.
  - rewrite Hr. simpl. apply (inv_timeWindowSeconds _ _ _ _ I).
  - exists s1. rewrite Hr. simpl. apply (inv_first _ _ _ _ I). exact H1.
  - exists sn. rewrite Hr. simpl. apply (inv_last _ _ _ _ I). exact H2.
Qed.

Lemma runTest_reports_witness :
  validateInputs "https://example.com" (F64.of_Z 3) (F64.of_Z 3)
    = Returned tt /\
  loadTest "https://example.com" (F64.to_Z (F64.of_Z 3)) (F64.of_Z 3)
    sample_env = Some (Returned sample_result) /\
  summarize sample_result = summarize sample_result /\
  1 <= F64.to_Z (F64.of_Z 3) /\
  Z.of_nat (length (Results.responses sample_result))
    = F64.to_Z (F64.of_Z 3) /\
  Results.totalRequests sample_result = F64.to_Z (F64.of_Z 3) /\
  Results.timeWindowSeconds sample_result = F64.of_Z 3 /\
  (exists s1, Results.firstQueryStartTime sample_result = Some s1) /\
  (exists sn, Results.lastQueryStartTime sample_result = Some sn).
Proof.
  apply (runTest_reports "https://example.com" (F64.of_Z 3) (F64.of_Z 3)
           sample_env sample_result (summarize sample_result)).
  vm_compute. reflexivity.
Defined.

(** X12. [validateInputs] sets no upper bound on the request count: a
    count above 2^32 - 1 passes validation, and the test then fails with
    the error of [Array.from], whatever the environment would have done:
    no request is sent and no result reported. *)
Theorem runTest_array_limit url n T env :
  url_matches url = true ->
  positive_finite T ->
  max_array_length < n <= 2 ^ 53 ->
  validateInputs url (F64.of_Z n) T = Returned tt /\
  runTest url (F64.of_Z n) T env = Some (Thrown "Invalid array length").
Proof.
  intros U HT Hn. unfold max_array_length in Hn.
  assert (Hn' : 1 <= n <= 2 ^ 53) by lia.
  split.
  - destruct HT as (m & e & ->).
    destruct (positive_integer_accepted _ _ (of_Z_positive_integer n Hn'))
      as (I1 & I2 & _).
    apply validateInputs_accepts. repeat split; auto.
  - rewrite (runTest_of_Z url n T env U HT Hn'). unfold loadTest.
    replace (max_array_length <? n) with true
      by (symmetry; apply Z.ltb_lt; unfold max_array_length; lia).
    reflexivity.
Qed.

Lemma runTest_array_limit_witness :
  validateInputs "https://example.com" (F64.of_Z 4294967296) (F64.of_Z 60)
    = Returned tt /\
  runTest "https://example.com" (F64.of_Z 4294967296) (F64.of_Z 60)
    sample_env = Some (Thrown "Invalid array length").
Proof.
  apply (runTest_array_limit "https://example.com" 4294967296 (F64.of_Z 60)
           sample_env).
  - reflexivity.
  - exists 8444249301319680%positive, (-47). reflexivity.
  - unfold max_array_length. lia.
Defined.

(** ** The error rate and the average at the extremes *)

Lemma div_self s m e :
  F64.div (S754_finite s m e) (S754_finite s m e)
  = S754_finite false 4503599627370496 (-52).
Proof.
  unfold F64.div, SFdiv, SFdiv_core_binary.
  replace (Zdigits2 (Zpos m) + e - (Zdigits2 (Zpos m) + e)) with 0 by lia.
  replace (e - e) with 0 by lia.
  change (Z.min (fexp F64.prec F64.emax 0) 0) with (-53).
  change (0 - -53) with 53.
  destruct (Z.div_eucl (Z.shiftl (Zpos m) 53) (Zpos m)) as [q r] eqn:E.
  assert (Hq : q = Z.shiftl (Zpos m) 53 / Zpos m)
    by (unfold Z.div; rewrite E; reflexivity).
  assert (Hr : r = Z.shiftl (Zpos m) 53 mod Zpos m)
    by (unfold Z.modulo; rewrite E; reflexivity).
  rewrite Z.shiftl_mul_pow2 in Hq, Hr by lia.
  rewrite Z.mul_comm, Z.div_mul in Hq by lia.
  rewrite Z.mul_comm, Z.mod_mul in Hr by lia.
  subst q r.
  replace (new_location (Zpos m) 0) with loc_Exact
    by (unfold new_location, new_location_even, new_location_odd;
        destruct (Z.even (Zpos m)); reflexivity).
  rewrite xorb_nilpotent. vm_compute. reflexivity.
Qed.

Lemma of_Z_finite p :
  Zpos p < 2 ^ 53 -> exists m e, F64.of_Z (Zpos p) = S754_finite false m e.
Proof.
  intros H. destruct (of_Z_small p H) as (m & e & E & _). eauto.
Qed.

(** X13. The error rate of a completed run of at least one request is
    the text [0.00] when no request failed and the text [100.00] when
    none succeeded: the quotient of the two counts is then exactly 0 or
    exactly 1. *)
Theorem errorRate_extremes url n t env r :
  1 <= n ->
  loadTest url n t env = Some (Returned r) ->
  (Results.failedRequests r = 0 ->
   errorRate (summarize r) = TFixed false 0) /\
  (Results.successfulRequests r = 0 ->
   errorRate (summarize r) = TFixed false 10000).
Proof.
  intros Hn L.
  assert (H0 : 0 < n) by lia.
  destruct (completed_counts _ _ _ _ _ H0 L) as (Len & Tot & Hs & Hf & _).
  assert (Hmax : n <= max_array_length).
  { unfold loadTest in L.
    destruct (Z.ltb_spec max_array_length n); [discriminate | lia]. }
  unfold max_array_length in Hmax.
  destruct n as [|p|p]; try lia.
  destruct (of_Z_finite p) as (m & e & E); [lia|].
  unfold summarize. cbn [errorRate]. rewrite Tot, E. split.
  - intros ->. reflexivity.
  - intros Z0.
    pose proof (count_outcomes_partition (Results.responses r)) as P.
    rewrite <- Hs, <- Hf, Z0, Len in P.
    replace (Results.failedRequests r) with (Zpos p) by lia.
    rewrite E, div_self. vm_compute. reflexivity.
Qed.

Lemma errorRate_extremes_witness :
  (Results.failedRequests silent_result = 0 ->
   errorRate (summarize silent_result) = TFixed false 0) /\
  (Results.successfulRequests silent_result = 0 ->
   errorRate (summarize silent_result) = TFixed false 10000).
Proof.
  apply (errorRate_extremes "http://localhost" 1 (F64.of_Z 1) silent_env
           silent_result).
  - lia.
  - vm_compute. reflexivity.
Defined.

(** ** The estimate for a text body *)

Lemma length_append (s1 s2 : string) :
  String.length (s1 +:+ s2) = (String.length s1 + String.length s2)%nat.
Proof. induction s1 as [|c s1 IH]; simpl; [reflexivity | rewrite IH; reflexivity]. Qed.

Lemma quote_char_length c :
  (1 <= String.length (quote_char c) <= 6)%nat.
Proof.
  unfold quote_char.
  repeat match goal with
         | |- context [if ?b then _ else _] => destruct b
         end; simpl; lia.
Qed.

Lemma quote_chars_length s :
  (String.length s <= String.length (quote_chars s) <= 6 * String.length s)%nat.
Proof.
  induction s as [|c s IH]; simpl; [lia|].
  rewrite length_append. pose proof (quote_char_length c). lia.
Qed.

Lemma quote_length s :
  String.length (quote s) = (String.length (quote_chars s) + 2)%nat.
Proof. unfold quote. rewrite !length_append. simpl. lia. Qed.

(** X14. Without a usable content-length header, a body that is a
    non-empty text is measured with the quotes and escapes of its JSON
    form: the size is the double of an integer between the byte length of
    the text plus 2 and six times that length plus 2, never the length of
    the text itself. *)
Theorem getResponseSize_text_body r s :
  usable_header r = None ->
  Axios.data r = Some (VString s) ->
  s <> EmptyString ->
  exists k,
    getResponseSize (Some r) = F64.of_Z k /\
    Buffer_byteLength s + 2 <= k <= 6 * Buffer_byteLength s + 2.
Proof.
  intros H D Ns.
  exists (Buffer_byteLength (JSON_stringify (VString s))). split.
  - unfold getResponseSize. unfold usable_header in H. rewrite D.
    assert (T : truthy (VString s) = true).
    { simpl. destruct (String.eqb_spec s EmptyString); [contradiction|reflexivity]. }
    rewrite T. destruct (content_length r) as [[|c h]|]; try reflexivity.
    discriminate.
  - unfold Buffer_byteLength. cbn [JSON_stringify]. rewrite quote_length.
    pose proof (quote_chars_length s). lia.
Qed.

Lemma getResponseSize_text_body_witness :
  exists k,
    getResponseSize
      (Some (Axios.mkResponse 200 None (Some (VString "ok")))) = F64.of_Z k /\
    Buffer_byteLength "ok" + 2 <= k <= 6 * Buffer_byteLength "ok" + 2.
Proof.
  apply (getResponseSize_text_body
           (Axios.mkResponse 200 None (Some (VString "ok"))) "ok").
  - reflexivity.
  - reflexivity.
  - discriminate.
Defined.

(** ** A content-length header that is a decimal numeral *)

Lemma digit_of_pretty_N_char d :
  (d < 10)%N -> digit_of (pretty_N_char d) = Some (Z.of_N d).
Proof.
  intros H. destruct d as [|p]; [reflexivity|].
  do 4 (try destruct p as [p|p|]; try reflexivity; try lia).
Qed.

Lemma leading_digits_pretty_N_go x :
  (0 < x)%N ->
  exists k, 0 <= k /\ forall acc s,
    leading_digits acc (pretty_N_go x s)
    = leading_digits (Some (default 0 acc * 10 ^ k + Z.of_N x)) s.
Proof.
  induction (N.lt_wf_0 x) as [x _ IH]. intros Hx.
  assert (Hd : (x `mod` 10 < 10)%N) by (apply N.mod_lt; lia).
  pose proof (N.div_mod x 10 ltac:(lia)) as Hdm.
  destruct (N.eq_dec (x `div` 10)%N 0%N) as [E|E].
  - exists 1. split; [lia|]. intros acc s.
    rewrite pretty_N_go_step, E, pretty_N_go_0 by exact Hx.
    cbn [leading_digits]. rewrite digit_of_pretty_N_char by exact Hd.
    do 2 f_equal. lia.
  - destruct (IH (x `div` 10)%N) as (k & Hk & IHk);
      [apply N.div_lt; lia | lia |].
    exists (k + 1). split; [lia|]. intros acc s.
    rewrite pretty_N_go_step, IHk by exact Hx.
    cbn [leading_digits]. rewrite digit_of_pretty_N_char by exact Hd.
    do 2 f_equal. cbn [default].
    pose proof (f_equal Z.of_N Hdm) as HZ.
    rewrite N2Z.inj_add, N2Z.inj_mul in HZ.
    rewrite Z.pow_add_r, HZ by lia. change (Z.of_N 10) with 10.
    unfold id. ring.
Qed.

Lemma pretty_N_go_digit_first x s :
  (0 < x)%N ->
  exists d r, (d < 10)%N /\ pretty_N_go x s = String (pretty_N_char d) r.
Proof.
  revert s. induction (N.lt_wf_0 x) as [x _ IH]. intros s Hx.
  rewrite pretty_N_go_step by exact Hx.
  destruct (N.eq_dec (x `div` 10)%N 0%N) as [E|E].
  - rewrite E, pretty_N_go_0. exists (x `mod` 10)%N, s.
    split; [apply N.mod_lt; lia | reflexivity].
  - apply IH; [apply N.div_lt; lia | apply N.neq_0_lt_0; exact E].
Qed.

Lemma trim_start_digit_first d r :
  (d < 10)%N ->
  trim_start (String (pretty_N_char d) r) = String (pretty_N_char d) r.
Proof.
  intros H. destruct d as [|p]; [reflexivity|].
  do 4 (try destruct p as [p|p|]; try reflexivity; try lia).
Qed.

Lemma parseInt_digit_first d r :
  (d < 10)%N ->
  parseInt (String (pretty_N_char d) r)
  = match leading_digits None (String (pretty_N_char d) r) with
    | None => F64.nan
    | Some n => F64.of_Z n
    end.
Proof.
  intros H. unfold parseInt. rewrite trim_start_digit_first by exact H.
  destruct d as [|p]; [reflexivity|].
  do 4 (try destruct p as [p|p|]; try reflexivity; try lia).
Qed.

Lemma parseInt_pretty_positive p :
  parseInt (pretty_N_go (Npos p) EmptyString) = F64.of_Z (Zpos p) /\
  parseInt (String "-" (pretty_N_go (Npos p) EmptyString))
    = F64.of_Z (Zneg p).
Proof.
  destruct (leading_digits_pretty_N_go (Npos p)) as (k & _ & Hk); [lia|].
  destruct (pretty_N_go_digit_first (Npos p) EmptyString) as (d & r & Hd & E);
    [lia|].
  split.
  - rewrite E, parseInt_digit_first, <- E, Hk by exact Hd. reflexivity.
  - unfold parseInt.
    change (trim_start (String "-" (pretty_N_go (Npos p) EmptyString)))
      with (String "-" (pretty_N_go (Npos p) EmptyString)).
    cbv iota beta. rewrite Hk. reflexivity.
Qed.

Lemma parseInt_pretty (z : Z) : parseInt (pretty z) = F64.of_Z z.
Proof.
  destruct z as [|p|p]; [reflexivity|apply parseInt_pretty_positive|].
  apply (parseInt_pretty_positive p).
Qed.

Lemma pretty_nonempty (z : Z) : exists c s, pretty z = String c s.
Proof.
  destruct z as [|p|p]; [eexists _, _; reflexivity| |eexists _, _; reflexivity].
  destruct (pretty_N_go_digit_first (Npos p) EmptyString) as (d & r & _ & E);
    [lia|].
  exists (pretty_N_char d), r. exact E.
Qed.

(** X15. The decimal numeral of an integer in the content-length header
    reads back as that integer: the size of the response is the double
    nearest to it, whatever the body holds, and a negative length is
    taken as it stands. *)
Theorem getResponseSize_decimal_header r h (z : Z) :
  Axios.headers r = Some h ->
  h !! "content-length" = Some (pretty z) ->
  getResponseSize (Some r) = F64.of_Z z.
Proof.
  intros Hh Hc. unfold getResponseSize, content_length. rewrite Hh, Hc.
  destruct (pretty_nonempty z) as (c & s & E). rewrite E, <- E.
  apply parseInt_pretty.
Qed.

Lemma getResponseSize_decimal_header_witness :
  getResponseSize
    (Some (Axios.mkResponse 200 (Some {[ "content-length" := "1256" ]})
             (Some (VString "ignored"))))
  = F64.of_Z 1256.
Proof.
  apply (getResponseSize_decimal_header
           (Axios.mkResponse 200 (Some {[ "content-length" := "1256" ]})
              (Some (VString "ignored")))
           {[ "content-length" := "1256" ]} 1256).
  - reflexivity.
  - vm_compute. reflexivity.
Defined.

(** ** The current program against the earlier one *)

Lemma earlier_take_task i l :
  Earlier.take_task i (map earlier_task l)
  = option_map (fun p => (earlier_task (fst p), map earlier_task (snd p)))
      (take_task i l).
Proof.
  induction l as [|t l IH]; [reflexivity|].
  cbn [map Earlier.take_task take_task].
  change (Earlier.index (earlier_task t)) with (index t).
  destruct (i =? index t); [reflexivity|].
  rewrite IH. destruct (take_task i l) as [[t' r]|]; reflexivity.
Qed.

Lemma earlier_settle task outcome now :
  Earlier.settle (earlier_task task) outcome now
  = without_size (settle task outcome now).
Proof. destruct outcome; reflexivity. Qed.

Lemma earlier_finish_request task outcome now r :
  Earlier.finish_request (earlier_task task) outcome now (without_sizes r)
  = without_sizes (finish_request task outcome now r).
Proof.
  unfold Earlier.finish_request, finish_request.
  rewrite earlier_settle.
  destruct outcome; unfold without_sizes; cbn;
    rewrite map_app; reflexivity.
Qed.

Lemma earlier_step n st e :
  Earlier.step (earlier_state st) e = option_map earlier_state (step n st e).
Proof.
  destruct e as [i now|i outcome now]; cbn [Earlier.step step].
  - cbn [earlier_state Earlier.throttleRequests Earlier.inflight
         Earlier.results].
    destruct (dequeue i (queued (throttleRequests st))) as [q|];
      [|reflexivity].
    unfold begin_request. cbn.
    destruct (i =? 0), (i =? n - 1); reflexivity.
  - cbn [earlier_state Earlier.throttleRequests Earlier.inflight
         Earlier.results].
    rewrite earlier_take_task.
    destruct (take_task i (inflight st)) as [[task rest]|]; [|reflexivity].
    cbn [option_map fst snd]. rewrite earlier_finish_request. reflexivity.
Qed.

Lemma earlier_run n tr st :
  Earlier.run (earlier_state st) tr = option_map earlier_state (run n st tr).
Proof.
  revert st. induction tr as [|e tr IH]; intros st; [reflexivity|].
  cbn [Earlier.run run]. rewrite (earlier_step n).
  destruct (step n st e) as [st'|]; [apply IH | reflexivity].
Qed.

(** X16. On the same events, the earlier program of
    [src/unnamed/part_000] and the current one complete together, and the
    earlier result is the current one without the sizes and the two start
    times: the bookkeeping added since changes neither the counters, nor
    the outcomes, nor their order, nor the elapsed times. *)
Theorem loadTest_extends_earlier url n t env :
  Earlier.loadTest url n t env
  = option_map (completion_map without_sizes) (loadTest url n t env).
Proof.
  unfold Earlier.loadTest, loadTest.
  destruct (max_array_length <? n); [reflexivity|].
  change (Earlier.initial n t) with (earlier_state (initial n t)).
  rewrite (earlier_run n).
  destruct (run n (initial n t) (trace env)) as [st|]; [|reflexivity].
  cbn [option_map].
  replace (Earlier.all_settled (earlier_state st)) with (all_settled st).
  - destruct (all_settled st); reflexivity.
  - unfold Earlier.all_settled, all_settled. cbn.
    destruct (queued (throttleRequests st)), (inflight st); reflexivity.
Qed.

(** ** The request count as typed *)

Lemma pretty_N_go_append x s r :
  pretty_N_go x (s +:+ r) = pretty_N_go x s +:+ r.
Proof.
  revert s. induction (N.lt_wf_0 x) as [x _ IH]. intros s.
  destruct (N.eq_dec x 0%N) as [->|E]; [rewrite !pretty_N_go_0; reflexivity|].
  rewrite !(pretty_N_go_step x) by lia.
  rewrite <- IH by (apply N.div_lt; lia). reflexivity.
Qed.

Lemma leading_digits_stop v rest :
  no_leading_digit rest -> leading_digits (Some v) rest = Some v.
Proof.
  destruct rest as [|c r]; [reflexivity|]. simpl. intros ->. reflexivity.
Qed.

Lemma parseInt_numeral_prefix p rest :
  no_leading_digit rest ->
  parseInt (pretty (Zpos p) +:+ rest) = F64.of_Z (Zpos p).
Proof.
  intros Hr.
  change (pretty (Zpos p)) with (pretty_N_go (Npos p) EmptyString).
  rewrite <- pretty_N_go_append. change (EmptyString +:+ rest) with rest.
  destruct (leading_digits_pretty_N_go (Npos p)) as (k & _ & Hk); [lia|].
  destruct (pretty_N_go_digit_first (Npos p) rest) as (d & r & Hd & E);
    [lia|].
  rewrite E, parseInt_digit_first, <- E, Hk by exact Hd.
  cbn [default]. rewrite leading_digits_stop by exact Hr. reflexivity.
Qed.

(** X17. The request count is read with [parseInt] before it is
    validated, so whatever follows the digits is dropped: the numeral of a
    count from 1 to 2^53, followed by any text that does not go on with a
    digit (a unit, a decimal part, blanks), is read as that count and
    passes [validateInputs]. *)
Theorem totalRequests_numeral_prefix url n rest T :
  url_matches url = true ->
  positive_finite T ->
  1 <= n <= 2 ^ 53 ->
  no_leading_digit rest ->
  parseInt (pretty n +:+ rest) = F64.of_Z n /\
  F64.to_Z (parseInt (pretty n +:+ rest)) = n /\
  validateInputs url (parseInt (pretty n +:+ rest)) T = Returned tt.
Proof.
  intros U HT Hn Hr. destruct n as [|p|p]; try lia.
  rewrite (parseInt_numeral_prefix p rest Hr).
  destruct (positive_integer_accepted _ _ (of_Z_positive_integer _ Hn))
    as (I1 & I2 & I3).
  destruct HT as (m & e & ->).
  split; [reflexivity|]. split; [exact I3|].
  apply validateInputs_accepts. repeat split; auto.
Qed.

Lemma totalRequests_numeral_prefix_witness :
  parseInt (pretty 25 +:+ ".9 requests") = F64.of_Z 25 /\
  F64.to_Z (parseInt (pretty 25 +:+ ".9 requests")) = 25 /\
  validateInputs "https://example.com"
    (parseInt (pretty 25 +:+ ".9 requests")) (F64.of_Z 60) = Returned tt.
Proof.
  apply (totalRequests_numeral_prefix "https://example.com" 25
           ".9 requests" (F64.of_Z 60)).
  - reflexivity.
  - exists 8444249301319680%positive, (-47). reflexivity.
  - lia.
  - reflexivity.
Defined.

(** ** The rate for validated inputs *)

Lemma shr_fexp_keeps_positive m e l :
  0 < m -> -1074 <= e ->
  0 < shr_m (fst (shr_fexp 53 1024 m e l)) /\
  e <= snd (shr_fexp 53 1024 m e l).
Proof.
  intros Hm He.
  destruct (Z.le_gt_cases (-1074) (Zdigits2 m + e - 53)) as [N|N].
  - destruct (shr_fexp_positive m e l Hm N) as (P1 & P2 & _). auto.
  - unfold shr_fexp. rewrite fexp_64. unfold fexp64, shr.
    rewrite Z.max_r by lia.
    destruct (-1074 - e) as [|k|k] eqn:Ek; try lia;
      cbn [fst snd]; rewrite shr_m_of_loc; lia.
Qed.

Lemma binary_round_aux_keeps_positive m e l :
  0 < m -> -1074 <= e ->
  positive_above e (binary_round_aux 53 1024 false m e l).
Proof.
  intros Hm He. unfold binary_round_aux.
  pose proof (shr_fexp_keeps_positive m e l Hm He) as (P1 & P2).
  destruct (shr_fexp 53 1024 m e l) as [mrs' e'] eqn:E1. cbn [fst snd] in *.
  pose proof (round_nearest_even_bounds (shr_m mrs') (loc_of_shr_record mrs'))
    as B.
  set (m1 := round_nearest_even (shr_m mrs') (loc_of_shr_record mrs')) in *.
  assert (Hm1 : 0 < m1) by lia.
  assert (He1 : -1074 <= e') by lia.
  pose proof (shr_fexp_keeps_positive m1 e' loc_Exact Hm1 He1) as (Q1 & Q2).
  destruct (shr_fexp 53 1024 m1 e' loc_Exact) as [mrs'' e''] eqn:E2.
  cbn [fst snd] in *.
  destruct (shr_m mrs'') as [|p|p]; try lia.
  destruct (e'' <=? 1024 - 53); simpl; lia.
Qed.

Lemma bounded_inv m e :
  bounded F64.prec F64.emax m e = true ->
  Zdigits2 (Zpos m) <= 53 /\ -1074 <= e <= 971 /\
  Zdigits2 (Zpos m) + e <= 1024.
Proof.
  unfold bounded, canonical_mantissa. intros H.
  apply andb_true_iff in H as (C & E).
  apply Z.eqb_eq in C. apply Z.leb_le in E.
  change (fexp F64.prec F64.emax) with (fexp 53 1024) in C.
  rewrite fexp_64 in C. unfold fexp64 in C.
  change (Zpos (digits2_pos m)) with (Zdigits2 (Zpos m)) in C.
  unfold F64.emax, F64.prec in E. lia.
Qed.

(** A count below 2^53 over a positive double is a positive double or
    +Infinity: the quotient can not round to zero. *)
Lemma div_count_positive mx ex my ey :
  Zdigits2 (Zpos mx) = 53 -> -52 <= ex <= 0 ->
  bounded F64.prec F64.emax my ey = true ->
  positive_above (-1074)
    (F64.div (S754_finite false mx ex) (S754_finite false my ey)).
Proof.
  intros Dx Hex By. destruct (bounded_inv my ey By) as (Dy & Hey & Sy).
  pose proof (Zdigits2_log2 (Zpos mx) eq_refl) as Lx.
  pose proof (Zdigits2_log2 (Zpos my) eq_refl) as Ly.
  pose proof (Z.log2_spec (Zpos mx) eq_refl) as [X1 _].
  pose proof (Z.log2_spec (Zpos my) eq_refl) as [_ Y2].
  pose proof (Z.log2_nonneg (Zpos my)) as Y0.
  unfold F64.div, SFdiv, SFdiv_core_binary.
  change (fexp F64.prec F64.emax) with (fexp 53 1024).
  rewrite fexp_64. unfold fexp64. cbn [xorb].
  set (d2 := Zdigits2 (Zpos my)) in *.
  rewrite Dx.
  set (e' := Z.min (Z.max (53 + ex - (d2 + ey) - 53) (-1074)) (ex - ey)).
  assert (He' : e' = Z.max (ex - ey - d2) (-1074)) by (unfold e'; lia).
  assert (Hs : 1 <= ex - ey - e') by lia.
  destruct (ex - ey - e') as [|s|s] eqn:Es; try lia.
  destruct (Z.div_eucl (Z.shiftl (Zpos mx) (Zpos s)) (Zpos my)) as [q r]
    eqn:Eq.
  assert (Hq : q = Z.shiftl (Zpos mx) (Zpos s) / Zpos my)
    by (unfold Z.div; rewrite Eq; reflexivity).
  assert (Hq0 : 0 < q).
  { rewrite Hq, Z.shiftl_mul_pow2 by lia.
    apply Z.div_str_pos. split; [lia|].
    assert (P52 : 2 ^ 52 <= Zpos mx).
    { replace 52 with (Z.log2 (Zpos mx)) by lia. exact X1. }
    assert (My : Zpos my < 2 ^ d2).
    { replace d2 with (Z.log2 (Zpos my) + 1) by lia. exact Y2. }
    assert (Pw : 2 ^ d2 <= 2 ^ 52 * 2 ^ Zpos s).
    { rewrite <- Z.pow_add_r by lia. apply Z.pow_le_mono_r; lia. }
    assert (0 < 2 ^ Zpos s) by (apply Z.pow_pos_nonneg; lia).
    nia. }
  apply (positive_above_weaken e'); [lia|].
  apply binary_round_aux_keeps_positive; lia.
Qed.

Lemma Math_ceil_positive m e :
  Zpos m < 2 ^ 53 ->
  F64.isInteger (F64.Math_ceil (S754_finite false m e)) = true /\
  1 <= F64.to_Z (F64.Math_ceil (S754_finite false m e)).
Proof.
  intros Hm. unfold F64.Math_ceil.
  destruct (Z.leb_spec 0 e) as [He|He].
  - unfold F64.isInteger, F64.to_Z.
    replace (0 <=? e) with true by (symmetry; apply Z.leb_le; lia).
    split; [reflexivity|]. rewrite Z.shiftl_mul_pow2 by lia.
    assert (0 < 2 ^ e) by (apply Z.pow_pos_nonneg; lia). nia.
  - rewrite Z.shiftr_div_pow2, Z.shiftl_mul_pow2 by lia.
    set (k := 2 ^ (- e)).
    assert (Hk : 0 < k) by (apply Z.pow_pos_nonneg; lia).
    pose proof (Z.div_mod (Zpos m) k ltac:(lia)) as DM.
    pose proof (Z.mod_pos_bound (Zpos m) k Hk) as MB.
    assert (Hq : 0 <= Zpos m / k) by (apply Z.div_pos; lia).
    assert (Hq' : Zpos m / k <= Zpos m).
    { apply Z.div_le_upper_bound; [lia|]. nia. }
    destruct (Z.eqb_spec (Zpos m) (Zpos m / k * k)) as [E|E].
    + assert (C : 1 <= Zpos m / k <= 2 ^ 53) by nia.
      destruct (positive_integer_accepted _ _
                  (of_Z_positive_integer _ C)) as (I1 & _ & I3).
      rewrite I3. split; [exact I1 | lia].
    + assert (C : 1 <= Zpos m / k + 1 <= 2 ^ 53) by lia.
      destruct (positive_integer_accepted _ _
                  (of_Z_positive_integer _ C)) as (I1 & _ & I3).
      rewrite I3. split; [exact I1 | lia].
Qed.

(** X18. For a count from 1 to 2^53 - 1 and a positive window, the rate
    handed to the limiter is a whole number of at least 1, or +Infinity
    when the quotient overflows: it is never zero, negative or [NaN]. *)
Theorem requestsPerSecond_at_least_one n T :
  1 <= n < 2 ^ 53 ->
  positive_double T ->
  requestsPerSecond n T = S754_infinity false \/
  (F64.isInteger (requestsPerSecond n T) = true /\
   1 <= F64.to_Z (requestsPerSecond n T)).
Proof.
  intros Hn (my & ey & -> & By). destruct n as [|p|p]; try lia.
  destruct (of_Z_small p) as (mx & ex & E & Hex & _ & Dx); [lia|].
  unfold requestsPerSecond. rewrite E.
  pose proof (div_count_positive mx ex my ey Dx Hex By) as P.
  pose proof (div_bounded (S754_finite false mx ex) (S754_finite false my ey))
    as B.
  destruct (F64.div _ _) as [| [] | | [] m e]; simpl in P; try contradiction.
  - left. reflexivity.
  - right. apply Math_ceil_positive. exact B.
Qed.

Lemma requestsPerSecond_at_least_one_witness :
  requestsPerSecond 10 (F64.of_Z 3) = S754_infinity false \/
  (F64.isInteger (requestsPerSecond 10 (F64.of_Z 3)) = true /\
   1 <= F64.to_Z (requestsPerSecond 10 (F64.of_Z 3))).
Proof.
  apply (requestsPerSecond_at_least_one 10 (F64.of_Z 3)).
  - lia.
  - exists 6755399441055744%positive, (-51). split; reflexivity.
Defined.

(** The overflow happens: one request in a window of the smallest
    positive double. *)
Example requestsPerSecond_overflow :
  requestsPerSecond 1 (S754_finite false 1 (-1074)) = S754_infinity false.
Proof. vm_compute. reflexivity. Qed.

(** ** [formatTimestamp] *)

Example formatTimestamp_examples :
  formatTimestamp (Some 0) = Returned "1970-01-01 00:00:00" /\
  formatTimestamp None = Returned "1970-01-01 00:00:00" /\
  formatTimestamp (Some 1709210096789) = Returned "2024-02-29 12:34:56" /\
  formatTimestamp (Some 1735689599999) = Returned "2024-12-31 23:59:59" /\
  formatTimestamp (Some 951782400000) = Returned "2000-02-29 00:00:00" /\
  formatTimestamp (Some (-1)) = Returned "1969-12-31 23:59:59" /\
  formatTimestamp (Some (-62167219200000)) = Returned "0000-01-01 00:00:00" /\
  formatTimestamp (Some (-62167219200001)) = Returned "-000001-12-31 23:59" /\
  formatTimestamp (Some 253402300799999) = Returned "9999-12-31 23:59:59" /\
  formatTimestamp (Some 253402300800000) = Returned "+010000-01-01 00:00" /\
  formatTimestamp (Some 8640000000000000) = Returned "+275760-09-13 00:00" /\
  formatTimestamp (Some (-8640000000000000)) = Returned "-271821-04-20 00:00" /\
  formatTimestamp (Some 8640000000000001) = Thrown "Invalid time value".
Proof. vm_compute. repeat split. Qed.

(** ** The calendar *)

Lemma DayFromYear_cycle c : DayFromYear (1970 + 400 * c) = 146097 * c.
Proof. unfold DayFromYear. Z.div_mod_to_equations. lia. Qed.

Lemma DayFromYear_next y : DayFromYear (y + 1) = DayFromYear y + DaysInYear y.
Proof.
  unfold DayFromYear, DaysInYear.
  destruct (Z.eqb_spec (y mod 4) 0), (Z.eqb_spec (y mod 100) 0),
    (Z.eqb_spec (y mod 400) 0); cbn [negb];
    Z.div_mod_to_equations; lia.
Qed.

Lemma DaysInYear_bounds y : 365 <= DaysInYear y <= 366.
Proof.
  unfold DaysInYear.
  destruct (y mod 4 =? 0), (y mod 100 =? 0), (y mod 400 =? 0); cbn; lia.
Qed.

Lemma DayFromYear_mono y y' : y <= y' -> DayFromYear y <= DayFromYear y'.
Proof.
  intros H. replace y' with (y + Z.of_nat (Z.to_nat (y' - y))) by lia.
  induction (Z.to_nat (y' - y)) as [|k IH]; [rewrite Z.add_0_r; lia|].
  replace (y + Z.of_nat (S k)) with (y + Z.of_nat k + 1) by lia.
  rewrite DayFromYear_next. pose proof (DaysInYear_bounds (y + Z.of_nat k)).
  lia.
Qed.

Lemma year_search_spec fuel y day :
  DayFromYear y <= day < DayFromYear (y + Z.of_nat fuel) ->
  DayFromYear (year_search fuel y day) <= day
    < DayFromYear (year_search fuel y day + 1).
Proof.
  revert y. induction fuel as [|fuel IH]; intros y H.
  - simpl in H. rewrite Z.add_0_r in H. lia.
  - cbn [year_search]. destruct (Z.leb_spec (DayFromYear (y + 1)) day).
    + apply IH. replace (y + 1 + Z.of_nat fuel) with (y + Z.of_nat (S fuel))
        by lia. lia.
    + lia.
Qed.

(** [YearFromTime] is the year ECMAScript defines: the one whose first day
    is not after the day of [t] and whose successor's first day is. *)
Lemma YearFromTime_spec t :
  DayFromYear (YearFromTime t) <= Day t < DayFromYear (YearFromTime t + 1).
Proof.
  unfold YearFromTime. apply year_search_spec.
  replace (1970 + 400 * (Day t / 146097) + Z.of_nat 400)
    with (1970 + 400 * (Day t / 146097 + 1)) by lia.
  rewrite !DayFromYear_cycle. Z.div_mod_to_equations. lia.
Qed.

Lemma YearFromTime_unique t y :
  DayFromYear y <= Day t < DayFromYear (y + 1) -> YearFromTime t = y.
Proof.
  intros H. pose proof (YearFromTime_spec t) as S.
  destruct (Z.lt_trichotomy (YearFromTime t) y) as [L|[E|L]]; [|exact E|].
  - pose proof (DayFromYear_mono (YearFromTime t + 1) y ltac:(lia)). lia.
  - pose proof (DayFromYear_mono (y + 1) (YearFromTime t) ltac:(lia)). lia.
Qed.

Lemma DayWithinYear_bounds t :
  0 <= DayWithinYear t < 365 + InLeapYear t.
Proof.
  pose proof (YearFromTime_spec t) as S. rewrite DayFromYear_next in S.
  unfold DayWithinYear, InLeapYear.
  pose proof (DaysInYear_bounds (YearFromTime t)).
  destruct (Z.eqb_spec (DaysInYear (YearFromTime t)) 366); lia.
Qed.

Lemma InLeapYear_bounds t : 0 <= InLeapYear t <= 1.
Proof. unfold InLeapYear. destruct (_ =? _); lia. Qed.

Lemma MonthFromTime_bounds t : 0 <= MonthFromTime t <= 11.
Proof.
  unfold MonthFromTime.
  repeat match goal with
         | |- context [if ?b then _ else _] => destruct b
         end; lia.
Qed.

Lemma DateFromTime_bounds t : 1 <= DateFromTime t <= 31.
Proof.
  pose proof (DayWithinYear_bounds t) as B.
  pose proof (InLeapYear_bounds t) as L.
  unfold DateFromTime, MonthFromTime.
  repeat match goal with
         | |- context [Z.ltb ?a ?b] => destruct (Z.ltb_spec a b)
         end; lia.
Qed.

(** The day within the year is given back by the month and the date. *)
Lemma DayWithinYear_of_date t :
  DayWithinYear t
  = DateFromTime t - 1
    + match MonthFromTime t with
      | 0 => 0
      | 1 => 31
      | 2 => 59 + InLeapYear t
      | 3 => 90 + InLeapYear t
      | 4 => 120 + InLeapYear t
      | 5 => 151 + InLeapYear t
      | 6 => 181 + InLeapYear t
      | 7 => 212 + InLeapYear t
      | 8 => 243 + InLeapYear t
      | 9 => 273 + InLeapYear t
      | 10 => 304 + InLeapYear t
      | _ => 334 + InLeapYear t
      end.
Proof.
  unfold DateFromTime, MonthFromTime.
  repeat match goal with
         | |- context [Z.ltb ?a ?b] => destruct (Z.ltb_spec a b)
         end; lia.
Qed.

Lemma seconds_of_fields t :
  t / 1000
  = 86400 * Day t + 3600 * HourFromTime t + 60 * MinFromTime t
    + SecFromTime t.
Proof.
  unfold Day, msPerDay, HourFromTime, MinFromTime, SecFromTime.
  Z.div_mod_to_equations. lia.
Qed.

Lemma fields_of_seconds t t' :
  t / 1000 = t' / 1000 ->
  Day t = Day t' /\ HourFromTime t = HourFromTime t' /\
  MinFromTime t = MinFromTime t' /\ SecFromTime t = SecFromTime t'.
Proof.
  intros H. unfold Day, msPerDay, HourFromTime, MinFromTime, SecFromTime.
  rewrite H.
  replace (t / 86400000) with (t / 1000 / 86400)
    by (rewrite Z.div_div by lia; reflexivity).
  replace (t' / 86400000) with (t' / 1000 / 86400)
    by (rewrite Z.div_div by lia; reflexivity).
  replace (t / 3600000) with (t / 1000 / 3600)
    by (rewrite Z.div_div by lia; reflexivity).
  replace (t' / 3600000) with (t' / 1000 / 3600)
    by (rewrite Z.div_div by lia; reflexivity).
  replace (t / 60000) with (t / 1000 / 60)
    by (rewrite Z.div_div by lia; reflexivity).
  replace (t' / 60000) with (t' / 1000 / 60)
    by (rewrite Z.div_div by lia; reflexivity).
  rewrite H. repeat split; reflexivity.
Qed.

(** ** The text *)

Lemma digit_inj a b :
  0 <= a < 10 -> 0 <= b < 10 -> digit a = digit b -> a = b.
Proof.
  intros Ha Hb H. unfold digit in H.
  apply pretty_N_char_inj in H; lia.
Qed.

Lemma digit_not_T d : Ascii.eqb (digit d) "T" = false.
Proof.
  unfold digit. destruct (Z.to_N d) as [|p]; [reflexivity|].
  do 4 (try destruct p as [p|p|]; try reflexivity).
Qed.

Lemma replace_first_digit d r :
  replace_first "T" " " (String (digit d) r)
  = String (digit d) (replace_first "T" " " r).
Proof. cbn [replace_first]. rewrite digit_not_T. reflexivity. Qed.

Lemma padded_length w n r :
  String.length (padded w n r) = (w + String.length r)%nat.
Proof.
  revert n r. induction w as [|w IH]; intros n r; [reflexivity|].
  cbn [padded]. rewrite IH. simpl. lia.
Qed.

Lemma pad_length w n : String.length (pad w n) = w.
Proof. unfold pad. rewrite padded_length. simpl. lia. Qed.

Lemma padded_inj w a b r r' :
  String.length r = String.length r' ->
  padded w a r = padded w b r' ->
  a mod 10 ^ Z.of_nat w = b mod 10 ^ Z.of_nat w /\ r = r'.
Proof.
  revert a b r r'. induction w as [|w IH]; intros a b r r' L H.
  - simpl in *. rewrite !Z.mod_1_r. auto.
  - cbn [padded] in H. apply IH in H as (Hq & Hr); [|simpl; lia].
    injection Hr as Hd ->.
    apply digit_inj in Hd; [|apply Z.mod_pos_bound; lia..].
    split; [|reflexivity].
    rewrite Nat2Z.inj_succ, Z.pow_succ_r by lia.
    rewrite !Z.rem_mul_r by lia. rewrite Hd, Hq. reflexivity.
Qed.

Lemma pad_inj w a b :
  0 <= a < 10 ^ Z.of_nat w -> 0 <= b < 10 ^ Z.of_nat w ->
  pad w a = pad w b -> a = b.
Proof.
  intros Ha Hb H. apply padded_inj in H as (H & _); [|reflexivity].
  rewrite !Z.mod_small in H by lia. exact H.
Qed.

Lemma append_inj (s1 s1' r r' : string) :
  String.length s1 = String.length s1' ->
  s1 +:+ r = s1' +:+ r' -> s1 = s1' /\ r = r'.
Proof.
  revert s1'. induction s1 as [|c s1 IH]; intros [|c' s1'] L H;
    try discriminate.
  - auto.
  - simpl in H. injection H as -> H. injection L as L.
    destruct (IH _ L H) as (-> & ->). auto.
Qed.

Lemma year_in_range t :
  year_0_start <= t <= year_9999_end -> 0 <= YearFromTime t <= 9999.
Proof.
  unfold year_0_start, year_9999_end. intros H.
  pose proof (YearFromTime_spec t) as S.
  assert (D : -719528 <= Day t <= 2932896)
    by (unfold Day, msPerDay; Z.div_mod_to_equations; lia).
  split.
  - destruct (Z.le_gt_cases 0 (YearFromTime t)) as [|L]; [assumption|].
    pose proof (DayFromYear_mono (YearFromTime t + 1) 0 ltac:(lia)) as M.
    change (DayFromYear 0) with (-719528) in M. lia.
  - destruct (Z.le_gt_cases (YearFromTime t) 9999) as [|L]; [assumption|].
    pose proof (DayFromYear_mono 10000 (YearFromTime t) ltac:(lia)) as M.
    change (DayFromYear 10000) with 2932897 in M. lia.
Qed.

Lemma year_out_of_range t :
  t < year_0_start \/ year_9999_end < t ->
  YearFromTime t < 0 \/ 9999 < YearFromTime t.
Proof.
  unfold year_0_start, year_9999_end. intros H.
  pose proof (YearFromTime_spec t) as S.
  destruct H as [H|H].
  - left. assert (D : Day t < -719528)
      by (unfold Day, msPerDay; Z.div_mod_to_equations; lia).
    destruct (Z.le_gt_cases 0 (YearFromTime t)) as [L|]; [|assumption].
    pose proof (DayFromYear_mono 0 (YearFromTime t) L) as M.
    change (DayFromYear 0) with (-719528) in M. lia.
  - right. assert (D : 2932897 <= Day t)
      by (unfold Day, msPerDay; Z.div_mod_to_equations; lia).
    destruct (Z.le_gt_cases (YearFromTime t) 9999) as [L|]; [|assumption].
    pose proof (DayFromYear_mono (YearFromTime t + 1) 10000 ltac:(lia)) as M.
    change (DayFromYear 10000) with 2932897 in M. lia.
Qed.

Lemma replace_first_skip c r :
  Ascii.eqb c "T" = false ->
  replace_first "T" " " (String c r) = String c (replace_first "T" " " r).
Proof. intros H. cbn [replace_first]. rewrite H. reflexivity. Qed.

Lemma replace_first_hit r :
  replace_first "T" " " (String "T" r) = String " " r.
Proof. reflexivity. Qed.

Ltac skeleton :=
  cbv [pad padded String.append];
  repeat (rewrite replace_first_digit
          || rewrite replace_first_skip by reflexivity);
  rewrite replace_first_hit;
  cbn [substring].

Lemma formatTimestamp_seconds t :
  year_0_start <= t <= year_9999_end ->
  formatTimestamp (Some t) = Returned (seconds_text t).
Proof.
  intros H. pose proof (year_in_range t H) as Y.
  unfold formatTimestamp. change (default 0 (Some t)) with t.
  replace (Z.abs t <=? max_time) with true
    by (symmetry; apply Z.leb_le;
        unfold year_0_start, year_9999_end, max_time in *; lia).
  f_equal. unfold toISOString, year_text, seconds_text.
  replace ((0 <=? YearFromTime t) && (YearFromTime t <=? 9999)) with true
    by (symmetry; apply andb_true_iff; split; apply Z.leb_le; lia).
  skeleton. reflexivity.
Qed.

Lemma formatTimestamp_minutes t :
  Z.abs t <= max_time ->
  t < year_0_start \/ year_9999_end < t ->
  formatTimestamp (Some t) = Returned (minutes_text t).
Proof.
  intros A H. pose proof (year_out_of_range t H) as Y.
  unfold formatTimestamp. change (default 0 (Some t)) with t.
  replace (Z.abs t <=? max_time) with true
    by (symmetry; apply Z.leb_le; exact A).
  f_equal. unfold toISOString, year_text, minutes_text.
  replace ((0 <=? YearFromTime t) && (YearFromTime t <=? 9999)) with false
    by (symmetry; apply andb_false_iff;
        destruct Y; [left; apply Z.leb_gt | right; apply Z.leb_gt]; lia).
  destruct (YearFromTime t <? 0); skeleton; reflexivity.
Qed.

Lemma date_of_day t t' :
  Day t = Day t' ->
  YearFromTime t = YearFromTime t' /\ MonthFromTime t = MonthFromTime t' /\
  DateFromTime t = DateFromTime t'.
Proof.
  intros H.
  assert (Y : YearFromTime t = YearFromTime t')
    by (unfold YearFromTime; rewrite H; reflexivity).
  assert (L : InLeapYear t = InLeapYear t')
    by (unfold InLeapYear; rewrite Y; reflexivity).
  assert (W : DayWithinYear t = DayWithinYear t')
    by (unfold DayWithinYear; rewrite Y, H; reflexivity).
  assert (M : MonthFromTime t = MonthFromTime t')
    by (unfold MonthFromTime; rewrite W, L; reflexivity).
  repeat split; try assumption.
  unfold DateFromTime. rewrite W, L, M. reflexivity.
Qed.

Lemma day_of_date t t' :
  YearFromTime t = YearFromTime t' -> MonthFromTime t = MonthFromTime t' ->
  DateFromTime t = DateFromTime t' -> Day t = Day t'.
Proof.
  intros Y M D.
  assert (L : InLeapYear t = InLeapYear t')
    by (unfold InLeapYear; rewrite Y; reflexivity).
  pose proof (DayWithinYear_of_date t) as W.
  pose proof (DayWithinYear_of_date t') as W'.
  rewrite M, D, L in W. rewrite <- W' in W.
  unfold DayWithinYear in W. rewrite Y in W. lia.
Qed.

Lemma time_fields_bounds t :
  0 <= HourFromTime t < 24 /\ 0 <= MinFromTime t < 60 /\
  0 <= SecFromTime t < 60.
Proof.
  unfold HourFromTime, MinFromTime, SecFromTime.
  repeat split; apply Z.mod_pos_bound; lia.
Qed.

Ltac split_text H H1 :=
  apply append_inj in H as (H1 & H); [|rewrite ?pad_length; reflexivity].

Ltac pad_value H w bound :=
  apply (pad_inj w) in H;
  [|change (10 ^ Z.of_nat w) with bound; lia..].

(** X19. For the times of the years 0 to 9999, [formatTimestamp] gives a
    text of 19 characters, and two such times have the same text exactly
    when they lie in the same second: the milliseconds are cut off, and
    nothing else is lost. *)
Theorem formatTimestamp_resolution t t' :
  year_0_start <= t <= year_9999_end ->
  year_0_start <= t' <= year_9999_end ->
  (exists s, formatTimestamp (Some t) = Returned s /\
             String.length s = 19%nat) /\
  (formatTimestamp (Some t) = formatTimestamp (Some t')
   <-> t / 1000 = t' / 1000).
Proof.
  intros R R'.
  rewrite (formatTimestamp_seconds t R), (formatTimestamp_seconds t' R').
  split.
  - eexists. split; [reflexivity|].
    unfold seconds_text. rewrite !length_append, !pad_length. reflexivity.
  - split.
    + intros H0.
      assert (H : seconds_text t = seconds_text t') by congruence.
      clear H0. unfold seconds_text in H.
      split_text H HY. split_text H H1. split_text H HM. split_text H H2.
      split_text H HD. split_text H H3. split_text H Hh. split_text H H4.
      split_text H Hm. split_text H H5.
      pose proof (year_in_range t R). pose proof (year_in_range t' R').
      pose proof (MonthFromTime_bounds t).
      pose proof (MonthFromTime_bounds t').
      pose proof (DateFromTime_bounds t).
      pose proof (DateFromTime_bounds t').
      pose proof (time_fields_bounds t) as (? & ? & ?).
      pose proof (time_fields_bounds t') as (? & ? & ?).
      pad_value HY 4%nat 10000. pad_value HM 2%nat 100.
      pad_value HD 2%nat 100. pad_value Hh 2%nat 100.
      pad_value Hm 2%nat 100. pad_value H 2%nat 100.
      assert (D : Day t = Day t') by (apply day_of_date; lia).
      rewrite (seconds_of_fields t), (seconds_of_fields t'). lia.
    + intros H. destruct (fields_of_seconds _ _ H) as (D & Hh & Hm & Hs).
      destruct (date_of_day _ _ D) as (Y & M & Dt).
      unfold seconds_text. rewrite Y, M, Dt, Hh, Hm, Hs. reflexivity.
Qed.

Lemma formatTimestamp_resolution_witness :
  (exists s, formatTimestamp (Some 1709210096789) = Returned s /\
             String.length s = 19%nat) /\
  (formatTimestamp (Some 1709210096789) = formatTimestamp (Some 1709210096001)
   <-> 1709210096789 / 1000 = 1709210096001 / 1000).
Proof.
  apply (formatTimestamp_resolution 1709210096789 1709210096001);
    unfold year_0_start, year_9999_end; lia.
Defined.

Lemma year_of_valid_time t :
  Z.abs t <= max_time -> -271821 <= YearFromTime t <= 275760.
Proof.
  unfold max_time. intros H.
  pose proof (YearFromTime_spec t) as S.
  assert (D : -100000000 <= Day t <= 100000000)
    by (unfold Day, msPerDay; Z.div_mod_to_equations; lia).
  split.
  - destruct (Z.le_gt_cases (-271821) (YearFromTime t)) as [|L];
      [assumption|].
    pose proof (DayFromYear_mono (YearFromTime t + 1) (-271821) ltac:(lia))
      as M.
    change (DayFromYear (-271821)) with (-100000109) in M. lia.
  - destruct (Z.le_gt_cases (YearFromTime t) 275760) as [|L]; [assumption|].
    pose proof (DayFromYear_mono 275761 (YearFromTime t) ltac:(lia)) as M.
    change (DayFromYear 275761) with 100000110 in M. lia.
Qed.

Lemma minutes_of_fields t :
  t / 60000 = 1440 * Day t + 60 * HourFromTime t + MinFromTime t.
Proof.
  unfold Day, msPerDay, HourFromTime, MinFromTime.
  Z.div_mod_to_equations. lia.
Qed.

Lemma fields_of_minutes t t' :
  t / 60000 = t' / 60000 ->
  Day t = Day t' /\ HourFromTime t = HourFromTime t' /\
  MinFromTime t = MinFromTime t'.
Proof.
  intros H. unfold Day, msPerDay, HourFromTime, MinFromTime.
  replace (t / 86400000) with (t / 60000 / 1440)
    by (rewrite Z.div_div by lia; reflexivity).
  replace (t' / 86400000) with (t' / 60000 / 1440)
    by (rewrite Z.div_div by lia; reflexivity).
  replace (t / 3600000) with (t / 60000 / 60)
    by (rewrite Z.div_div by lia; reflexivity).
  replace (t' / 3600000) with (t' / 60000 / 60)
    by (rewrite Z.div_div by lia; reflexivity).
  rewrite H. repeat split; reflexivity.
Qed.

(** X20. For a valid time outside the years 0 to 9999, the year takes a
    sign and six digits, and the 19 characters end at the minutes: two such
    times have the same text exactly when they lie in the same minute, so
    the seconds are cut off as well. *)
Theorem formatTimestamp_expanded_years t t' :
  Z.abs t <= max_time -> Z.abs t' <= max_time ->
  t < year_0_start \/ year_9999_end < t ->
  t' < year_0_start \/ year_9999_end < t' ->
  (exists s, formatTimestamp (Some t) = Returned s /\
             String.length s = 19%nat) /\
  (formatTimestamp (Some t) = formatTimestamp (Some t')
   <-> t / 60000 = t' / 60000).
Proof.
  intros A A' R R'.
  rewrite (formatTimestamp_minutes t A R), (formatTimestamp_minutes t' A' R').
  split.
  - eexists. split; [reflexivity|].
    unfold minutes_text. rewrite !length_append, !pad_length.
    destruct (YearFromTime t <? 0); reflexivity.
  - split.
    + intros H0.
      assert (H : minutes_text t = minutes_text t') by congruence.
      clear H0. unfold minutes_text in H.
      pose proof (year_of_valid_time t A).
      pose proof (year_of_valid_time t' A').
      pose proof (MonthFromTime_bounds t).
      pose proof (MonthFromTime_bounds t').
      pose proof (DateFromTime_bounds t).
      pose proof (DateFromTime_bounds t').
      pose proof (time_fields_bounds t) as (? & ? & ?).
      pose proof (time_fields_bounds t') as (? & ? & ?).
      destruct (Z.ltb_spec (YearFromTime t) 0) as [N|N],
        (Z.ltb_spec (YearFromTime t') 0) as [N'|N'];
        split_text H QS; try discriminate;
        split_text H HY; split_text H Q1; split_text H HM;
        split_text H Q2; split_text H HD; split_text H Q3;
        split_text H Hh; split_text H Q4;
        pad_value HY 6%nat 1000000; pad_value HM 2%nat 100;
        pad_value HD 2%nat 100; pad_value Hh 2%nat 100;
        pad_value H 2%nat 100;
        assert (D : Day t = Day t') by (apply day_of_date; lia);
        rewrite (minutes_of_fields t), (minutes_of_fields t'); lia.
    + intros H. destruct (fields_of_minutes _ _ H) as (D & Hh & Hm).
      destruct (date_of_day _ _ D) as (Y & M & Dt).
      unfold minutes_text. rewrite Y, M, Dt, Hh, Hm. reflexivity.
Qed.

Lemma formatTimestamp_expanded_years_witness :
  (exists s, formatTimestamp (Some 253402300800000) = Returned s /\
             String.length s = 19%nat) /\
  (formatTimestamp (Some 253402300800000)
     = formatTimestamp (Some 253402300859999)
   <-> 253402300800000 / 60000 = 253402300859999 / 60000).
Proof.
  apply (formatTimestamp_expanded_years 253402300800000 253402300859999);
    unfold max_time, year_0_start, year_9999_end; lia.
Defined.
